(** * Zain-FA23-BSE-047: the two Express demos as functions on explicit state

    The repository holds two REST demos.

    - "Mini Online Store API": [controllers/userController.js] keeps the users
      in a module-level array; [middleware/auth.js] guards [/users].
    - "CRUD Operations Using Multiple Databases": [routes/sqliteRoutes.js],
      [routes/mysqlRoutes.js] and [routes/mongoRoutes.js] expose the same five
      operations over a SQLite file, a MySQL pool and a Mongoose model;
      [server.js] mounts them under [/api/sqlite], [/api/mysql], [/api/mongo].

    Every handler is embedded as a function from the request and the current
    store to the response and the next store.  The stores themselves are
    outside the repository; they are modelled from the [CREATE TABLE]
    statements of [config/sqlite.js] and [config/mysql.js], from the schema of
    [config/mongodb.js] and from the statements the routes send.  What only
    the drivers decide is a parameter ([Drivers]), and the properties are
    proved for every choice of it. *)

From Stdlib Require Import ZArith List String Ascii Bool Lia.
From Stdlib Require Import Permutation Sorted.
From Stdlib Require Import DecimalString DecimalPos DecimalZ.
Import ListNotations.

Open Scope string_scope.
Open Scope Z_scope.

Set Warnings "-register-all".

(** ** JavaScript values *)

Module Js.

(** The values that request bodies carry and that [res.json] receives.
    Numbers are the integers ([JNum]) and [NaN]; this is exact for every
    number the handlers compute (array lengths, parsed ids, row ids) as long
    as it stays inside the safe-integer range.  [JDate] stands for a
    timestamp as the store returns it; its textual form is not modelled. *)
Inductive Json : Type :=
| JUndefined
| JNull
| JBool (b : bool)
| JNum (z : Z)
| JNaN
| JStr (s : string)
| JDate (t : Z)
| JArr (items : list Json)
| JObj (fields : list (string * Json)).

(** [!v] is [negb (truthy v)]. *)
Definition truthy (v : Json) : bool :=
  match v with
  | JUndefined | JNull | JNaN => false
  | JBool b => b
  | JNum z => negb (z =? 0)
  | JStr s => negb (s =? "")%string
  | JDate _ | JArr _ | JObj _ => true
  end.

(** [a || b] *)
Definition or_else (a b : Json) : Json := if truthy a then a else b.

Fixpoint assoc (k : string) (fs : list (string * Json)) : option Json :=
  match fs with
  | [] => None
  | (k', v) :: fs' => if (k =? k')%string then Some v else assoc k fs'
  end.

(** Property read [o.k]; [None] when the object has no such key. *)
Definition get (k : string) (o : Json) : option Json :=
  match o with
  | JObj fs => assoc k fs
  | _ => None
  end.

(** *** [parseInt] *)

(** White space that [parseInt] skips, for characters below 256. *)
Definition is_space (c : ascii) : bool :=
  let n := nat_of_ascii c in
  ((9 <=? n) && (n <=? 13) || (n =? 32) || (n =? 160))%nat.

Fixpoint skip_spaces (s : string) : string :=
  match s with
  | String c s' => if is_space c then skip_spaces s' else s
  | EmptyString => s
  end.

(** Value of a character as a digit in radix up to 36. *)
Definition digit_value (c : ascii) : option Z :=
  let n := Z.of_nat (nat_of_ascii c) in
  if (48 <=? n) && (n <=? 57) then Some (n - 48)
  else if (97 <=? n) && (n <=? 122) then Some (n - 87)
  else if (65 <=? n) && (n <=? 90) then Some (n - 55)
  else None.

(** The longest prefix of radix-[R] digits, as a number; [acc] is [None]
    until the first digit has been read. *)
Fixpoint digits (R : Z) (s : string) (acc : option Z) : option Z :=
  match s with
  | EmptyString => acc
  | String c s' =>
      match digit_value c with
      | Some d =>
          if d <? R
          then digits R s' (Some (R * match acc with Some a => a | None => 0 end + d))
          else acc
      | None => acc
      end
  end.

Definition strip_sign (s : string) : Z * string :=
  match s with
  | String "-" s' => (-1, s')
  | String "+" s' => (1, s')
  | _ => (1, s)
  end.

Definition strip_hex_prefix (s : string) : option string :=
  match s with
  | String "0" (String "x" s') => Some s'
  | String "0" (String "X" s') => Some s'
  | _ => None
  end.

(** [parseInt(s, radix)]; [radix = 0] stands for an absent radix.  [None] is
    [NaN]. *)
Definition parseInt (s : string) (radix : Z) : option Z :=
  let '(sign, body) := strip_sign (skip_spaces s) in
  if (radix =? 0) || (radix =? 16) then
    match strip_hex_prefix body with
    | Some hex => option_map (Z.mul sign) (digits 16 hex None)
    | None =>
        option_map (Z.mul sign) (digits (if radix =? 0 then 10 else radix) body None)
    end
  else if (radix <? 2) || (36 <? radix) then None
  else option_map (Z.mul sign) (digits radix body None).

(** The source's [parseInt] returns a Number, the double nearest to the
    integer read.  The two are the same for every integer of magnitude up to
    [2 ^ 53], and [None] is [NaN] exactly; for a longer numeral the double is
    a rounded value, which this model does not follow.  [safe_integer] tests
    that a result is one the model has as the source has it; what is stated
    about the value of [parseInt] is stated for such results. *)
Definition safe_integer (n : option Z) : bool :=
  match n with
  | Some z => Z.abs z <=? 2 ^ 53
  | None => true
  end.


Definition number (n : option Z) : Json :=
  match n with
  | Some z => JNum z
  | None => JNaN
  end.

(** [String(n)] for an integer, and the canonical reader of that form. *)
Definition string_of_Z (z : Z) : string := NilZero.string_of_int (Z.to_int z).

Definition Z_of_string (s : string) : option Z :=
  option_map Z.of_int (NilZero.int_of_string s).

(** Template-literal interpolation of a number: the decimal digits of an
    integer [safe_integer] admits (the source prints a Number of [10 ^ 21]
    or more with an exponent). *)
Definition show_number (n : option Z) : string :=
  match n with
  | Some z => string_of_Z z
  | None => "NaN"
  end.

End Js.

(** ** Responses and requests *)

Module Http.
Import Js.

(** What a handler answers: the status given to [res.status] (200 when the
    handler calls [res.json] directly) and the value given to [res.json]. *)
Record Response : Type := mkResponse { status : Z; body : Json }.

Definition json (code : Z) (fields : list (string * Json)) : Response :=
  {| status := code; body := JObj fields |}.

(** [{ success: false, message }] *)
Definition failure (code : Z) (message : string) : Response :=
  json code [("success", JBool false); ("message", JStr message)].

Definition success (r : Response) : option Json := get "success" (body r).
Definition data (r : Response) : option Json := get "data" (body r).
Definition message (r : Response) : option Json := get "message" (body r).
Definition count (r : Response) : option Json := get "count" (body r).

End Http.

Module Req.
Import Js.

(** A field of the body of a request to the CRUD demo.  The pages of the
    demo send the three fields as trimmed strings
    ([public/js/sqlite.js], the two submit handlers); a client can also leave
    a key out or send [null].  Other JSON values are outside this model:
    what a store makes of them is decided by its driver alone. *)
Inductive Field : Type :=
| Absent
| Null
| Text (s : string).

(** [const { name, email, phone } = req.body] *)
Record Body : Type := mkBody { name : Field; email : Field; phone : Field }.

Definition texts (n e p : string) : Body :=
  {| name := Text n; email := Text e; phone := Text p |}.

Definition json_of_field (f : Field) : Json :=
  match f with
  | Absent => JUndefined
  | Null => JNull
  | Text s => JStr s
  end.

(** The five routes of a router; [id] is [req.params.id], always a string. *)
Inductive Op : Type :=
| ListUsers
| GetUser (id : string)
| CreateUser (b : Body)
| UpdateUser (id : string) (b : Body)
| DeleteUser (id : string).

End Req.

(** ** What the drivers decide

    Some behaviour is fixed by the drivers, not by the repository, and is a
    parameter here.

    - SQLite and MySQL compare the integer column [id] with the text of
      [req.params.id], and Mongoose casts that text to an ObjectId.  The only
      facts used about these conversions are that a store reads back the
      decimal form of an integer, and that Mongoose accepts the 24-digit
      hexadecimal form it prints.
    - MySQL in strict mode (the default) turns the warning for a text it
      cannot read as a number without dropping part of it (1292) into an
      error when the statement changes data: an [UPDATE] or [DELETE] whose
      id is such a text is refused, a [SELECT] is not.  Which texts these
      are is the server's; the decimal form of an integer is none of them.
    - A key that is missing from the body reaches the driver as
      [undefined].  mysql2 refuses to bind it; whether better-sqlite3 refuses
      it or binds [NULL], and whether Mongoose drops it from an update or
      validates it, depends on the version in use. *)

Definition is_lower_hex (c : ascii) : bool :=
  let n := nat_of_ascii c in
  ((48 <=? n) && (n <=? 57) || (97 <=? n) && (n <=? 102))%nat.

Fixpoint all_chars (p : ascii -> bool) (s : string) : bool :=
  match s with
  | EmptyString => true
  | String c s' => p c && all_chars p s'
  end.

(** An ObjectId in the form [toHexString] prints. *)
Definition is_ObjectId (s : string) : bool :=
  (String.length s =? 24)%nat && all_chars is_lower_hex s.

Class Drivers : Type := {
  sqlite_int_of_text : string -> option Z;
  mysql_int_of_text : string -> option Z;
  cast_ObjectId : string -> option string;
  mysql_refuses_id : string -> bool;
  sqlite_undefined_is_null : bool;
  mongoose_drops_undefined : bool;
  sqlite_reads_decimal : forall z, sqlite_int_of_text (Js.string_of_Z z) = Some z;
  mysql_reads_decimal : forall z, mysql_int_of_text (Js.string_of_Z z) = Some z;
  mysql_takes_decimal : forall z, mysql_refuses_id (Js.string_of_Z z) = false;
  cast_reads_hex : forall o, is_ObjectId o = true -> cast_ObjectId o = Some o
}.

(** A reference instance, used for the concrete runs below: the stores read
    decimal integer literals and nothing else, MySQL refuses every other
    text as the id of an [UPDATE] or [DELETE], Mongoose accepts 24
    hexadecimal digits in either case and nothing else; better-sqlite3
    refuses [undefined] and Mongoose drops it from an update. *)

Definition is_hex (c : ascii) : bool :=
  let n := nat_of_ascii c in
  ((48 <=? n) && (n <=? 57) || (97 <=? n) && (n <=? 102)
   || (65 <=? n) && (n <=? 70))%nat.

Definition lower (c : ascii) : ascii :=
  let n := nat_of_ascii c in
  if ((65 <=? n) && (n <=? 90))%nat then ascii_of_nat (n + 32) else c.

Fixpoint lower_string (s : string) : string :=
  match s with
  | EmptyString => EmptyString
  | String c s' => String (lower c) (lower_string s')
  end.

Definition cast_hex24 (s : string) : option string :=
  if (String.length s =? 24)%nat && all_chars is_hex s
  then Some (lower_string s) else None.

Lemma Z_of_string_of_Z z : Js.Z_of_string (Js.string_of_Z z) = Some z.
Proof.
  unfold Js.Z_of_string, Js.string_of_Z.
  rewrite NilZero.isi.
  - simpl. now rewrite DecimalZ.of_to.
  - destruct z as [|p|p]; simpl; try discriminate.
    intros [= E]. exact (DecimalPos.Unsigned.to_uint_nonnil p E).
  - destruct z as [|p|p]; simpl; try discriminate.
    intros [= E]. exact (DecimalPos.Unsigned.to_uint_nonnil p E).
Qed.

Lemma lower_hex_fixed s : all_chars is_lower_hex s = true -> lower_string s = s.
Proof.
  induction s as [|c s IH]; simpl; [reflexivity|].
  intros H. apply andb_true_iff in H as [Hc Hs].
  rewrite (IH Hs). f_equal.
  unfold lower, is_lower_hex in *.
  destruct ((65 <=? nat_of_ascii c) && (nat_of_ascii c <=? 90))%nat eqn:E; [|reflexivity].
  exfalso.
  apply andb_true_iff in E as [E1 E2].
  apply Nat.leb_le in E1, E2.
  apply orb_true_iff in Hc as [Hc|Hc]; apply andb_true_iff in Hc as [H1 H2];
    apply Nat.leb_le in H1, H2; lia.
Qed.

Lemma lower_hex_is_hex s : all_chars is_lower_hex s = true -> all_chars is_hex s = true.
Proof.
  induction s as [|c s IH]; simpl; [reflexivity|].
  intros H. apply andb_true_iff in H as [Hc Hs].
  rewrite (IH Hs), andb_true_r.
  unfold is_hex. unfold is_lower_hex in Hc. now rewrite Hc.
Qed.

Lemma cast_hex24_canonical o : is_ObjectId o = true -> cast_hex24 o = Some o.
Proof.
  unfold is_ObjectId, cast_hex24. intros H.
  apply andb_true_iff in H as [Hl Hh].
  rewrite Hl, (lower_hex_is_hex _ Hh), (lower_hex_fixed _ Hh). reflexivity.
Qed.

Definition no_decimal (s : string) : bool :=
  match Js.Z_of_string s with
  | Some _ => false
  | None => true
  end.

Lemma string_of_Z_decimal z : no_decimal (Js.string_of_Z z) = false.
Proof. unfold no_decimal. now rewrite Z_of_string_of_Z. Qed.

Definition reference_drivers : Drivers := {|
  sqlite_int_of_text := Js.Z_of_string;
  mysql_int_of_text := Js.Z_of_string;
  cast_ObjectId := cast_hex24;
  mysql_refuses_id := no_decimal;
  sqlite_undefined_is_null := false;
  mongoose_drops_undefined := true;
  sqlite_reads_decimal := Z_of_string_of_Z;
  mysql_reads_decimal := Z_of_string_of_Z;
  mysql_takes_decimal := string_of_Z_decimal;
  cast_reads_hex := cast_hex24_canonical
|}.

(** What the environment supplies with a request: the clock reading the
    store uses for [CURRENT_TIMESTAMP] and for Mongoose's timestamps, and the
    ObjectId the driver generates for a new document. *)
Record Env : Type := mkEnv { now : Z; fresh_oid : string }.

(** [ORDER BY key DESC] and [sort({ key: -1 })]: a stable insertion sort,
    largest key first.  Rows with equal keys come out in the order of the
    scan; the stores promise no order among them, and nothing stated about a
    listing below says more of it than that it is sorted and holds the
    stored users, or that an update of other columns leaves it in place. *)
Fixpoint insert_desc {A : Type} (key : A -> Z) (x : A) (l : list A) : list A :=
  match l with
  | [] => [x]
  | y :: l' => if key y <=? key x then x :: l else y :: insert_desc key x l'
  end.

Definition order_by_desc {A : Type} (key : A -> Z) (l : list A) : list A :=
  fold_right (insert_desc key) [] l.

(** [x] may stand before [y] in a descending list. *)
Definition descending {A : Type} (key : A -> Z) (x y : A) : Prop := key y <= key x.

(** ** The [users] table of the two SQL stores *)

Module Sql.
Import Js Req.

Record Row : Type := mkRow {
  id : Z;
  name : string;
  email : string;
  phone : string;
  created_at : Z;
  updated_at : Z
}.

(** What differs between the two [CREATE TABLE users] statements: the width
    of the text columns, the range of the key, and MySQL's
    [ON UPDATE CURRENT_TIMESTAMP] on [updated_at]. *)
Record Schema : Type := mkSchema {
  name_width : option nat;
  email_width : option nat;
  phone_width : option nat;
  max_id : Z;
  on_update_now : bool
}.

(** The rows in insertion order and the largest key handed out so far
    ([AUTOINCREMENT] / [AUTO_INCREMENT] never reuse a key). *)
Record Table : Type := mkTable { rows : list Row; seq : Z }.

Definition empty : Table := {| rows := []; seq := 0 |}.

Inductive Error : Type :=
| NoHandle
| BindUndefined
| NotNull (column : string)
| TooLong (column : string)
| IncorrectValue
| KeysExhausted.

(** [error.message]; the drivers' own wording is not reproduced. *)
Definition message (e : Error) : string :=
  match e with
  | NoHandle => "Cannot read properties of undefined"
  | BindUndefined => "bind parameters must not be undefined"
  | NotNull c => "NOT NULL constraint failed: users." ++ c
  | TooLong c => "Data too long for column " ++ c
  | IncorrectValue => "Truncated incorrect DOUBLE value"
  | KeysExhausted => "no key left for a new row"
  end.

Definition Result (A : Type) : Type := Error + A.

Definition andThen {A B : Type} (r : Result A) (k : A -> Result B) : Result B :=
  match r with
  | inl e => inl e
  | inr a => k a
  end.

Notation "x <- r ;; k" := (andThen r (fun x => k))
  (at level 61, r at next level, right associativity).

(** Binding a parameter: [null] is SQL [NULL]; [undefined] is refused,
    unless the driver binds it as [NULL] too. *)
Definition bind (undefined_is_null : bool) (f : Field) : Result (option string) :=
  match f with
  | Absent => if undefined_is_null then inr None else inl BindUndefined
  | Null => inr None
  | Text s => inr (Some s)
  end.

(** Text columns.  A [string] stands for a sequence of characters (the
    bodies are taken to hold characters below 256 only), so [String.length]
    counts characters, as the width of a [VARCHAR] column does. *)
Fixpoint only_spaces (s : string) : bool :=
  match s with
  | EmptyString => true
  | String c s' => (c =? " ")%char && only_spaces s'
  end.

Fixpoint first_chars (w : nat) (s : string) : string :=
  match w, s with
  | S w', String c s' => String c (first_chars w' s')
  | _, _ => EmptyString
  end.

Fixpoint after_chars (w : nat) (s : string) : string :=
  match w, s with
  | S w', String c s' => after_chars w' s'
  | _, _ => s
  end.

(** What a text column of the given width keeps of a text: all of it when
    it fits, and in [TEXT] columns, which have no width.  Of a text that is
    too long for a [VARCHAR] column MySQL keeps the first [w] characters
    when only spaces follow them (excess trailing spaces are cut off with a
    warning in every SQL mode); any other text that is too long is refused
    in strict mode ([None]). *)
Definition kept (width : option nat) (s : string) : option string :=
  match width with
  | None => Some s
  | Some w =>
      if (String.length s <=? w)%nat then Some s
      else if only_spaces (after_chars w s) then Some (first_chars w s)
      else None
  end.

(** Storing a bound value in a [NOT NULL] text column of the given
    width. *)
Definition store (width : option nat) (column : string) (v : option string)
  : Result string :=
  match v with
  | None => inl (NotNull column)
  | Some s =>
      match kept width s with
      | Some s' => inr s'
      | None => inl (TooLong column)
      end
  end.

(** [INSERT INTO users (name, email, phone) VALUES (?, ?, ?)]; the result
    carries [lastInsertRowid] / [insertId]. *)
Definition insert (sch : Schema) (lenient : bool) (n e p : Field) (now : Z)
  (t : Table) : Result (Z * Table) :=
  vn <- bind lenient n ;; ve <- bind lenient e ;; vp <- bind lenient p ;;
  sn <- store (name_width sch) "name" vn ;;
  se <- store (email_width sch) "email" ve ;;
  sp <- store (phone_width sch) "phone" vp ;;
  if max_id sch <=? seq t then inl KeysExhausted
  else
    let i := seq t + 1 in
    inr (i, {| rows := rows t ++ [mkRow i sn se sp now now]; seq := i |}).

(** [SELECT * FROM users ORDER BY created_at DESC] *)
Definition select_all (t : Table) : list Row := order_by_desc created_at (rows t).

(** [WHERE id = ?] with the parameter as the store read it. *)
Definition id_is (v : option Z) (r : Row) : bool :=
  match v with
  | Some z => z =? id r
  | None => false
  end.

(** [SELECT * FROM users WHERE id = ?] *)
Definition select_by_id (v : option Z) (t : Table) : option Row :=
  find (id_is v) (rows t).

(** The row an [UPDATE] writes over [r].  [touch] says that the statement
    itself assigns [updated_at = CURRENT_TIMESTAMP]; otherwise the column
    follows the schema: with [ON UPDATE CURRENT_TIMESTAMP] it moves only when
    another column changes. *)
Definition updated (sch : Schema) (touch : bool) (sn se sp : string) (now : Z)
  (r : Row) : Row :=
  let same := ((sn =? name r) && (se =? email r) && (sp =? phone r))%string in
  {| id := id r;
     name := sn;
     email := se;
     phone := sp;
     created_at := created_at r;
     updated_at :=
       if touch || (on_update_now sch && negb same) then now else updated_at r |}.

(** [UPDATE users SET name = ?, email = ?, phone = ? ... WHERE id = ?]; the
    result carries the number of rows the [WHERE] matched ([changes] in
    better-sqlite3, [affectedRows] in mysql2, which asks the server for the
    found rows).  [refused] says that the server refuses the text of the id
    in a statement that changes data (error 1292 of MySQL in strict mode).
    The column constraints are checked on the rows that are written, so a
    statement that matches nothing succeeds with 0. *)
Definition update (sch : Schema) (lenient touch : bool) (n e p : Field) (now : Z)
  (refused : bool) (v : option Z) (t : Table) : Result (Z * Table) :=
  vn <- bind lenient n ;; ve <- bind lenient e ;; vp <- bind lenient p ;;
  if refused then inl IncorrectValue
  else if existsb (id_is v) (rows t) then
    sn <- store (name_width sch) "name" vn ;;
    se <- store (email_width sch) "email" ve ;;
    sp <- store (phone_width sch) "phone" vp ;;
    inr (Z.of_nat (List.length (filter (id_is v) (rows t))),
         {| rows := map (fun r => if id_is v r then updated sch touch sn se sp now r else r)
                        (rows t);
            seq := seq t |})
  else inr (0, t).

(** [DELETE FROM users WHERE id = ?]; [refused] as for [update]. *)
Definition delete (refused : bool) (v : option Z) (t : Table) : Result (Z * Table) :=
  if refused then inl IncorrectValue
  else
    inr (Z.of_nat (List.length (filter (id_is v) (rows t))),
         {| rows := filter (fun r => negb (id_is v r)) (rows t); seq := seq t |}).

(** A row as [SELECT *] returns it. *)
Definition json_of_row (r : Row) : Json :=
  JObj [("id", JNum (id r)); ("name", JStr (name r)); ("email", JStr (email r));
        ("phone", JStr (phone r)); ("created_at", JDate (created_at r));
        ("updated_at", JDate (updated_at r))].

(** [{ id, name, email, phone }] with the fields as the request gave them. *)
Definition echo (i : Json) (b : Body) : Json :=
  JObj [("id", i); ("name", json_of_field (Req.name b));
        ("email", json_of_field (Req.email b));
        ("phone", json_of_field (Req.phone b))].

End Sql.

(** ** routes/sqliteRoutes.js *)

Module SqliteRoutes.
Import Js Http Req.

(** [config/sqlite.js]: [id INTEGER PRIMARY KEY AUTOINCREMENT], three
    [TEXT NOT NULL] columns, two [DATETIME DEFAULT CURRENT_TIMESTAMP]. *)
Definition schema : Sql.Schema :=
  {| Sql.name_width := None; Sql.email_width := None; Sql.phone_width := None;
     Sql.max_id := 2 ^ 63 - 1; Sql.on_update_now := false |}.

(** The handlers take [getDB()], which is [undefined] ([None]) when
    [connectSQLite] failed; every use of it then throws inside [try]. *)

Definition post_users `{Drivers} (env : Env) (b : Body) (db : option Sql.Table)
  : Response * option Sql.Table :=
  match db with
  | None => (failure 500 (Sql.message Sql.NoHandle), db)
  | Some t =>
      match Sql.insert schema sqlite_undefined_is_null (name b) (email b) (phone b)
                       (now env) t with
      | inr (lastInsertRowid, t') =>
          (json 201 [("success", JBool true);
                     ("data", Sql.echo (JNum lastInsertRowid) b)], Some t')
      | inl error => (failure 500 (Sql.message error), db)
      end
  end.

Definition get_users (db : option Sql.Table) : Response * option Sql.Table :=
  match db with
  | None => (failure 500 (Sql.message Sql.NoHandle), db)
  | Some t =>
      let users := Sql.select_all t in
      (json 200 [("success", JBool true);
                 ("data", JArr (map Sql.json_of_row users))], db)
  end.

Definition get_user `{Drivers} (id : string) (db : option Sql.Table)
  : Response * option Sql.Table :=
  match db with
  | None => (failure 500 (Sql.message Sql.NoHandle), db)
  | Some t =>
      match Sql.select_by_id (sqlite_int_of_text id) t with
      | None => (failure 404 "User not found", db)
      | Some user =>
          (json 200 [("success", JBool true); ("data", Sql.json_of_row user)], db)
      end
  end.

Definition put_user `{Drivers} (env : Env) (id : string) (b : Body)
  (db : option Sql.Table) : Response * option Sql.Table :=
  match db with
  | None => (failure 500 (Sql.message Sql.NoHandle), db)
  | Some t =>
      match Sql.update schema sqlite_undefined_is_null true (name b) (email b)
                       (phone b) (now env) false (sqlite_int_of_text id) t with
      | inr (changes, t') =>
          if changes =? 0 then (failure 404 "User not found", Some t')
          else (json 200 [("success", JBool true);
                          ("data", Sql.echo (number (parseInt id 0)) b)], Some t')
      | inl error => (failure 500 (Sql.message error), db)
      end
  end.

Definition delete_user `{Drivers} (id : string) (db : option Sql.Table)
  : Response * option Sql.Table :=
  match db with
  | None => (failure 500 (Sql.message Sql.NoHandle), db)
  | Some t =>
      match Sql.delete false (sqlite_int_of_text id) t with
      | inr (changes, t') =>
          if changes =? 0 then (failure 404 "User not found", Some t')
          else (json 200 [("success", JBool true);
                          ("message", JStr "User deleted successfully")], Some t')
      | inl error => (failure 500 (Sql.message error), db)
      end
  end.

Definition router `{Drivers} (env : Env) (op : Op) (db : option Sql.Table)
  : Response * option Sql.Table :=
  match op with
  | CreateUser b => post_users env b db
  | ListUsers => get_users db
  | GetUser id => get_user id db
  | UpdateUser id b => put_user env id b db
  | DeleteUser id => delete_user id db
  end.

End SqliteRoutes.

(** ** routes/mysqlRoutes.js *)

Module MysqlRoutes.
Import Js Http Req.

(** [config/mysql.js]: [id INT AUTO_INCREMENT PRIMARY KEY],
    [name VARCHAR(255)], [email VARCHAR(255)], [phone VARCHAR(20)], all
    [NOT NULL], and [updated_at ... ON UPDATE CURRENT_TIMESTAMP]. *)
Definition schema : Sql.Schema :=
  {| Sql.name_width := Some 255%nat; Sql.email_width := Some 255%nat;
     Sql.phone_width := Some 20%nat;
     Sql.max_id := 2 ^ 31 - 1; Sql.on_update_now := true |}.

(** The handlers take [getPool()]; [None] is a pool that cannot be used. *)

Definition post_users (env : Env) (b : Body) (pool : option Sql.Table)
  : Response * option Sql.Table :=
  match pool with
  | None => (failure 500 (Sql.message Sql.NoHandle), pool)
  | Some t =>
      match Sql.insert schema false (name b) (email b) (phone b) (now env) t with
      | inr (insertId, t') =>
          (json 201 [("success", JBool true);
                     ("data", Sql.echo (JNum insertId) b)], Some t')
      | inl error => (failure 500 (Sql.message error), pool)
      end
  end.

Definition get_users (pool : option Sql.Table) : Response * option Sql.Table :=
  match pool with
  | None => (failure 500 (Sql.message Sql.NoHandle), pool)
  | Some t =>
      let rows := Sql.select_all t in
      (json 200 [("success", JBool true);
                 ("data", JArr (map Sql.json_of_row rows))], pool)
  end.

Definition get_user `{Drivers} (id : string) (pool : option Sql.Table)
  : Response * option Sql.Table :=
  match pool with
  | None => (failure 500 (Sql.message Sql.NoHandle), pool)
  | Some t =>
      let rows := filter (Sql.id_is (mysql_int_of_text id)) (Sql.rows t) in
      match rows with
      | [] => (failure 404 "User not found", pool)
      | row0 :: _ =>
          (json 200 [("success", JBool true); ("data", Sql.json_of_row row0)], pool)
      end
  end.

Definition put_user `{Drivers} (env : Env) (id : string) (b : Body)
  (pool : option Sql.Table) : Response * option Sql.Table :=
  match pool with
  | None => (failure 500 (Sql.message Sql.NoHandle), pool)
  | Some t =>
      match Sql.update schema false false (name b) (email b) (phone b) (now env)
                       (mysql_refuses_id id) (mysql_int_of_text id) t with
      | inr (affectedRows, t') =>
          if affectedRows =? 0 then (failure 404 "User not found", Some t')
          else (json 200 [("success", JBool true);
                          ("data", Sql.echo (number (parseInt id 0)) b)], Some t')
      | inl error => (failure 500 (Sql.message error), pool)
      end
  end.

Definition delete_user `{Drivers} (id : string) (pool : option Sql.Table)
  : Response * option Sql.Table :=
  match pool with
  | None => (failure 500 (Sql.message Sql.NoHandle), pool)
  | Some t =>
      match Sql.delete (mysql_refuses_id id) (mysql_int_of_text id) t with
      | inr (affectedRows, t') =>
          if affectedRows =? 0 then (failure 404 "User not found", Some t')
          else (json 200 [("success", JBool true);
                          ("message", JStr "User deleted successfully")], Some t')
      | inl error => (failure 500 (Sql.message error), pool)
      end
  end.

Definition router `{Drivers} (env : Env) (op : Op) (pool : option Sql.Table)
  : Response * option Sql.Table :=
  match op with
  | CreateUser b => post_users env b pool
  | ListUsers => get_users pool
  | GetUser id => get_user id pool
  | UpdateUser id b => put_user env id b pool
  | DeleteUser id => delete_user id pool
  end.

End MysqlRoutes.

(** ** config/mongodb.js: the [User] model *)

Module Mongoose.
Import Js Req.

(** A document of the collection: the three schema paths, the two paths
    added by [{ timestamps: true }], the key and the version key. *)
Record Doc : Type := mkDoc {
  _id : string;
  name : string;
  email : string;
  phone : string;
  createdAt : Z;
  updatedAt : Z;
  __v : Z
}.

Inductive Error : Type :=
| ValidationError (path : string)
| CastError
| DuplicateKey.

(** [error.message]; Mongoose's own wording is not reproduced. *)
Definition message (e : Error) : string :=
  match e with
  | ValidationError p => "User validation failed: Path `" ++ p ++ "` is required."
  | CastError => "Cast to ObjectId failed at path _id for model User"
  | DuplicateKey => "E11000 duplicate key error"
  end.

Definition Result (A : Type) : Type := Error + A.

Definition andThen {A B : Type} (r : Result A) (k : A -> Result B) : Result B :=
  match r with
  | inl e => inl e
  | inr a => k a
  end.

Notation "x <- r ;; k" := (andThen r (fun x => k))
  (at level 61, r at next level, right associativity).

(** [{ type: String, required: true }]: the validator refuses a missing
    value, [null] and the empty string. *)
Definition required (path : string) (f : Field) : Result string :=
  match f with
  | Text s => if (s =? "")%string then inl (ValidationError path) else inr s
  | _ => inl (ValidationError path)
  end.

Definition has_id (o : string) (d : Doc) : bool := (_id d =? o)%string.

(** [new MongoUser({ name, email, phone })] followed by [user.save()]: the
    document is validated, stamped and inserted; the collection refuses a
    second document with the same [_id]. *)
Definition save (env : Env) (b : Body) (docs : list Doc) : Result (Doc * list Doc) :=
  n <- required "name" (Req.name b) ;;
  e <- required "email" (Req.email b) ;;
  p <- required "phone" (Req.phone b) ;;
  if existsb (has_id (fresh_oid env)) docs then inl DuplicateKey
  else
    let user := mkDoc (fresh_oid env) n e p (now env) (now env) 0 in
    inr (user, (docs ++ [user])%list).

(** [MongoUser.find().sort({ createdAt: -1 })] *)
Definition find_sorted (docs : list Doc) : list Doc := order_by_desc createdAt docs.

Definition cast `{Drivers} (id : string) : Result string :=
  match cast_ObjectId id with
  | Some o => inr o
  | None => inl CastError
  end.

(** [MongoUser.findById(id)] *)
Definition findById `{Drivers} (id : string) (docs : list Doc) : Result (option Doc) :=
  o <- cast id ;;
  inr (find (has_id o) docs).

(** A path of the update: with [runValidators] the [required] validator
    runs on the paths of [$set]; an [undefined] value is no path of [$set]
    when Mongoose drops it. *)
Definition change `{Drivers} (path : string) (f : Field) : Result (option string) :=
  match f with
  | Absent =>
      if mongoose_drops_undefined then inr None
      else s <- required path f ;; inr (Some s)
  | _ => s <- required path f ;; inr (Some s)
  end.

Definition set_paths (n e p : option string) (now : Z) (d : Doc) : Doc :=
  {| _id := _id d;
     name := match n with Some s => s | None => name d end;
     email := match e with Some s => s | None => email d end;
     phone := match p with Some s => s | None => phone d end;
     createdAt := createdAt d;
     updatedAt := now;
     __v := __v d |}.

(** Apply [f] to the first document that satisfies [m]; the document after
    the change is returned ([{ new: true }]), or [None] for [null]. *)
Fixpoint update_first (m : Doc -> bool) (f : Doc -> Doc) (docs : list Doc)
  : option Doc * list Doc :=
  match docs with
  | [] => (None, [])
  | d :: ds =>
      if m d then (Some (f d), f d :: ds)
      else let '(r, ds') := update_first m f ds in (r, d :: ds')
  end.

Fixpoint delete_first (m : Doc -> bool) (docs : list Doc) : option Doc * list Doc :=
  match docs with
  | [] => (None, [])
  | d :: ds =>
      if m d then (Some d, ds)
      else let '(r, ds') := delete_first m ds in (r, d :: ds')
  end.

(** [MongoUser.findByIdAndUpdate(id, { name, email, phone },
    { new: true, runValidators: true })] *)
Definition findByIdAndUpdate `{Drivers} (env : Env) (id : string) (b : Body)
  (docs : list Doc) : Result (option Doc * list Doc) :=
  o <- cast id ;;
  n <- change "name" (Req.name b) ;;
  e <- change "email" (Req.email b) ;;
  p <- change "phone" (Req.phone b) ;;
  inr (update_first (has_id o) (set_paths n e p (now env)) docs).

(** [MongoUser.findByIdAndDelete(id)] *)
Definition findByIdAndDelete `{Drivers} (id : string) (docs : list Doc)
  : Result (option Doc * list Doc) :=
  o <- cast id ;;
  inr (delete_first (has_id o) docs).

(** A document as [res.json] serialises it. *)
Definition json_of_doc (d : Doc) : Json :=
  JObj [("_id", JStr (_id d)); ("name", JStr (name d)); ("email", JStr (email d));
        ("phone", JStr (phone d)); ("createdAt", JDate (createdAt d));
        ("updatedAt", JDate (updatedAt d)); ("__v", JNum (__v d))].

End Mongoose.

(** ** routes/mongoRoutes.js *)

Module MongoRoutes.
Import Js Http Req.

Definition post_users (env : Env) (b : Body) (docs : list Mongoose.Doc)
  : Response * list Mongoose.Doc :=
  match Mongoose.save env b docs with
  | inr (user, docs') =>
      (json 201 [("success", JBool true); ("data", Mongoose.json_of_doc user)], docs')
  | inl error => (failure 500 (Mongoose.message error), docs)
  end.

Definition get_users (docs : list Mongoose.Doc) : Response * list Mongoose.Doc :=
  let users := Mongoose.find_sorted docs in
  (json 200 [("success", JBool true);
             ("data", JArr (map Mongoose.json_of_doc users))], docs).

Definition get_user `{Drivers} (id : string) (docs : list Mongoose.Doc)
  : Response * list Mongoose.Doc :=
  match Mongoose.findById id docs with
  | inr None => (failure 404 "User not found", docs)
  | inr (Some user) =>
      (json 200 [("success", JBool true); ("data", Mongoose.json_of_doc user)], docs)
  | inl error => (failure 500 (Mongoose.message error), docs)
  end.

Definition put_user `{Drivers} (env : Env) (id : string) (b : Body)
  (docs : list Mongoose.Doc) : Response * list Mongoose.Doc :=
  match Mongoose.findByIdAndUpdate env id b docs with
  | inr (None, docs') => (failure 404 "User not found", docs')
  | inr (Some user, docs') =>
      (json 200 [("success", JBool true); ("data", Mongoose.json_of_doc user)], docs')
  | inl error => (failure 500 (Mongoose.message error), docs)
  end.

Definition delete_user `{Drivers} (id : string) (docs : list Mongoose.Doc)
  : Response * list Mongoose.Doc :=
  match Mongoose.findByIdAndDelete id docs with
  | inr (None, docs') => (failure 404 "User not found", docs')
  | inr (Some _, docs') =>
      (json 200 [("success", JBool true);
                 ("message", JStr "User deleted successfully")], docs')
  | inl error => (failure 500 (Mongoose.message error), docs)
  end.

(** The routes behind the [router.use] middleware: when
    [isMongoConnected()] is false the middleware answers and [next] is not
    called. *)
Definition router `{Drivers} (env : Env) (isMongoConnected : bool) (op : Op)
  (docs : list Mongoose.Doc) : Response * list Mongoose.Doc :=
  if negb isMongoConnected then
    (failure 503
       "MongoDB is not running. Please install & start MongoDB, then restart the server.",
     docs)
  else
    match op with
    | CreateUser b => post_users env b docs
    | ListUsers => get_users docs
    | GetUser id => get_user id docs
    | UpdateUser id b => put_user env id b docs
    | DeleteUser id => delete_user id docs
    end.

End MongoRoutes.

(** ** server.js *)

Module Server.
Import Http Req.

(** The prefix a router is mounted under: [/api/mongo], [/api/mysql],
    [/api/sqlite]. *)
Inductive Backend : Type := Mongo | Mysql | Sqlite.

(** The module-level state of the three [config] files: [mongoConnected]
    and the collection behind the model, [pool], [db]. *)
Record World : Type := mkWorld {
  mongoConnected : bool;
  mongo : list Mongoose.Doc;
  mysql : option Sql.Table;
  sqlite : option Sql.Table
}.

Definition app `{Drivers} (env : Env) (b : Backend) (op : Op) (w : World)
  : Response * World :=
  match b with
  | Mongo =>
      let '(r, docs) := MongoRoutes.router env (mongoConnected w) op (mongo w) in
      (r, {| mongoConnected := mongoConnected w; mongo := docs;
             mysql := mysql w; sqlite := sqlite w |})
  | Mysql =>
      let '(r, pool) := MysqlRoutes.router env op (mysql w) in
      (r, {| mongoConnected := mongoConnected w; mongo := mongo w;
             mysql := pool; sqlite := sqlite w |})
  | Sqlite =>
      let '(r, db) := SqliteRoutes.router env op (sqlite w) in
      (r, {| mongoConnected := mongoConnected w; mongo := mongo w;
             mysql := mysql w; sqlite := db |})
  end.

End Server.

(** ** Mini Online Store API *)

Module MiniStore.
Import Js Http.

Record User : Type := mkUser { id : Z; name : Json; email : Json; role : Json }.

(** [const users = [...]] of [controllers/userController.js]. *)
Definition users : list User :=
  [ mkUser 1 (JStr "Alice Johnson") (JStr "alice@example.com") (JStr "admin");
    mkUser 2 (JStr "Bob Smith") (JStr "bob@example.com") (JStr "customer");
    mkUser 3 (JStr "Charlie Lee") (JStr "charlie@example.com") (JStr "customer") ].

Definition json_of_user (u : User) : Json :=
  JObj [("id", JNum (id u)); ("name", name u); ("email", email u); ("role", role u)].

(** [const { name, email, role } = req.body]: any JSON value, or
    [undefined] for a key that is not there. *)
Record Body : Type := mkBody { body_name : Json; body_email : Json; body_role : Json }.

(** A word between double quotes, as the validation message has them. *)
Definition quoted (s : string) : string :=
  String (ascii_of_nat 34) s ++ String (ascii_of_nat 34) EmptyString.

(** [u.id === userId]; [NaN] equals nothing. *)
Definition id_equals (userId : option Z) (u : User) : bool :=
  match userId with
  | Some z => id u =? z
  | None => false
  end.

Definition getUserById (params_id : string) (users : list User) : Response :=
  let userId := parseInt params_id 10 in
  let user := find (id_equals userId) users in
  match user with
  | Some user => json 200 [("success", JBool true); ("data", json_of_user user)]
  | None =>
      json 404 [("success", JBool false);
                ("message", JStr ("User with ID " ++ show_number userId ++ " not found."))]
  end.

Definition createUser (b : Body) (users : list User) : Response * list User :=
  let name := body_name b in
  let email := body_email b in
  let role := body_role b in
  if negb (truthy name) || negb (truthy email) then
    (json 400 [("success", JBool false);
               ("message",
                JStr ("Validation Error – " ++ quoted "name" ++ " and "
                      ++ quoted "email" ++ " are required fields."))],
     users)
  else
    let newUser :=
      {| id := Z.of_nat (List.length users) + 1;
         name := name;
         email := email;
         role := or_else role (JStr "customer") |} in
    (json 201 [("success", JBool true);
               ("message", JStr "User created successfully.");
               ("data", json_of_user newUser)],
     (users ++ [newUser])%list).

(** [middleware/auth.js]: [None] stands for [next()]. *)
Definition auth (authorization : option string) : option Response :=
  match authorization with
  | Some token =>
      if (token =? "")%string
      then Some (failure 401
             "Unauthorized – Please provide a valid token in the Authorization header.")
      else None
  | None => Some (failure 401
             "Unauthorized – Please provide a valid token in the Authorization header.")
  end.

(** [routes/users.js] *)
Inductive Route : Type :=
| GetById (id : string)
| Create (b : Body).

(** [app.use('/users', auth, userRoutes)] *)
Definition users_endpoint (authorization : option string) (r : Route)
  (users : list User) : Response * list User :=
  match auth authorization with
  | Some refused => (refused, users)
  | None =>
      match r with
      | GetById id => (getUserById id users, users)
      | Create b => createUser b users
      end
  end.

End MiniStore.

(** ** Views of the state used in the statements *)

Module View.
Import Js Http Req Server.

(** The store behind a prefix can be used: [mongoConnected] for the
    document store, a handle for the two SQL stores. *)
Definition ready (b : Backend) (w : World) : bool :=
  match b with
  | Mongo => mongoConnected w
  | Mysql => match mysql w with Some _ => true | None => false end
  | Sqlite => match sqlite w with Some _ => true | None => false end
  end.

Definition rows_of (t : option Sql.Table) : list Sql.Row :=
  match t with
  | Some t => Sql.rows t
  | None => []
  end.

(** The stored users of a backend, in storage order, as the backend
    returns them. *)
Definition stored (b : Backend) (w : World) : list Json :=
  match b with
  | Mongo => map Mongoose.json_of_doc (mongo w)
  | Mysql => map Sql.json_of_row (rows_of (mysql w))
  | Sqlite => map Sql.json_of_row (rows_of (sqlite w))
  end.

(** Identifier, name, email and phone of a stored user. *)
Definition row_fields (r : Sql.Row) : string * (string * string * string) :=
  (string_of_Z (Sql.id r), (Sql.name r, Sql.email r, Sql.phone r)).

Definition doc_fields (d : Mongoose.Doc) : string * (string * string * string) :=
  (Mongoose._id d, (Mongoose.name d, Mongoose.email d, Mongoose.phone d)).

Definition contents (b : Backend) (w : World) : list (string * (string * string * string)) :=
  match b with
  | Mongo => map doc_fields (mongo w)
  | Mysql => map row_fields (rows_of (mysql w))
  | Sqlite => map row_fields (rows_of (sqlite w))
  end.

(** The creation time of a user in a response. *)
Definition created (b : Backend) (user : Json) : option Z :=
  match get (match b with Mongo => "createdAt" | _ => "created_at" end) user with
  | Some (JDate t) => Some t
  | _ => None
  end.

(** [x] may stand before [y] in a list that shows the newest first. *)
Definition not_older (b : Backend) (x y : Json) : Prop :=
  match created b x, created b y with
  | Some tx, Some ty => ty <= tx
  | _, _ => False
  end.

(** The text of [req.params.id] selects a stored user of the backend. *)
Definition matches `{Drivers} (b : Backend) (id : string) (w : World) : bool :=
  match b with
  | Mongo =>
      match cast_ObjectId id with
      | Some o => existsb (Mongoose.has_id o) (mongo w)
      | None => false
      end
  | Mysql => existsb (Sql.id_is (mysql_int_of_text id)) (rows_of (mysql w))
  | Sqlite => existsb (Sql.id_is (sqlite_int_of_text id)) (rows_of (sqlite w))
  end.

(** The identifier is one the backend can look up at all: Mongoose throws
    on text that is no ObjectId. *)
Definition castable `{Drivers} (b : Backend) (id : string) : bool :=
  match b with
  | Mongo => match cast_ObjectId id with Some _ => true | None => false end
  | _ => true
  end.

(** The identifier is one an update or a delete of the backend can be
    addressed to: Mongoose must be able to cast it, and MySQL must not refuse
    it in a statement that changes data. *)
Definition addressable `{Drivers} (b : Backend) (id : string) : bool :=
  match b with
  | Mongo => match cast_ObjectId id with Some _ => true | None => false end
  | Mysql => negb (mysql_refuses_id id)
  | Sqlite => true
  end.

(** A text as the store of the backend keeps it in the column of the given
    width: MySQL cuts off the spaces beyond the width of a [VARCHAR] column,
    the other two stores keep every text as it is. *)
Definition as_stored (b : Backend) (width : Sql.Schema -> option nat) (s : string)
  : string :=
  match b with
  | Mysql =>
      match Sql.kept (width MysqlRoutes.schema) s with
      | Some s' => s'
      | None => s
      end
  | _ => s
  end.

(** The field of a request is a text, and [s] is what the column keeps of
    it. *)
Definition keeps (width : option nat) (f : Field) (s : string) : Prop :=
  exists txt, f = Text txt /\ Sql.kept width txt = Some s.

(** The identifier a create returned, as a client puts it in the path of
    the next request. *)
Definition returned_id (b : Backend) (r : Response) : option string :=
  match data r with
  | Some user =>
      match b with
      | Mongo => match get "_id" user with Some (JStr o) => Some o | _ => None end
      | _ => match get "id" user with Some (JNum i) => Some (string_of_Z i) | _ => None end
      end
  | None => None
  end.

Definition nonempty (s : string) : bool := negb (s =? "")%string.

(** A valid field set: the three fields are non-empty text. *)
Definition valid (n e p : string) : bool := nonempty n && nonempty e && nonempty p.

Definition fits (width : option nat) (s : string) : bool :=
  match width with
  | Some w => (String.length s <=? w)%nat
  | None => true
  end.

(** The three texts are within the widths of the columns of the backend's
    table; only the MySQL table has widths. *)
Definition in_width (b : Backend) (n e p : string) : bool :=
  match b with
  | Mysql =>
      fits (Sql.name_width MysqlRoutes.schema) n
      && fits (Sql.email_width MysqlRoutes.schema) e
      && fits (Sql.phone_width MysqlRoutes.schema) p
  | _ => true
  end.

Definition has_room (sch : Sql.Schema) (n e p : string) (t : option Sql.Table) : bool :=
  match t with
  | Some t =>
      fits (Sql.name_width sch) n && fits (Sql.email_width sch) e
      && fits (Sql.phone_width sch) p && (Sql.seq t <? Sql.max_id sch)
  | None => false
  end.

(** The store is in a position to take the new user. *)
Definition accepts (b : Backend) (env : Env) (n e p : string) (w : World) : bool :=
  match b with
  | Mongo => mongoConnected w && negb (existsb (Mongoose.has_id (fresh_oid env)) (mongo w))
  | Mysql => has_room MysqlRoutes.schema n e p (mysql w)
  | Sqlite => has_room SqliteRoutes.schema n e p (sqlite w)
  end.

(** The write behind [POST /users] fails. *)
Definition write_fails `{Drivers} (b : Backend) (env : Env) (body : Body) (w : World)
  : bool :=
  match b with
  | Mongo =>
      match Mongoose.save env body (mongo w) with inl _ => true | inr _ => false end
  | Mysql =>
      match mysql w with
      | Some t =>
          match Sql.insert MysqlRoutes.schema false (name body) (email body)
                           (phone body) (now env) t with
          | inl _ => true
          | inr _ => false
          end
      | None => true
      end
  | Sqlite =>
      match sqlite w with
      | Some t =>
          match Sql.insert SqliteRoutes.schema sqlite_undefined_is_null (name body)
                           (email body) (phone body) (now env) t with
          | inl _ => true
          | inr _ => false
          end
      | None => true
      end
  end.

(** Keys are handed out in increasing order: no row carries a key above the
    last one issued. *)
Definition keys_issued (t : option Sql.Table) : Prop :=
  match t with
  | Some t => Forall (fun r => Sql.id r <= Sql.seq t) (Sql.rows t)
  | None => True
  end.

Definition wf (w : World) : Prop := keys_issued (mysql w) /\ keys_issued (sqlite w).

(** What an update leaves alone in a row or document: the key and the
    creation time always, everything when [hit] is false. *)
Definition row_frame (hit : Sql.Row -> bool) (r r' : Sql.Row) : Prop :=
  Sql.id r' = Sql.id r /\ Sql.created_at r' = Sql.created_at r
  /\ (hit r = false -> r' = r).

Definition doc_frame (hit : Mongoose.Doc -> bool) (d d' : Mongoose.Doc) : Prop :=
  Mongoose._id d' = Mongoose._id d /\ Mongoose.createdAt d' = Mongoose.createdAt d
  /\ Mongoose.__v d' = Mongoose.__v d
  /\ (hit d = false -> d' = d).

End View.

(** ** Further views: what a fetched user is, and which ids are in use *)

Module Inv.
Import Js Http Req Server View.

(** The user in an answer carries the id that the path names. *)
Definition answers_to `{Drivers} (b : Backend) (id : string) (user : Json) : Prop :=
  match b with
  | Mongo => exists o, cast_ObjectId id = Some o /\ get "_id" user = Some (JStr o)
  | Mysql => exists z, mysql_int_of_text id = Some z /\ get "id" user = Some (JNum z)
  | Sqlite => exists z, sqlite_int_of_text id = Some z /\ get "id" user = Some (JNum z)
  end.

(** No two stored users of a backend share an id. *)
Definition unique_ids (w : World) : Prop :=
  NoDup (map Sql.id (rows_of (mysql w)))
  /\ NoDup (map Sql.id (rows_of (sqlite w)))
  /\ NoDup (map Mongoose._id (mongo w)).

Definition sound (w : World) : Prop := wf w /\ unique_ids w.

(** A request with what the environment supplies for it, and the state
    after a sequence of requests. *)
Definition Request : Type := Env * Backend * Op.

Definition step `{Drivers} (w : World) (q : Request) : World :=
  let '(env, b, op) := q in snd (app env b op w).

Definition run `{Drivers} (qs : list Request) (w : World) : World :=
  fold_left step qs w.

(** The three texts are values the store of the backend takes: non-empty
    for the Mongoose schema, within the column widths for MySQL. *)
Definition storable (b : Backend) (n e p : string) : bool :=
  match b with
  | Mongo => valid n e p
  | Mysql =>
      fits (Sql.name_width MysqlRoutes.schema) n
      && fits (Sql.email_width MysqlRoutes.schema) e
      && fits (Sql.phone_width MysqlRoutes.schema) p
  | Sqlite => true
  end.

(** The ids in use under an SQL prefix, and the last key its table has
    issued (0 for a store that is not in use). *)
Definition ids_in_use (b : Backend) (w : World) : list Z :=
  match b with
  | Mongo => []
  | Mysql => map Sql.id (rows_of (mysql w))
  | Sqlite => map Sql.id (rows_of (sqlite w))
  end.

Definition seq_of (t : option Sql.Table) : Z :=
  match t with
  | Some t => Sql.seq t
  | None => 0
  end.

Definition last_key (b : Backend) (w : World) : Z :=
  match b with
  | Mongo => 0
  | Mysql => seq_of (mysql w)
  | Sqlite => seq_of (sqlite w)
  end.

(** The id of a user in an answer. *)
Definition id_of (b : Backend) (user : Json) : option Json :=
  get (match b with Mongo => "_id" | _ => "id" end) user.

(** [y] is the user [x] after an update addressed to [id]: the same id and
    creation time, and the same in everything unless [x] carries [id]. *)
Definition same_user `{Drivers} (b : Backend) (id : string) (x y : Json) : Prop :=
  id_of b y = id_of b x
  /\ created b y = created b x
  /\ (~ answers_to b id x -> y = x).

(** The creation times of the stored users of a backend. *)
Definition creation_times (b : Backend) (w : World) : list Z :=
  match b with
  | Mongo => map Mongoose.createdAt (mongo w)
  | Mysql => map Sql.created_at (rows_of (mysql w))
  | Sqlite => map Sql.created_at (rows_of (sqlite w))
  end.

End Inv.

(** ** Further views of the Mini Online Store *)

Module MiniView.
Import Js MiniStore.

(** The ids of the array are 1, 2, ..., in this order. *)
Definition sequential (us : list User) : Prop :=
  map id us = map Z.of_nat (seq 1 (List.length us)).

(** The array after [POST /users] with each of the bodies in turn. *)
Definition create_all (bodies : list Body) (us : list User) : list User :=
  fold_left (fun us b => snd (createUser b us)) bodies us.

(** A request to [/users]: the [Authorization] header and the route. *)
Definition Request : Type := option string * Route.

(** The array after the requests have been served in turn. *)
Definition serve (reqs : list Request) (us : list User) : list User :=
  fold_left (fun us q => snd (users_endpoint (fst q) (snd q) us)) reqs us.

(** A [POST /users] that passes [auth] and the validation of [createUser]. *)
Definition accepted (q : Request) : bool :=
  match auth (fst q), snd q with
  | None, Create b => truthy (body_name b) && truthy (body_email b)
  | _, _ => false
  end.

(** What may follow a number in a string without changing what
    [parseInt(_, 10)] reads: nothing, or text that starts with no decimal
    digit. *)
Definition no_digit_ahead (rest : string) : bool :=
  match rest with
  | EmptyString => true
  | String c _ =>
      match digit_value c with
      | Some d => negb (d <? 10)
      | None => true
      end
  end.

(** The number a decimal numeral denotes, read from the left after [acc]. *)
Fixpoint uint_value (d : Decimal.uint) (acc : Z) : Z :=
  match d with
  | Decimal.Nil => acc
  | Decimal.D0 d => uint_value d (10 * acc)
  | Decimal.D1 d => uint_value d (10 * acc + 1)
  | Decimal.D2 d => uint_value d (10 * acc + 2)
  | Decimal.D3 d => uint_value d (10 * acc + 3)
  | Decimal.D4 d => uint_value d (10 * acc + 4)
  | Decimal.D5 d => uint_value d (10 * acc + 5)
  | Decimal.D6 d => uint_value d (10 * acc + 6)
  | Decimal.D7 d => uint_value d (10 * acc + 7)
  | Decimal.D8 d => uint_value d (10 * acc + 8)
  | Decimal.D9 d => uint_value d (10 * acc + 9)
  end.

End MiniView.

(** ** Weather logger: the report and the parsing of the log *)

Module Weather.
#[local] Open Scope N_scope.
#[local] Open Scope list_scope.

(** A JavaScript string: its UTF-16 code units. *)
Definition jsstring : Type := list N.

(** A literal of the source that is all ASCII. *)
Definition lit (s : string) : jsstring := map N_of_ascii (list_ascii_of_string s).

Definition newline : N := 10.
Definition colon : N := 58.
(** The degree sign and the dash of the report, U+00B0 and U+2014. *)
Definition degree : N := 176.
Definition em_dash : N := 8212.

(** WhiteSpace and LineTerminator of ECMAScript: what [trim] strips. *)
Definition is_white (c : N) : bool :=
  ((9 <=? c) && (c <=? 13)) || (c =? 32) || (c =? 160) || (c =? 5760)
  || ((8192 <=? c) && (c <=? 8202)) || (c =? 8232) || (c =? 8233) || (c =? 8239)
  || (c =? 8287) || (c =? 12288) || (c =? 65279).

Fixpoint trimStart (s : jsstring) : jsstring :=
  match s with
  | [] => []
  | c :: s' => if is_white c then trimStart s' else s
  end.

Definition trimEnd (s : jsstring) : jsstring := rev (trimStart (rev s)).

Definition trim (s : jsstring) : jsstring := trimEnd (trimStart s).

Fixpoint startsWith (needle s : jsstring) : bool :=
  match needle, s with
  | [], _ => true
  | _ :: _, [] => false
  | a :: needle', b :: s' => (a =? b) && startsWith needle' s'
  end.

(** [s.includes(needle)] *)
Fixpoint includes (s needle : jsstring) : bool :=
  startsWith needle s
  || match s with
     | [] => false
     | _ :: s' => includes s' needle
     end.

(** [s.split(sep)] for a separator of one code unit, as both calls of the
    source have it; the result is never empty. *)
Fixpoint split (sep : N) (s : jsstring) : list jsstring :=
  match s with
  | [] => [[]]
  | c :: s' =>
      if c =? sep then [] :: split sep s'
      else match split sep s' with
           | x :: r => (c :: x) :: r
           | [] => [[c]]
           end
  end.

(** [parts.join(sep)] *)
Fixpoint join (sep : jsstring) (parts : list jsstring) : jsstring :=
  match parts with
  | [] => []
  | x :: r =>
      match r with
      | [] => x
      | _ :: _ => x ++ sep ++ join sep r
      end
  end.

(** [response.data.current_weather], each field as the text that
    [${...}] makes of it. *)
Module Api.
Record current_weather : Type :=
  { time : jsstring; temperature : jsstring; windspeed : jsstring;
    winddirection : jsstring; weathercode : jsstring }.
End Api.

Definition rule : jsstring := lit "========================================".

(** The report [fetchWeather] returns, from the answer of the service and
    the text of [new Date().toLocaleString()]. *)
Definition fetchWeather (weather : Api.current_weather) (localeString : jsstring)
  : jsstring :=
  join [newline]
    [ rule;
      lit "  Weather Report " ++ [em_dash] ++ lit " Vehari, Pakistan";
      rule;
      lit "  Time         : " ++ Api.time weather;
      lit "  Temperature  : " ++ Api.temperature weather ++ lit " " ++ [degree] ++ lit "C";
      lit "  Wind Speed   : " ++ Api.windspeed weather ++ lit " km/h";
      lit "  Wind Dir.    : " ++ Api.winddirection weather ++ [degree];
      lit "  Weather Code : " ++ Api.weathercode weather;
      rule;
      lit "  Report generated: " ++ localeString;
      rule ].

(** The six variables of [buildHTML]. *)
Record Vars : Type :=
  { time : jsstring; temp : jsstring; wind : jsstring;
    windDir : jsstring; code : jsstring; generated : jsstring }.

(** [line.split(":").slice(1).join(":").trim()] *)
Definition after_colon (line : jsstring) : jsstring :=
  trim (join [colon] (tl (split colon line))).

(** The filter of the lines: [l.trim() && !l.includes("===")]. *)
Definition kept (l : jsstring) : bool :=
  match trim l with
  | [] => false
  | _ :: _ => negb (includes l (lit "==="))
  end.

(** The body of the [forEach]: six tests in turn, each may assign. *)
Definition read_line (v : Vars) (line : jsstring) : Vars :=
  let time := if includes line (lit "Time") then after_colon line else time v in
  let temp := if includes line (lit "Temperature") then after_colon line else temp v in
  let wind := if includes line (lit "Wind Speed") then after_colon line else wind v in
  let windDir := if includes line (lit "Wind Dir") then after_colon line else windDir v in
  let code := if includes line (lit "Weather Code") then after_colon line else code v in
  let generated :=
    if includes line (lit "generated") then after_colon line else generated v in
  {| time := time; temp := temp; wind := wind;
     windDir := windDir; code := code; generated := generated |}.

(** The first part of [buildHTML]: the six variables as parsed from the
    log.  The rest of the function places them, and [fileData], unchanged
    between the fixed pieces of the page. *)
Definition buildHTML_vars (fileData : jsstring) : Vars :=
  let lines := filter kept (split newline fileData) in
  fold_left read_line lines
    {| time := []; temp := []; wind := []; windDir := []; code := []; generated := [] |}.

(** The texts the report puts after its six labels. *)
Definition texts (weather : Api.current_weather) (localeString : jsstring)
  : list jsstring :=
  [ Api.time weather;
    Api.temperature weather ++ lit " " ++ [degree] ++ lit "C";
    Api.windspeed weather ++ lit " km/h";
    Api.winddirection weather ++ [degree];
    Api.weathercode weather;
    localeString ].

(** What [buildHTML] looks for in a line. *)
Definition marks : list jsstring :=
  [ [newline]; lit "==="; lit "Time"; lit "Temperature"; lit "Wind Speed";
    lit "Wind Dir"; lit "Weather Code"; lit "generated" ].

(** A text with no line break, no rule and none of the six labels in it. *)
Definition plain (x : jsstring) : bool :=
  forallb (fun k => negb (includes x k)) marks.

End Weather.

(** ** Sample states and requests *)

Module Demo.
Import Req Server.

#[local] Existing Instance reference_drivers.

Definition env : Env :=
  {| now := 1700000000; fresh_oid := "65f1c0ffee0123456789abcd" |}.

Definition later : Env :=
  {| now := 1700000060; fresh_oid := "65f1c0ffee0123456789abce" |}.

Definition dave : Body := texts "Dave" "dave@x.com" "555".
Definition erin : Body := texts "Erin" "erin@x.com" "777".

(** Bodies without a usable name: for the Mini Online Store, for the CRUD
    demo with the key left out, and with the empty string. *)
Definition nameless : MiniStore.Body :=
  MiniStore.mkBody Js.JUndefined (Js.JStr "zed@example.com") Js.JUndefined.

Definition no_name : Body :=
  {| name := Absent; email := Text "zed@example.com"; phone := Text "555" |}.

Definition empty_name : Body := texts "" "dave@x.com" "555".

(** A phone of twenty digits and a space: one character more than the
    [VARCHAR(20)] column of the MySQL table holds. *)
Definition spaced : Body := texts "Erin" "erin@x.com" "12345678901234567890 ".

(** The three stores in use and empty. *)
Definition fresh : World :=
  {| mongoConnected := true; mongo := [];
     mysql := Some Sql.empty; sqlite := Some Sql.empty |}.

(** The document store was not running when the server started. *)
Definition no_mongo : World :=
  {| mongoConnected := false; mongo := [];
     mysql := Some Sql.empty; sqlite := Some Sql.empty |}.

(** Dave has been created under each of the three prefixes. *)
Definition with_dave : World :=
  snd (app env Sqlite (CreateUser dave)
         (snd (app env Mysql (CreateUser dave)
                 (snd (app env Mongo (CreateUser dave) fresh))))).

(** Then Erin, a minute later. *)
Definition with_both : World :=
  snd (app later Sqlite (CreateUser erin)
         (snd (app later Mysql (CreateUser erin)
                 (snd (app later Mongo (CreateUser erin) with_dave))))).

(** A reading as the service gives it, and a date as [toLocaleString]
    prints it. *)
Definition sample_weather : Weather.Api.current_weather :=
  {| Weather.Api.time := Weather.lit "2026-03-14T09:30";
     Weather.Api.temperature := Weather.lit "23.4";
     Weather.Api.windspeed := Weather.lit "7.2";
     Weather.Api.winddirection := Weather.lit "310";
     Weather.Api.weathercode := Weather.lit "1" |}.

Definition sample_date : Weather.jsstring := Weather.lit "3/14/2026, 9:31:07 AM".

End Demo.

(** * Properties *)

Open Scope list_scope.

(** ** Mini Online Store *)

Section MiniStoreFacts.
Import Js Http MiniStore.






(** [app.use('/users', auth, userRoutes)]: with a token the request reaches
    the handler, without one it is answered 401 and the array is not
    touched. *)
Lemma users_endpoint_with_token (token : string) (r : Route) (us : list User) :
  token <> ""%string ->
  users_endpoint (Some token) r us
  = match r with
    | GetById id => (getUserById id us, us)
    | Create b => createUser b us
    end.
Proof.
  intros Ht. unfold users_endpoint, auth.
  destruct (String.eqb_spec token ""); [contradiction | reflexivity].
Qed.

Lemma users_endpoint_without_token (r : Route) (us : list User) :
  let '(answer, us') := users_endpoint None r us in
  status answer = 401 /\ success answer = Some (JBool false) /\ us' = us.
Proof. repeat split. Qed.

(** C9. In the Mini Online Store, [createUser] looks at no stored email
    before it adds the user, and the id of the new user is the length of the
    array plus one: whatever the array holds, a body with a truthy name and
    email is appended under that id. *)
Theorem C9_createUser_id_from_length (b : Body) (us : list User) :
  truthy (body_name b) = true ->
  truthy (body_email b) = true ->
  let newUser :=
    {| id := Z.of_nat (List.length us) + 1;
       name := body_name b;
       email := body_email b;
       role := or_else (body_role b) (JStr "customer") |} in
  createUser b us
  = (json 201 [("success", JBool true);
               ("message", JStr "User created successfully.");
               ("data", json_of_user newUser)],
     (us ++ [newUser])%list).
Proof.
  intros Hn He. unfold createUser. rewrite Hn, He. reflexivity.
Qed.

Lemma C9_createUser_id_from_length_witness :
  let b := mkBody (JStr "Alice Again") (JStr "alice@example.com") JUndefined in
  existsb (fun u => match email u with
                    | JStr s => (s =? "alice@example.com")%string
                    | _ => false
                    end) users = true
  /\ createUser b users
     = (json 201 [("success", JBool true);
                  ("message", JStr "User created successfully.");
                  ("data", json_of_user (mkUser 4 (JStr "Alice Again")
                                           (JStr "alice@example.com") (JStr "customer")))],
        (users ++ [mkUser 4 (JStr "Alice Again") (JStr "alice@example.com")
                          (JStr "customer")])%list).
Proof.
  split; [reflexivity|].
  apply (C9_createUser_id_from_length
           (mkBody (JStr "Alice Again") (JStr "alice@example.com") JUndefined) users);
    reflexivity.
Defined.

End MiniStoreFacts.

(** ** Ordering by creation time *)

Section Ordering.
Context {A : Type} (key : A -> Z).

Lemma insert_desc_perm (x : A) (l : list A) :
  Permutation (insert_desc key x l) (x :: l).
Proof.
  induction l as [|y l IH]; simpl; [apply Permutation_refl|].
  destruct (key y <=? key x).
  - apply Permutation_refl.
  - eapply perm_trans; [apply perm_skip, IH | apply perm_swap].
Qed.

Lemma order_by_desc_perm (l : list A) : Permutation (order_by_desc key l) l.
Proof.
  induction l as [|x l IH]; simpl; [constructor|].
  eapply perm_trans; [apply insert_desc_perm | now apply perm_skip].
Qed.

Lemma insert_desc_sorted (x : A) (l : list A) :
  StronglySorted (descending key) l -> StronglySorted (descending key) (insert_desc key x l).
Proof.
  induction l as [|y l IH]; simpl; intros Hs.
  - repeat constructor.
  - inversion Hs as [|? ? Hl Hy]; subst.
    destruct (key y <=? key x) eqn:E.
    + apply Z.leb_le in E. constructor; [assumption|].
      constructor; [exact E|].
      eapply Forall_impl; [|exact Hy].
      intros z Hz. unfold descending in *. lia.
    + apply Z.leb_gt in E. constructor; [now apply IH|].
      eapply Permutation_Forall; [apply Permutation_sym, insert_desc_perm|].
      constructor; [unfold descending; lia | exact Hy].
Qed.

Lemma order_by_desc_sorted (l : list A) : StronglySorted (descending key) (order_by_desc key l).
Proof.
  induction l as [|x l IH]; simpl; [constructor|].
  now apply insert_desc_sorted.
Qed.

End Ordering.

Lemma StronglySorted_map {A B : Type} (f : A -> B) (R : B -> B -> Prop) (l : list A) :
  StronglySorted (fun x y => R (f x) (f y)) l -> StronglySorted R (map f l).
Proof.
  induction 1 as [|x l Hs IH Hx]; simpl; constructor; [assumption|].
  apply Forall_map. exact Hx.
Qed.

Lemma StronglySorted_weaken {A : Type} (R S : A -> A -> Prop) (l : list A) :
  (forall x y, R x y -> S x y) -> StronglySorted R l -> StronglySorted S l.
Proof.
  intros HRS. induction 1 as [|x l Hs IH Hx]; constructor; [assumption|].
  eapply Forall_impl; [|exact Hx]. intros y. apply HRS.
Qed.

(** ** The five routes over the three stores *)

Section Crud.
Context `{D : Drivers}.
Import Js Http Req Server View.

(** *** Listing *)

Lemma listing_sqlite_like (b : Backend) (t : Sql.Table) :
  b <> Mongo ->
  let js := map Sql.json_of_row (Sql.select_all t) in
  Permutation js (map Sql.json_of_row (Sql.rows t))
  /\ StronglySorted (not_older b) js.
Proof.
  intros Hb. split.
  - apply Permutation_map, order_by_desc_perm.
  - apply StronglySorted_map.
    eapply StronglySorted_weaken; [|apply (order_by_desc_sorted Sql.created_at)].
    intros x y Hxy. unfold not_older, created, descending in *.
    destruct b; [contradiction| |]; exact Hxy.
Qed.

Lemma listing_mongo (docs : list Mongoose.Doc) :
  let js := map Mongoose.json_of_doc (Mongoose.find_sorted docs) in
  Permutation js (map Mongoose.json_of_doc docs)
  /\ StronglySorted (not_older Mongo) js.
Proof.
  split.
  - apply Permutation_map, order_by_desc_perm.
  - apply StronglySorted_map.
    eapply StronglySorted_weaken; [|apply (order_by_desc_sorted Mongoose.createdAt)].
    intros x y Hxy. exact Hxy.
Qed.

(** What [GET /users] answers when the store can be used. *)
Lemma list_users_ready (env : Env) (b : Backend) (w : World) :
  ready b w = true ->
  exists js,
    app env b ListUsers w = (json 200 [("success", JBool true); ("data", JArr js)], w)
    /\ Permutation js (stored b w)
    /\ StronglySorted (not_older b) js.
Proof.
  destruct w as [c docs pool db]. destruct b; simpl; intros Hr.
  - subst c. eexists. split; [reflexivity|]. apply listing_mongo.
  - destruct pool as [t|]; [|discriminate].
    eexists. split; [reflexivity|]. now apply listing_sqlite_like.
  - destruct db as [t|]; [|discriminate].
    eexists. split; [reflexivity|]. now apply listing_sqlite_like.
Qed.

(** C6. For every backend, the list-all route returns the stored users as
    a sequence ordered by creation time, newest first: the [data] of the
    answer is a rearrangement of the stored users in which no user stands
    before one created later. *)
Theorem C6_list_newest_first (env : Env) (b : Backend) (w : World) :
  ready b w = true ->
  let r := fst (app env b ListUsers w) in
  status r = 200
  /\ exists js,
       data r = Some (JArr js)
       /\ Permutation js (stored b w)
       /\ StronglySorted (not_older b) js.
Proof.
  intros Hr. destruct (list_users_ready env b w Hr) as (js & E & Hp & Hs).
  cbv zeta. rewrite E. split; [reflexivity|].
  exists js. repeat split; assumption.
Qed.

(** C2, as the code has it. For every backend whose store can be used,
    [GET /api/<backend>/users] answers 200 with an envelope that holds
    [success: true] and [data], the list of all stored users; the envelope
    has no [count] field.  The store is left as it was, and when nothing is
    stored [data] is the empty sequence, of length 0. *)
Theorem C2_list_envelope (env : Env) (b : Backend) (w : World) :
  ready b w = true ->
  let '(r, w') := app env b ListUsers w in
  status r = 200
  /\ success r = Some (JBool true)
  /\ count r = None
  /\ w' = w
  /\ exists js,
       body r = JObj [("success", JBool true); ("data", JArr js)]
       /\ Permutation js (stored b w)
       /\ (stored b w = [] -> js = [] /\ List.length js = 0%nat).
Proof.
  intros Hr. destruct (list_users_ready env b w Hr) as (js & E & Hp & Hs).
  rewrite E. do 4 (split; [reflexivity|]).
  exists js. split; [reflexivity|]. split; [assumption|].
  intros E0. rewrite E0 in Hp. apply Permutation_sym, Permutation_nil in Hp.
  now subst js.
Qed.

(** *** The availability middleware *)

(** C3. When the document store is not connected, each of the five
    operations under [/api/mongo] is answered 503 with [success: false] by
    the middleware, whatever the collection holds and without touching it;
    what the routers under the other two prefixes answer and store does not
    depend on the connection flag nor on the collection, and they leave both
    as they are. *)
Theorem C3_mongo_unavailable (env : Env) (op : Op) (w : World) :
  mongoConnected w = false ->
  (let '(r, w') := app env Mongo op w in
   status r = 503 /\ success r = Some (JBool false) /\ w' = w
   /\ forall docs,
        fst (app env Mongo op {| mongoConnected := false; mongo := docs;
                                 mysql := mysql w; sqlite := sqlite w |}) = r)
  /\ forall (b : Backend) (op' : Op) (flag : bool) (docs : list Mongoose.Doc),
       b <> Mongo ->
       let other := {| mongoConnected := flag; mongo := docs;
                       mysql := mysql w; sqlite := sqlite w |} in
       fst (app env b op' w) = fst (app env b op' other)
       /\ mysql (snd (app env b op' w)) = mysql (snd (app env b op' other))
       /\ sqlite (snd (app env b op' w)) = sqlite (snd (app env b op' other))
       /\ mongoConnected (snd (app env b op' w)) = mongoConnected w
       /\ mongo (snd (app env b op' w)) = mongo w.
Proof.
  destruct w as [c docs pool db]. simpl. intros ->. split.
  - unfold app, MongoRoutes.router. simpl. repeat split.
  - intros b op' flag docs' Hb. unfold app. simpl.
    destruct b; [contradiction| |].
    + destruct (MysqlRoutes.router env op' pool). simpl. repeat split.
    + destruct (SqliteRoutes.router env op' db). simpl. repeat split.
Qed.

(** *** Creating *)

Lemma store_inr (width : option nat) (column : string) (v : option string) (s : string) :
  Sql.store width column v = inr s ->
  exists txt, v = Some txt /\ Sql.kept width txt = Some s.
Proof.
  unfold Sql.store. destruct v as [txt|]; [|discriminate].
  destruct (Sql.kept width txt) as [s'|] eqn:E; [|discriminate].
  intros [= ->]. now exists txt.
Qed.

Lemma kept_fits (width : option nat) (s : string) :
  fits width s = true -> Sql.kept width s = Some s.
Proof.
  unfold fits, Sql.kept. destruct width as [w|]; [|reflexivity]. now intros ->.
Qed.

Lemma bind_inr_some (lenient : bool) (f : Field) (s : string) :
  Sql.bind lenient f = inr (Some s) -> f = Text s.
Proof. destruct f, lenient; simpl; try discriminate; now intros [= ->]. Qed.

Lemma insert_inr (sch : Sql.Schema) (lenient : bool) (n e p : Field) (t0 : Z)
  (t : Sql.Table) (i : Z) (t' : Sql.Table) :
  Sql.insert sch lenient n e p t0 t = inr (i, t') ->
  exists sn se sp,
    keeps (Sql.name_width sch) n sn /\ keeps (Sql.email_width sch) e se
    /\ keeps (Sql.phone_width sch) p sp
    /\ i = Sql.seq t + 1
    /\ t' = {| Sql.rows := Sql.rows t ++ [Sql.mkRow i sn se sp t0 t0]; Sql.seq := i |}.
Proof.
  unfold Sql.insert, Sql.andThen.
  destruct (Sql.bind lenient n) as [|vn] eqn:Bn; [discriminate|].
  destruct (Sql.bind lenient e) as [|ve] eqn:Be; [discriminate|].
  destruct (Sql.bind lenient p) as [|vp] eqn:Bp; [discriminate|].
  destruct (Sql.store _ "name" vn) as [|sn] eqn:Sn; [discriminate|].
  destruct (Sql.store _ "email" ve) as [|se] eqn:Se; [discriminate|].
  destruct (Sql.store _ "phone" vp) as [|sp] eqn:Sp; [discriminate|].
  destruct (Sql.max_id sch <=? Sql.seq t); [discriminate|].
  intros [= <- <-].
  apply store_inr in Sn as (tn & -> & Kn), Se as (te & -> & Ke), Sp as (tp & -> & Kp).
  apply bind_inr_some in Bn, Be, Bp. subst n e p.
  exists sn, se, sp. unfold keeps. repeat split; eauto.
Qed.

Lemma insert_texts (sch : Sql.Schema) (lenient : bool) (n e p : string) (t0 : Z)
  (t : Sql.Table) :
  has_room sch n e p (Some t) = true ->
  Sql.insert sch lenient (Text n) (Text e) (Text p) t0 t
  = inr (Sql.seq t + 1,
         {| Sql.rows := Sql.rows t ++ [Sql.mkRow (Sql.seq t + 1) n e p t0 t0];
            Sql.seq := Sql.seq t + 1 |}).
Proof.
  unfold has_room, fits. intros H.
  apply andb_true_iff in H as [H Hseq].
  apply andb_true_iff in H as [H Hp].
  apply andb_true_iff in H as [Hn He].
  assert (Hk : (Sql.max_id sch <=? Sql.seq t) = false).
  { apply Z.leb_gt. now apply Z.ltb_lt. }
  unfold Sql.insert, Sql.andThen, Sql.bind, Sql.store.
  rewrite (kept_fits _ _ Hn), (kept_fits _ _ He), (kept_fits _ _ Hp), Hk.
  reflexivity.
Qed.

(** What [POST /users] does, by the outcome of the write. *)
Lemma create_outcome (env : Env) (b : Backend) (body : Body) (w : World) :
  let '(r, w') := app env b (CreateUser body) w in
  (status r = 503 /\ b = Mongo /\ mongoConnected w = false
   /\ success r = Some (JBool false) /\ w' = w)
  \/ (status r = 500 /\ write_fails b env body w = true
      /\ success r = Some (JBool false) /\ w' = w)
  \/ (status r = 201 /\ write_fails b env body w = false
      /\ success r = Some (JBool true)
      /\ List.length (stored b w') = S (List.length (stored b w))).
Proof.
  destruct w as [c docs pool db]. destruct b; simpl.
  - unfold MongoRoutes.router, MongoRoutes.post_users.
    destruct c; simpl; [|left; repeat split].
    destruct (Mongoose.save env body docs) as [err|[user docs']] eqn:E; simpl.
    + right; left. repeat split.
    + right; right. repeat split.
      unfold Mongoose.save, Mongoose.andThen in E.
      destruct (Mongoose.required "name" (name body)); [discriminate|].
      destruct (Mongoose.required "email" (email body)); [discriminate|].
      destruct (Mongoose.required "phone" (phone body)); [discriminate|].
      destruct (existsb _ docs); [discriminate|].
      injection E as <- <-. rewrite !length_map, length_app. simpl. lia.
  - unfold MysqlRoutes.post_users. destruct pool as [t|]; simpl.
    + destruct (Sql.insert _ _ _ _ _ _ t) as [err|[i t']] eqn:E; simpl.
      * right; left. repeat split.
      * right; right. repeat split.
        apply insert_inr in E as (sn & se & sp & _ & _ & _ & _ & ->). simpl.
        rewrite !length_map, length_app. simpl. lia.
    + right; left. repeat split.
  - unfold SqliteRoutes.post_users. destruct db as [t|]; simpl.
    + destruct (Sql.insert _ _ _ _ _ _ t) as [err|[i t']] eqn:E; simpl.
      * right; left. repeat split.
      * right; right. repeat split.
        apply insert_inr in E as (sn & se & sp & _ & _ & _ & _ & ->). simpl.
        rewrite !length_map, length_app. simpl. lia.
    + right; left. repeat split.
Qed.

(** C1, as the code has it. In the Mini Online Store, [POST /users] with a
    name or an email that is missing or empty is answered 400 with
    [success: false] and the users array is left as it was.  The three
    database routers have no such step and never answer 400: unless the
    document-store middleware answers 503, the body goes to the store as it
    is; the answer is 201 with one more user stored when the write is
    accepted, and it is 500, with [success: false] and nothing stored, when
    and only when the write fails. *)
Theorem C1_create_validation (mb : MiniStore.Body) (us : list MiniStore.User)
  (env : Env) (b : Backend) (body : Body) (w : World) :
  truthy (MiniStore.body_name mb) = false \/ truthy (MiniStore.body_email mb) = false ->
  (let '(r, us') := MiniStore.createUser mb us in
   status r = 400 /\ success r = Some (JBool false) /\ us' = us)
  /\ (let '(r, w') := app env b (CreateUser body) w in
      status r <> 400
      /\ ((status r = 503 /\ b = Mongo /\ mongoConnected w = false
           /\ success r = Some (JBool false) /\ w' = w)
          \/ (status r = 500 /\ write_fails b env body w = true
              /\ success r = Some (JBool false) /\ w' = w)
          \/ (status r = 201 /\ write_fails b env body w = false
              /\ success r = Some (JBool true)
              /\ List.length (stored b w') = S (List.length (stored b w))))).
Proof.
  intros Hmissing. split.
  - unfold MiniStore.createUser.
    replace (negb (truthy (MiniStore.body_name mb))
             || negb (truthy (MiniStore.body_email mb))) with true.
    + repeat split.
    + destruct Hmissing as [-> | ->]; simpl; [reflexivity|].
      now rewrite orb_true_r.
  - pose proof (create_outcome env b body w) as H.
    destruct (app env b (CreateUser body) w) as [r w'].
    split; [|exact H].
    destruct H as [(Hs & _) | [(Hs & _) | (Hs & _)]]; rewrite Hs; discriminate.
Qed.

(** *** Creating, then fetching *)

Lemma find_app_last {A : Type} (m : A -> bool) (l : list A) (x : A) :
  existsb m l = false -> m x = true -> find m (l ++ [x]) = Some x.
Proof.
  induction l as [|y l IH]; simpl; intros Hl Hx.
  - now rewrite Hx.
  - apply orb_false_iff in Hl as [Hy Hl]. rewrite Hy. now apply IH.
Qed.

Lemma filter_app_last {A : Type} (m : A -> bool) (l : list A) (x : A) :
  existsb m l = false -> m x = true -> filter m (l ++ [x]) = [x].
Proof.
  induction l as [|y l IH]; simpl; intros Hl Hx.
  - now rewrite Hx.
  - apply orb_false_iff in Hl as [Hy Hl]. rewrite Hy. now apply IH.
Qed.

(** A key above every key in use selects no row. *)
Lemma new_key_unused (t : Sql.Table) :
  keys_issued (Some t) ->
  existsb (Sql.id_is (Some (Sql.seq t + 1))) (Sql.rows t) = false.
Proof.
  simpl. induction 1 as [|r l Hr _ IH]; simpl; [reflexivity|].
  rewrite IH, orb_false_r. apply Z.eqb_neq. lia.
Qed.

Lemma keeps_unlimited (s s' : string) : keeps None (Text s) s' -> s' = s.
Proof. intros (txt & [= <-] & [= <-]). reflexivity. Qed.

Lemma keeps_as_stored (width : Sql.Schema -> option nat) (s s' : string) :
  keeps (width MysqlRoutes.schema) (Text s) s' -> as_stored Mysql width s = s'.
Proof. intros (txt & [= <-] & E). unfold as_stored. now rewrite E. Qed.

Lemma as_stored_in_width (b : Backend) (n e p : string) :
  in_width b n e p = true ->
  as_stored b Sql.name_width n = n
  /\ as_stored b Sql.email_width e = e
  /\ as_stored b Sql.phone_width p = p.
Proof.
  destruct b; [now repeat split | | now repeat split].
  unfold in_width, as_stored. intros H.
  apply andb_true_iff in H as [H Hp]. apply andb_true_iff in H as [Hn He].
  now rewrite (kept_fits _ _ Hn), (kept_fits _ _ He), (kept_fits _ _ Hp).
Qed.

Lemma sqlite_create_fetch (env : Env) (n e p : string) (t : Sql.Table) :
  keys_issued (Some t) ->
  let '(r1, db1) := SqliteRoutes.post_users env (texts n e p) (Some t) in
  status r1 = 201 ->
  exists i,
    data r1 = Some (Sql.echo (JNum i) (texts n e p))
    /\ SqliteRoutes.get_user (string_of_Z i) db1
       = (json 200 [("success", JBool true);
                    ("data", Sql.json_of_row (Sql.mkRow i n e p (now env) (now env)))],
          db1).
Proof.
  intros Hk. unfold SqliteRoutes.post_users. simpl.
  destruct (Sql.insert _ _ _ _ _ _ t) as [err|[i t']] eqn:E; simpl; [discriminate|].
  intros _. exists i. split; [reflexivity|].
  apply insert_inr in E as (sn & se & sp & Kn & Ke & Kp & -> & ->).
  apply keeps_unlimited in Kn, Ke, Kp. subst sn se sp.
  unfold SqliteRoutes.get_user, Sql.select_by_id.
  rewrite sqlite_reads_decimal. cbn [Sql.rows].
  rewrite find_app_last; [reflexivity| now apply new_key_unused |].
  simpl. apply Z.eqb_refl.
Qed.

Lemma mysql_create_fetch (env : Env) (n e p : string) (t : Sql.Table) :
  keys_issued (Some t) ->
  let '(r1, pool1) := MysqlRoutes.post_users env (texts n e p) (Some t) in
  status r1 = 201 ->
  exists i,
    data r1 = Some (Sql.echo (JNum i) (texts n e p))
    /\ MysqlRoutes.get_user (string_of_Z i) pool1
       = (json 200 [("success", JBool true);
                    ("data",
                     Sql.json_of_row
                       (Sql.mkRow i (as_stored Mysql Sql.name_width n)
                                  (as_stored Mysql Sql.email_width e)
                                  (as_stored Mysql Sql.phone_width p)
                                  (now env) (now env)))],
          pool1).
Proof.
  intros Hk. unfold MysqlRoutes.post_users. simpl.
  destruct (Sql.insert _ _ _ _ _ _ t) as [err|[i t']] eqn:E; simpl; [discriminate|].
  intros _. exists i. split; [reflexivity|].
  apply insert_inr in E as (sn & se & sp & Kn & Ke & Kp & -> & ->).
  apply keeps_as_stored in Kn, Ke, Kp. subst sn se sp.
  unfold MysqlRoutes.get_user.
  rewrite mysql_reads_decimal. cbn [Sql.rows].
  rewrite filter_app_last; [reflexivity| now apply new_key_unused |].
  simpl. apply Z.eqb_refl.
Qed.

Lemma save_inr (env : Env) (b : Body) (docs : list Mongoose.Doc)
  (user : Mongoose.Doc) (docs' : list Mongoose.Doc) :
  Mongoose.save env b docs = inr (user, docs') ->
  exists n e p,
    Mongoose.required "name" (name b) = inr n
    /\ Mongoose.required "email" (email b) = inr e
    /\ Mongoose.required "phone" (phone b) = inr p
    /\ existsb (Mongoose.has_id (fresh_oid env)) docs = false
    /\ user = Mongoose.mkDoc (fresh_oid env) n e p (now env) (now env) 0
    /\ docs' = docs ++ [user].
Proof.
  unfold Mongoose.save, Mongoose.andThen.
  destruct (Mongoose.required "name" (name b)) as [|n]; [discriminate|].
  destruct (Mongoose.required "email" (email b)) as [|e]; [discriminate|].
  destruct (Mongoose.required "phone" (phone b)) as [|p]; [discriminate|].
  destruct (existsb _ docs) eqn:Ex; [discriminate|].
  intros [= <- <-]. exists n, e, p. repeat split.
Qed.

Lemma required_text (path s v : string) :
  Mongoose.required path (Text s) = inr v -> v = s.
Proof.
  simpl. destruct (s =? "")%string; [discriminate|]. now intros [= ->].
Qed.

Lemma required_nonempty (path s : string) :
  nonempty s = true -> Mongoose.required path (Text s) = inr s.
Proof.
  unfold nonempty. simpl. now destruct (s =? "")%string.
Qed.

Lemma mongo_create_fetch (env : Env) (n e p : string) (docs : list Mongoose.Doc) :
  is_ObjectId (fresh_oid env) = true ->
  let '(r1, docs1) := MongoRoutes.post_users env (texts n e p) docs in
  status r1 = 201 ->
  let user := Mongoose.mkDoc (fresh_oid env) n e p (now env) (now env) 0 in
  data r1 = Some (Mongoose.json_of_doc user)
  /\ MongoRoutes.get_user (fresh_oid env) docs1
     = (json 200 [("success", JBool true); ("data", Mongoose.json_of_doc user)], docs1).
Proof.
  intros Hoid. unfold MongoRoutes.post_users.
  destruct (Mongoose.save env (texts n e p) docs) as [err|[user docs']] eqn:E; simpl;
    [discriminate|].
  intros _.
  apply save_inr in E as (n' & e' & p' & Hn & He & Hp & Hfresh & -> & ->).
  apply required_text in Hn, He, Hp. subst n' e' p'.
  split; [reflexivity|].
  unfold MongoRoutes.get_user, Mongoose.findById, Mongoose.cast, Mongoose.andThen.
  rewrite (cast_reads_hex _ Hoid).
  rewrite find_app_last; [reflexivity | exact Hfresh |].
  unfold Mongoose.has_id. simpl. apply String.eqb_refl.
Qed.

(** C5, as the code has it. For every backend and every valid field set, a
    store that is in a position to take the user answers the create with 201,
    and whenever a create is answered 201, fetching at once by the id it
    returned answers 200 with a record whose name, email and phone are the
    ones supplied as the store keeps them: identical under [/api/sqlite] and
    [/api/mongo], and under [/api/mysql] identical when each text is within
    the width of its column, and otherwise without the spaces beyond that
    width. *)
Theorem C5_create_then_fetch (env env' : Env) (b : Backend) (n e p : string) (w : World) :
  wf w ->
  valid n e p = true ->
  is_ObjectId (fresh_oid env) = true ->
  let '(r1, w1) := app env b (CreateUser (texts n e p)) w in
  (accepts b env n e p w = true -> status r1 = 201)
  /\ (status r1 = 201 ->
      exists id,
        returned_id b r1 = Some id
        /\ let '(r2, w2) := app env' b (GetUser id) w1 in
           status r2 = 200 /\ w2 = w1
           /\ exists user,
                data r2 = Some user
                /\ get "name" user = Some (JStr (as_stored b Sql.name_width n))
                /\ get "email" user = Some (JStr (as_stored b Sql.email_width e))
                /\ get "phone" user = Some (JStr (as_stored b Sql.phone_width p))
                /\ (in_width b n e p = true ->
                    get "name" user = Some (JStr n)
                    /\ get "email" user = Some (JStr e)
                    /\ get "phone" user = Some (JStr p))).
Proof.
  intros [Hmy Hlite] Hvalid Hoid.
  destruct w as [c docs pool db]. simpl in Hmy, Hlite.
  unfold valid in Hvalid.
  apply andb_true_iff in Hvalid as [Hvalid Hp].
  apply andb_true_iff in Hvalid as [Hn He].
  destruct b; unfold app; cbn [mongoConnected mongo mysql sqlite].
  - (* document store *)
    unfold MongoRoutes.router at 1. destruct c; cbn [negb].
    + pose proof (mongo_create_fetch env n e p docs Hoid) as H.
      cbn [MongoRoutes.router].
      destruct (MongoRoutes.post_users env (texts n e p) docs) as [r1 docs1] eqn:E.
      split.
      * unfold accepts. cbn [mongoConnected mongo andb]. intros Hfresh.
        unfold MongoRoutes.post_users, Mongoose.save, Mongoose.andThen in E.
        cbn [texts name email phone] in E.
        rewrite !required_nonempty in E by assumption.
        apply negb_true_iff in Hfresh. rewrite Hfresh in E.
        injection E as <- _. reflexivity.
      * intros H201. specialize (H H201) as [Hdata Hget].
        exists (fresh_oid env). split.
        { unfold returned_id. rewrite Hdata. reflexivity. }
        unfold MongoRoutes.router. cbn [mongoConnected mongo negb].
        rewrite Hget. repeat split. eexists. split; [reflexivity|]. repeat split.
    + split; [discriminate|]. cbn. discriminate.
  - (* MySQL *)
    destruct pool as [t|].
    + pose proof (mysql_create_fetch env n e p t Hmy) as H.
      cbn [MysqlRoutes.router].
      destruct (MysqlRoutes.post_users env (texts n e p) (Some t)) as [r1 pool1] eqn:E.
      split.
      * unfold accepts. cbn [mysql]. intros Hroom.
        unfold MysqlRoutes.post_users in E. cbn [texts name email phone] in E.
        rewrite (insert_texts _ _ _ _ _ _ _ Hroom) in E.
        injection E as <- _. reflexivity.
      * intros H201. specialize (H H201) as (i & Hdata & Hget).
        exists (string_of_Z i). split.
        { unfold returned_id. rewrite Hdata. reflexivity. }
        cbn [mysql]. rewrite Hget. repeat split.
        eexists. split; [reflexivity|]. split; [reflexivity|].
        split; [reflexivity|]. split; [reflexivity|].
        intros Hw. apply as_stored_in_width in Hw as (-> & -> & ->). repeat split.
    + split; [discriminate|]. cbn. discriminate.
  - (* SQLite *)
    destruct db as [t|].
    + pose proof (sqlite_create_fetch env n e p t Hlite) as H.
      cbn [SqliteRoutes.router].
      destruct (SqliteRoutes.post_users env (texts n e p) (Some t)) as [r1 db1] eqn:E.
      split.
      * unfold accepts. cbn [sqlite]. intros Hroom.
        unfold SqliteRoutes.post_users in E. cbn [texts name email phone] in E.
        rewrite (insert_texts _ _ _ _ _ _ _ Hroom) in E.
        injection E as <- _. reflexivity.
      * intros H201. specialize (H H201) as (i & Hdata & Hget).
        exists (string_of_Z i). split.
        { unfold returned_id. rewrite Hdata. reflexivity. }
        cbn [sqlite]. rewrite Hget. repeat split.
        eexists. split; [reflexivity|]. repeat split.
    + split; [discriminate|]. cbn. discriminate.
Qed.

(** *** Deleting *)

Lemma filter_unmatched {A : Type} (m : A -> bool) (l : list A) :
  existsb m l = false ->
  filter m l = [] /\ filter (fun x => negb (m x)) l = l.
Proof.
  induction l as [|x l IH]; simpl; intros H; [now split|].
  apply orb_false_iff in H as [Hx Hl]. rewrite Hx. simpl.
  destruct (IH Hl) as [-> ->]. now split.
Qed.

Lemma filter_matched {A : Type} (m : A -> bool) (l : list A) :
  existsb m l = true ->
  (0 < List.length (filter m l))%nat
  /\ (List.length (filter (fun x => negb (m x)) l) < List.length l)%nat.
Proof.
  induction l as [|x l IH]; simpl; intros H; [discriminate|].
  pose proof (filter_length_le (fun x => negb (m x)) l) as Hle.
  destruct (m x) eqn:Hx; simpl.
  - split; lia.
  - destruct (IH H) as [H1 H2]. split; lia.
Qed.

Lemma sql_delete_outcome (refused : bool) (v : option Z) (t : Sql.Table) :
  match Sql.delete refused v t with
  | inl _ => refused = true
  | inr (changes, t') =>
      refused = false
      /\ ((existsb (Sql.id_is v) (Sql.rows t) = false /\ changes = 0 /\ t' = t)
          \/ (existsb (Sql.id_is v) (Sql.rows t) = true /\ changes <> 0
              /\ (List.length (Sql.rows t') < List.length (Sql.rows t))%nat))
  end.
Proof.
  unfold Sql.delete. destruct refused; [reflexivity|]. split; [reflexivity|].
  destruct (existsb (Sql.id_is v) (Sql.rows t)) eqn:E.
  - right. destruct (filter_matched _ _ E) as [H1 H2]. simpl. repeat split; [lia|exact H2].
  - left. destruct (filter_unmatched _ _ E) as [-> ->]. destruct t. repeat split.
Qed.

Lemma delete_first_outcome (m : Mongoose.Doc -> bool) (docs : list Mongoose.Doc) :
  let '(found, docs') := Mongoose.delete_first m docs in
  (existsb m docs = false /\ found = None /\ docs' = docs)
  \/ (existsb m docs = true /\ found <> None
      /\ List.length docs = S (List.length docs')).
Proof.
  induction docs as [|d ds IH]; simpl; [left; repeat split|].
  destruct (m d) eqn:Hd; simpl.
  - right. repeat split. discriminate.
  - destruct (Mongoose.delete_first m ds) as [found ds'].
    destruct IH as [(H1 & -> & ->) | (H1 & H2 & H3)].
    + left. repeat split. exact H1.
    + right. repeat split; [exact H1 | exact H2 | simpl; lia].
Qed.

(** What [DELETE /users/:id] does when the store can be used. *)
Lemma delete_outcome (env : Env) (b : Backend) (id : string) (w : World) :
  ready b w = true ->
  let '(r, w') := app env b (DeleteUser id) w in
  (addressable b id = false /\ status r = 500 /\ success r = Some (JBool false)
   /\ w' = w)
  \/ (addressable b id = true /\ matches b id w = false
      /\ status r = 404 /\ success r = Some (JBool false) /\ w' = w)
  \/ (addressable b id = true /\ matches b id w = true
      /\ r = json 200 [("success", JBool true);
                       ("message", JStr "User deleted successfully")]
      /\ (List.length (stored b w') < List.length (stored b w))%nat).
Proof.
  destruct w as [c docs pool db]. destruct b; simpl; intros Hr.
  - subst c. unfold MongoRoutes.router, MongoRoutes.delete_user. cbn [negb].
    unfold Mongoose.findByIdAndDelete, Mongoose.cast, Mongoose.andThen.
    destruct (cast_ObjectId id) as [o|]; [|left; repeat split].
    pose proof (delete_first_outcome (Mongoose.has_id o) docs) as H.
    destruct (Mongoose.delete_first (Mongoose.has_id o) docs) as [found docs'].
    destruct H as [(H1 & -> & ->) | (H1 & H2 & H3)].
    + right; left. repeat split. exact H1.
    + destruct found; [|contradiction]. right; right. simpl.
      repeat split; [exact H1|]. rewrite !length_map. lia.
  - destruct pool as [t|]; [|discriminate].
    unfold MysqlRoutes.delete_user.
    pose proof (sql_delete_outcome (mysql_refuses_id id) (mysql_int_of_text id) t) as H.
    destruct (Sql.delete _ (mysql_int_of_text id) t) as [err|[changes t']].
    { rewrite H. simpl. left. repeat split. }
    destruct H as [-> [(H1 & -> & ->) | (H1 & H2 & H3)]].
    + simpl. right; left. repeat split. exact H1.
    + apply Z.eqb_neq in H2. rewrite H2. simpl. right; right.
      repeat split; [exact H1|]. rewrite !length_map. exact H3.
  - destruct db as [t|]; [|discriminate].
    unfold SqliteRoutes.delete_user.
    pose proof (sql_delete_outcome false (sqlite_int_of_text id) t) as H.
    destruct (Sql.delete false (sqlite_int_of_text id) t) as [err|[changes t']];
      [discriminate|].
    destruct H as [_ [(H1 & -> & ->) | (H1 & H2 & H3)]].
    + simpl. right; left. repeat split. exact H1.
    + apply Z.eqb_neq in H2. rewrite H2. simpl. right; right.
      repeat split; [exact H1|]. rewrite !length_map. exact H3.
Qed.

(** When the store cannot be used nothing is deleted and the answer is an
    error. *)
Lemma delete_not_ready (env : Env) (b : Backend) (id : string) (w : World) :
  ready b w = false ->
  let '(r, w') := app env b (DeleteUser id) w in
  (status r = 503 \/ status r = 500) /\ success r = Some (JBool false) /\ w' = w.
Proof.
  destruct w as [c docs pool db]. destruct b; simpl; intros Hr.
  - subst c. unfold MongoRoutes.router. simpl. repeat split. now left.
  - destruct pool; [discriminate|]. simpl. repeat split. now right.
  - destruct db; [discriminate|]. simpl. repeat split. now right.
Qed.

(** What [DELETE] does with an id that matches no stored user: the answer
    is never 200, it carries [success: false] and nothing is removed.  With
    the store in use it is 404 when the id is one the backend can address a
    delete to; for the others (no ObjectId for Mongoose, a text MySQL
    refuses) the error is caught and answered 500, and the handler's own
    404 branch is not reached.  200 with the success message is the answer
    only when a matching record was there and has been removed. *)
Lemma delete_unmatched_id (env : Env) (b : Backend) (id : string) (w : World) :
  matches b id w = false ->
  (let '(r, w') := app env b (DeleteUser id) w in
   status r <> 200 /\ success r = Some (JBool false) /\ w' = w
   /\ (ready b w = true -> addressable b id = true -> status r = 404)
   /\ (ready b w = true -> addressable b id = false -> b <> Sqlite /\ status r = 500))
  /\ forall (w0 : World),
       let '(r0, w0') := app env b (DeleteUser id) w0 in
       status r0 = 200 ->
       matches b id w0 = true
       /\ message r0 = Some (JStr "User deleted successfully")
       /\ (List.length (stored b w0') < List.length (stored b w0))%nat.
Proof.
  intros Hmiss. split.
  - destruct (ready b w) eqn:Hr.
    + pose proof (delete_outcome env b id w Hr) as H.
      destruct (app env b (DeleteUser id) w) as [r w'].
      destruct H as [(Hc & Hs & Hok & ->) | [(Hc & _ & Hs & Hok & ->) | (_ & Hm & _)]];
        [| |congruence]; rewrite Hs, Hc.
      * split; [discriminate|]. split; [exact Hok|]. split; [reflexivity|].
        split; [discriminate|]. intros _ _. split; [|reflexivity].
        destruct b; [discriminate | discriminate | discriminate Hc].
      * split; [discriminate|]. split; [exact Hok|]. split; [reflexivity|].
        split; [reflexivity|]. discriminate.
    + pose proof (delete_not_ready env b id w Hr) as H.
      destruct (app env b (DeleteUser id) w) as [r w'].
      destruct H as (Hs & Hok & ->).
      split; [destruct Hs as [-> | ->]; discriminate|].
      split; [exact Hok|]. split; [reflexivity|]. split; discriminate.
  - intros w0. destruct (ready b w0) eqn:Hr.
    + pose proof (delete_outcome env b id w0 Hr) as H.
      destruct (app env b (DeleteUser id) w0) as [r0 w0'].
      destruct H as [(_ & Hs & _) | [(_ & _ & Hs & _) | (_ & Hm & -> & Hlen)]].
      * rewrite Hs. discriminate.
      * rewrite Hs. discriminate.
      * intros _. repeat split; assumption.
    + pose proof (delete_not_ready env b id w0 Hr) as H.
      destruct (app env b (DeleteUser id) w0) as [r0 w0'].
      destruct H as ([-> | ->] & _); discriminate.
Qed.

(** *** Updating *)

Lemma Forall2_map_self {A : Type} (R : A -> A -> Prop) (f : A -> A) (l : list A) :
  (forall x, R x (f x)) -> Forall2 R l (map f l).
Proof. intros H. induction l; simpl; constructor; auto. Qed.

Lemma Forall2_same {A : Type} (R : A -> A -> Prop) (l : list A) :
  (forall x, R x x) -> Forall2 R l l.
Proof. intros H. induction l; constructor; auto. Qed.

Lemma row_frame_refl (hit : Sql.Row -> bool) (r : Sql.Row) : row_frame hit r r.
Proof. unfold row_frame. auto. Qed.

Lemma doc_frame_refl (hit : Mongoose.Doc -> bool) (d : Mongoose.Doc) : doc_frame hit d d.
Proof. unfold doc_frame. auto. Qed.

(** What a successful [UPDATE] leaves in the table. *)
Lemma sql_update_inr (sch : Sql.Schema) (lenient touch : bool) (n e p : Field)
  (t0 : Z) (refused : bool) (v : option Z) (t : Sql.Table) (changes : Z)
  (t' : Sql.Table) :
  Sql.update sch lenient touch n e p t0 refused v t = inr (changes, t') ->
  (existsb (Sql.id_is v) (Sql.rows t) = false /\ changes = 0 /\ t' = t)
  \/ (existsb (Sql.id_is v) (Sql.rows t) = true /\ changes <> 0
      /\ exists sn se sp,
           keeps (Sql.name_width sch) n sn /\ keeps (Sql.email_width sch) e se
           /\ keeps (Sql.phone_width sch) p sp
           /\ t' = {| Sql.rows :=
                        map (fun r => if Sql.id_is v r
                                      then Sql.updated sch touch sn se sp t0 r else r)
                            (Sql.rows t);
                      Sql.seq := Sql.seq t |}).
Proof.
  unfold Sql.update, Sql.andThen.
  destruct (Sql.bind lenient n) as [|vn] eqn:Bn; [discriminate|].
  destruct (Sql.bind lenient e) as [|ve] eqn:Be; [discriminate|].
  destruct (Sql.bind lenient p) as [|vp] eqn:Bp; [discriminate|].
  destruct refused; [discriminate|].
  destruct (existsb (Sql.id_is v) (Sql.rows t)) eqn:Ex.
  - destruct (Sql.store _ "name" vn) as [|sn] eqn:Sn; [discriminate|].
    destruct (Sql.store _ "email" ve) as [|se] eqn:Se; [discriminate|].
    destruct (Sql.store _ "phone" vp) as [|sp] eqn:Sp; [discriminate|].
    intros [= <- <-]. right.
    apply store_inr in Sn as (tn & -> & Kn), Se as (te & -> & Ke), Sp as (tp & -> & Kp).
    apply bind_inr_some in Bn, Be, Bp. subst n e p.
    split; [reflexivity|]. split.
    + destruct (filter_matched _ _ Ex) as [H _]. lia.
    + exists sn, se, sp. unfold keeps. repeat split; eauto.
  - intros [= <- <-]. left. repeat split.
Qed.

Lemma sql_update_accepted (sch : Sql.Schema) (lenient touch : bool) (n e p : Field)
  (t0 : Z) (refused : bool) (v : option Z) (t : Sql.Table) (changes : Z)
  (t' : Sql.Table) :
  Sql.update sch lenient touch n e p t0 refused v t = inr (changes, t') ->
  refused = false.
Proof.
  unfold Sql.update, Sql.andThen.
  destruct (Sql.bind lenient n); [discriminate|].
  destruct (Sql.bind lenient e); [discriminate|].
  destruct (Sql.bind lenient p); [discriminate|].
  now destruct refused.
Qed.

Lemma sql_update_frame (sch : Sql.Schema) (lenient touch : bool) (n e p : Field)
  (t0 : Z) (refused : bool) (v : option Z) (t : Sql.Table) (changes : Z)
  (t' : Sql.Table) :
  Sql.update sch lenient touch n e p t0 refused v t = inr (changes, t') ->
  Sql.seq t' = Sql.seq t
  /\ Forall2 (row_frame (Sql.id_is v)) (Sql.rows t) (Sql.rows t').
Proof.
  intros H. apply sql_update_inr in H
    as [(_ & _ & ->) | (_ & _ & sn & se & sp & _ & _ & _ & ->)].
  - split; [reflexivity|]. apply Forall2_same, row_frame_refl.
  - split; [reflexivity|]. simpl. apply Forall2_map_self.
    intros r. unfold row_frame. destruct (Sql.id_is v r); simpl; auto.
    repeat split. discriminate.
Qed.

Lemma update_first_frame (m : Mongoose.Doc -> bool) (f : Mongoose.Doc -> Mongoose.Doc)
  (docs : list Mongoose.Doc) :
  (forall d, Mongoose._id (f d) = Mongoose._id d
             /\ Mongoose.createdAt (f d) = Mongoose.createdAt d
             /\ Mongoose.__v (f d) = Mongoose.__v d) ->
  Forall2 (doc_frame m) docs (snd (Mongoose.update_first m f docs)).
Proof.
  intros Hf. induction docs as [|d ds IH]; simpl; [constructor|].
  destruct (m d) eqn:Hd; simpl.
  - constructor.
    + destruct (Hf d) as (H1 & H2 & H3). unfold doc_frame. rewrite Hd.
      repeat split; try assumption. discriminate.
    + apply Forall2_same, doc_frame_refl.
  - destruct (Mongoose.update_first m f ds) as [r ds']. simpl in *.
    constructor; [apply doc_frame_refl | exact IH].
Qed.

(** C7. For every backend, a successful update changes nothing but the
    name, email, phone and update time of the user it addresses: every
    stored user keeps its id and its creation time, every user the id does
    not select is exactly as before, no user is added or removed, and the
    stores of the other backends are as they were. *)
Theorem C7_update_frame (env : Env) (b : Backend) (id : string) (body : Body) (w : World) :
  let '(r, w') := app env b (UpdateUser id body) w in
  status r = 200 ->
  mongoConnected w' = mongoConnected w
  /\ match b with
     | Mongo =>
         (exists o, cast_ObjectId id = Some o
                    /\ Forall2 (doc_frame (Mongoose.has_id o)) (mongo w) (mongo w'))
         /\ mysql w' = mysql w /\ sqlite w' = sqlite w
     | Mysql =>
         Forall2 (row_frame (Sql.id_is (mysql_int_of_text id)))
                 (rows_of (mysql w)) (rows_of (mysql w'))
         /\ mongo w' = mongo w /\ sqlite w' = sqlite w
     | Sqlite =>
         Forall2 (row_frame (Sql.id_is (sqlite_int_of_text id)))
                 (rows_of (sqlite w)) (rows_of (sqlite w'))
         /\ mongo w' = mongo w /\ mysql w' = mysql w
     end.
Proof.
  destruct w as [c docs pool db]. destruct b; unfold app;
    cbn [mongoConnected mongo mysql sqlite].
  - unfold MongoRoutes.router. destruct c; cbn [negb]; [|simpl; discriminate].
    unfold MongoRoutes.put_user, Mongoose.findByIdAndUpdate, Mongoose.cast,
      Mongoose.andThen.
    destruct (cast_ObjectId id) as [o|]; [|simpl; discriminate].
    destruct (Mongoose.change "name" (name body)) as [|n]; [simpl; discriminate|].
    destruct (Mongoose.change "email" (email body)) as [|e]; [simpl; discriminate|].
    destruct (Mongoose.change "phone" (phone body)) as [|p]; [simpl; discriminate|].
    pose proof (update_first_frame (Mongoose.has_id o)
                  (Mongoose.set_paths n e p (now env)) docs) as H.
    destruct (Mongoose.update_first _ _ docs) as [[user|] docs']; simpl;
      [|discriminate].
    intros _. split; [reflexivity|]. split; [|now split].
    exists o. split; [reflexivity|]. apply H. intros d. repeat split.
  - unfold MysqlRoutes.router, MysqlRoutes.put_user.
    destruct pool as [t|]; [|simpl; discriminate].
    destruct (Sql.update _ _ _ _ _ _ _ _ _ t) as [err|[changes t']] eqn:E;
      [simpl; discriminate|].
    apply sql_update_frame in E as [_ E].
    destruct (changes =? 0); simpl; [discriminate|].
    intros _. repeat split. exact E.
  - unfold SqliteRoutes.router, SqliteRoutes.put_user.
    destruct db as [t|]; [|simpl; discriminate].
    destruct (Sql.update _ _ _ _ _ _ _ _ _ t) as [err|[changes t']] eqn:E;
      [simpl; discriminate|].
    apply sql_update_frame in E as [_ E].
    destruct (changes =? 0); simpl; [discriminate|].
    intros _. repeat split. exact E.
Qed.

(** *** Updating twice *)

Lemma existsb_map_same {A : Type} (m : A -> bool) (f : A -> A) (l : list A) :
  (forall x, m (f x) = m x) -> existsb m (map f l) = existsb m l.
Proof.
  intros H. induction l as [|x l IH]; simpl; [reflexivity|]. now rewrite H, IH.
Qed.

Lemma filter_map_same {A : Type} (m : A -> bool) (f : A -> A) (l : list A) :
  (forall x, m (f x) = m x) ->
  List.length (filter m (map f l)) = List.length (filter m l).
Proof.
  intros H. induction l as [|x l IH]; simpl; [reflexivity|].
  rewrite H. destruct (m x); simpl; now rewrite IH.
Qed.

(** The same [UPDATE] sent again, at whatever time: it fails the same way,
    or it matches the same number of rows and leaves the same fields. *)
Lemma sql_update_twice (sch : Sql.Schema) (lenient touch : bool) (n e p : Field)
  (t1 t2 : Z) (refused : bool) (v : option Z) (t : Sql.Table) :
  match Sql.update sch lenient touch n e p t1 refused v t with
  | inl err => Sql.update sch lenient touch n e p t2 refused v t = inl err
  | inr (changes, t') =>
      exists t'',
        Sql.update sch lenient touch n e p t2 refused v t' = inr (changes, t'')
        /\ map row_fields (Sql.rows t'') = map row_fields (Sql.rows t')
  end.
Proof.
  unfold Sql.update, Sql.andThen.
  destruct (Sql.bind lenient n) as [|vn]; [reflexivity|].
  destruct (Sql.bind lenient e) as [|ve]; [reflexivity|].
  destruct (Sql.bind lenient p) as [|vp]; [reflexivity|].
  destruct refused; [reflexivity|].
  destruct (existsb (Sql.id_is v) (Sql.rows t)) eqn:Ex.
  - destruct (Sql.store _ "name" vn) as [|sn]; [reflexivity|].
    destruct (Sql.store _ "email" ve) as [|se]; [reflexivity|].
    destruct (Sql.store _ "phone" vp) as [|sp]; [reflexivity|].
    cbn [Sql.rows Sql.seq].
    assert (Hkeep : forall r,
               Sql.id_is v (if Sql.id_is v r
                            then Sql.updated sch touch sn se sp t1 r else r)
               = Sql.id_is v r).
    { intros r. destruct (Sql.id_is v r) eqn:Hr; [|exact Hr].
      unfold Sql.id_is in *. destruct v; [exact Hr | discriminate]. }
    rewrite (existsb_map_same _ _ _ Hkeep), Ex.
    eexists. split.
    + rewrite (filter_map_same _ _ _ Hkeep). reflexivity.
    + cbn [Sql.rows]. rewrite !map_map. apply map_ext. intros r.
      rewrite Hkeep. destruct (Sql.id_is v r); reflexivity.
  - rewrite Ex. eexists. split; reflexivity.
Qed.

Lemma update_first_twice (m : Mongoose.Doc -> bool)
  (f1 f2 : Mongoose.Doc -> Mongoose.Doc) (docs : list Mongoose.Doc) :
  (forall d, m (f1 d) = m d) ->
  (forall d, doc_fields (f2 (f1 d)) = doc_fields (f1 d)) ->
  let '(r1, docs1) := Mongoose.update_first m f1 docs in
  let '(r2, docs2) := Mongoose.update_first m f2 docs1 in
  map doc_fields docs2 = map doc_fields docs1
  /\ (r1 <> None -> r2 <> None).
Proof.
  intros Hm Hf. induction docs as [|d ds IH]; simpl.
  - split; [reflexivity|]. auto.
  - destruct (m d) eqn:Hd.
    + simpl. rewrite Hm, Hd. simpl. rewrite Hf. split; [reflexivity|]. discriminate.
    + destruct (Mongoose.update_first m f1 ds) as [r1 ds1]. simpl. rewrite Hd.
      destruct (Mongoose.update_first m f2 ds1) as [r2 ds2].
      destruct IH as [IH1 IH2]. simpl. now rewrite IH1.
Qed.

Lemma set_paths_twice (n e p : option string) (t1 t2 : Z) (d : Mongoose.Doc) :
  doc_fields (Mongoose.set_paths n e p t2 (Mongoose.set_paths n e p t1 d))
  = doc_fields (Mongoose.set_paths n e p t1 d).
Proof. unfold doc_fields. destruct n, e, p; reflexivity. Qed.

Lemma sqlite_put_twice (env1 env2 : Env) (id : string) (body : Body)
  (db : option Sql.Table) :
  let '(r1, db1) := SqliteRoutes.put_user env1 id body db in
  let '(r2, db2) := SqliteRoutes.put_user env2 id body db1 in
  map row_fields (rows_of db2) = map row_fields (rows_of db1)
  /\ status r2 = status r1.
Proof.
  unfold SqliteRoutes.put_user. destruct db as [t|]; [|split; reflexivity].
  pose proof (sql_update_twice SqliteRoutes.schema sqlite_undefined_is_null true
                (name body) (email body) (phone body) (now env1) (now env2)
                false (sqlite_int_of_text id) t) as H.
  destruct (Sql.update _ _ _ _ _ _ (now env1) _ _ t) as [err|[changes t']].
  - rewrite H. split; reflexivity.
  - destruct H as (t'' & E & Hf).
    destruct (changes =? 0) eqn:Hc; rewrite E, Hc; split; (exact Hf || reflexivity).
Qed.

Lemma mysql_put_twice (env1 env2 : Env) (id : string) (body : Body)
  (pool : option Sql.Table) :
  let '(r1, pool1) := MysqlRoutes.put_user env1 id body pool in
  let '(r2, pool2) := MysqlRoutes.put_user env2 id body pool1 in
  map row_fields (rows_of pool2) = map row_fields (rows_of pool1)
  /\ status r2 = status r1.
Proof.
  unfold MysqlRoutes.put_user. destruct pool as [t|]; [|split; reflexivity].
  pose proof (sql_update_twice MysqlRoutes.schema false false (name body) (email body)
                (phone body) (now env1) (now env2) (mysql_refuses_id id)
                (mysql_int_of_text id) t) as H.
  destruct (Sql.update _ _ _ _ _ _ (now env1) _ _ t) as [err|[changes t']].
  - rewrite H. split; reflexivity.
  - destruct H as (t'' & E & Hf).
    destruct (changes =? 0) eqn:Hc; rewrite E, Hc; split; (exact Hf || reflexivity).
Qed.

Lemma mongo_put_twice (env1 env2 : Env) (id : string) (body : Body)
  (docs : list Mongoose.Doc) :
  let '(r1, docs1) := MongoRoutes.put_user env1 id body docs in
  let '(r2, docs2) := MongoRoutes.put_user env2 id body docs1 in
  map doc_fields docs2 = map doc_fields docs1
  /\ (status r1 = 200 -> status r2 = 200).
Proof.
  unfold MongoRoutes.put_user, Mongoose.findByIdAndUpdate, Mongoose.cast,
    Mongoose.andThen.
  destruct (cast_ObjectId id) as [o|]; [|split; [reflexivity|discriminate]].
  destruct (Mongoose.change "name" (name body)) as [|n];
    [split; [reflexivity|discriminate]|].
  destruct (Mongoose.change "email" (email body)) as [|e];
    [split; [reflexivity|discriminate]|].
  destruct (Mongoose.change "phone" (phone body)) as [|p];
    [split; [reflexivity|discriminate]|].
  pose proof (update_first_twice (Mongoose.has_id o)
                (Mongoose.set_paths n e p (now env1))
                (Mongoose.set_paths n e p (now env2)) docs
                (fun d => eq_refl) (set_paths_twice n e p (now env1) (now env2))) as H.
  destruct (Mongoose.update_first _ (Mongoose.set_paths n e p (now env1)) docs)
    as [r1 docs1].
  destruct r1 as [u1|]; cbn iota beta;
    destruct (Mongoose.update_first _ (Mongoose.set_paths n e p (now env2)) docs1)
      as [r2 docs2];
    destruct H as [Hf Hr]; destruct r2 as [u2|]; simpl; (split; [exact Hf|]);
    try discriminate; try reflexivity.
  intros _. exfalso. apply Hr; [discriminate | reflexivity].
Qed.

(** C8. Update is idempotent in effect: for every backend, id and payload,
    sending the same update a second time, at whatever time, leaves the
    stored ids, names, emails and phones as the first one left them; and
    when the first update was answered 200, so is the second. *)
Theorem C8_update_idempotent (env1 env2 : Env) (b : Backend) (id : string)
  (body : Body) (w : World) :
  let '(r1, w1) := app env1 b (UpdateUser id body) w in
  let '(r2, w2) := app env2 b (UpdateUser id body) w1 in
  contents b w2 = contents b w1
  /\ (status r1 = 200 -> status r2 = 200).
Proof.
  destruct w as [c docs pool db]. destruct b; unfold app, contents;
    cbn [mongoConnected mongo mysql sqlite].
  - unfold MongoRoutes.router. destruct c; cbn [negb mongoConnected mongo].
    + pose proof (mongo_put_twice env1 env2 id body docs) as H.
      destruct (MongoRoutes.put_user env1 id body docs) as [r1 docs1].
      cbn [mongoConnected mongo negb].
      destruct (MongoRoutes.put_user env2 id body docs1) as [r2 docs2].
      exact H.
    + split; [reflexivity|]. simpl. discriminate.
  - unfold MysqlRoutes.router.
    pose proof (mysql_put_twice env1 env2 id body pool) as H.
    destruct (MysqlRoutes.put_user env1 id body pool) as [r1 pool1].
    cbn [mysql].
    destruct (MysqlRoutes.put_user env2 id body pool1) as [r2 pool2].
    cbn [mysql]. destruct H as [H1 H2]. split; [exact H1 | congruence].
  - unfold SqliteRoutes.router.
    pose proof (sqlite_put_twice env1 env2 id body db) as H.
    destruct (SqliteRoutes.put_user env1 id body db) as [r1 db1].
    cbn [sqlite].
    destruct (SqliteRoutes.put_user env2 id body db1) as [r2 db2].
    cbn [sqlite]. destruct H as [H1 H2]. split; [exact H1 | congruence].
Qed.

(** *** The key invariant *)

Lemma keys_issued_insert (sch : Sql.Schema) (lenient : bool) (n e p : Field) (t0 : Z)
  (t : Sql.Table) (i : Z) (t' : Sql.Table) :
  keys_issued (Some t) ->
  Sql.insert sch lenient n e p t0 t = inr (i, t') ->
  keys_issued (Some t').
Proof.
  simpl. intros Hk E.
  apply insert_inr in E as (sn & se & sp & _ & _ & _ & -> & ->). simpl.
  apply Forall_app. split.
  - eapply Forall_impl; [|exact Hk]. simpl. intros r Hr. lia.
  - constructor; [simpl; lia | constructor].
Qed.

Lemma keys_issued_update (sch : Sql.Schema) (lenient touch : bool) (n e p : Field)
  (t0 : Z) (refused : bool) (v : option Z) (t : Sql.Table) (changes : Z)
  (t' : Sql.Table) :
  keys_issued (Some t) ->
  Sql.update sch lenient touch n e p t0 refused v t = inr (changes, t') ->
  keys_issued (Some t').
Proof.
  simpl. intros Hk E. apply sql_update_frame in E as [Hseq Hrows]. rewrite Hseq.
  revert Hk. induction Hrows as [|r r' l l' Hr _ IH]; intros Hk; [constructor|].
  inversion Hk; subst. constructor; [|now apply IH].
  destruct Hr as (-> & _). assumption.
Qed.

Lemma keys_issued_delete (refused : bool) (v : option Z) (t : Sql.Table)
  (changes : Z) (t' : Sql.Table) :
  keys_issued (Some t) ->
  Sql.delete refused v t = inr (changes, t') ->
  keys_issued (Some t').
Proof.
  unfold Sql.delete. destruct refused; [discriminate|].
  simpl. intros Hk [= _ <-]. apply Forall_forall. intros r Hr.
  apply filter_In in Hr as [Hr _].
  rewrite Forall_forall in Hk. now apply Hk.
Qed.

Lemma empty_keys_issued : keys_issued (Some Sql.empty).
Proof. constructor. Qed.

(** Every request keeps the keys of the two tables below the last key
    issued. *)
Lemma app_preserves_wf (env : Env) (b : Backend) (op : Op) (w : World) :
  wf w -> wf (snd (app env b op w)).
Proof.
  destruct w as [c docs pool db]. unfold wf. simpl. intros [Hmy Hlite].
  destruct b; unfold app; cbn [mongoConnected mongo mysql sqlite].
  - destruct (MongoRoutes.router env c op docs). simpl. now split.
  - split; [|destruct (MysqlRoutes.router env op pool); exact Hlite].
    destruct pool as [t|]; [|destruct op; exact I].
    destruct op as [|id|body|id body|id]; simpl.
    + exact Hmy.
    + destruct (filter _ (Sql.rows t)); exact Hmy.
    + unfold MysqlRoutes.post_users.
      destruct (Sql.insert _ _ _ _ _ _ t) as [err|[i t']] eqn:E; [exact Hmy|].
      exact (keys_issued_insert _ _ _ _ _ _ _ _ _ Hmy E).
    + unfold MysqlRoutes.put_user.
      destruct (Sql.update _ _ _ _ _ _ _ _ _ t) as [err|[changes t']] eqn:E;
        [exact Hmy|].
      pose proof (keys_issued_update _ _ _ _ _ _ _ _ _ _ _ _ Hmy E).
      destruct (changes =? 0); assumption.
    + unfold MysqlRoutes.delete_user.
      destruct (Sql.delete _ _ t) as [err|[changes t']] eqn:E; [exact Hmy|].
      pose proof (keys_issued_delete _ _ _ _ _ Hmy E).
      destruct (changes =? 0); assumption.
  - split; [destruct (SqliteRoutes.router env op db); exact Hmy|].
    destruct db as [t|]; [|destruct op; exact I].
    destruct op as [|id|body|id body|id]; simpl.
    + exact Hlite.
    + unfold SqliteRoutes.get_user. destruct (Sql.select_by_id _ t); exact Hlite.
    + unfold SqliteRoutes.post_users.
      destruct (Sql.insert _ _ _ _ _ _ t) as [err|[i t']] eqn:E; [exact Hlite|].
      exact (keys_issued_insert _ _ _ _ _ _ _ _ _ Hlite E).
    + unfold SqliteRoutes.put_user.
      destruct (Sql.update _ _ _ _ _ _ _ _ _ t) as [err|[changes t']] eqn:E;
        [exact Hlite|].
      pose proof (keys_issued_update _ _ _ _ _ _ _ _ _ _ _ _ Hlite E).
      destruct (changes =? 0); assumption.
    + pose proof (keys_issued_delete false (sqlite_int_of_text id) t _ _ Hlite eq_refl)
        as H.
      destruct (_ =? 0); exact H.
Qed.

End Crud.

(** ** The statements on the sample states *)

Section Runs.
Import Js Http Req Server View.

#[local] Existing Instance reference_drivers.

(** C1 as the spec states it fails under [/api/sqlite]: a body whose name
    is the empty string is handed to the store, a row is inserted and the
    answer is 201, not 400. *)
Lemma C1_counterexample_sqlite_empty_name :
  nonempty "" = false
  /\ let '(r, w') := app Demo.env Sqlite (CreateUser Demo.empty_name) Demo.fresh in
     status r = 201
     /\ status r <> 400
     /\ success r = Some (JBool true)
     /\ rows_of (sqlite w')
        = [Sql.mkRow 1 "" "dave@x.com" "555" 1700000000 1700000000].
Proof.
  split; [reflexivity|]. vm_compute. repeat split. discriminate.
Qed.

Lemma C1_create_validation_witness :
  truthy (MiniStore.body_name Demo.nameless) = false
  /\ MiniStore.createUser Demo.nameless MiniStore.users
     = (json 400 [("success", JBool false);
                  ("message",
                   JStr ("Validation Error – " ++ MiniStore.quoted "name" ++ " and "
                         ++ MiniStore.quoted "email" ++ " are required fields.")%string)],
        MiniStore.users)
  /\ status (fst (app Demo.env Mongo (CreateUser Demo.no_name) Demo.fresh)) = 500
  /\ status (fst (app Demo.env Mysql (CreateUser Demo.no_name) Demo.fresh)) = 500
  /\ snd (app Demo.env Mysql (CreateUser Demo.no_name) Demo.fresh) = Demo.fresh.
Proof.
  split; [reflexivity|].
  pose proof (C1_create_validation Demo.nameless MiniStore.users Demo.env Mysql Demo.no_name
                Demo.fresh (or_introl eq_refl)) as [_ H].
  split; [reflexivity|]. split; [reflexivity|].
  destruct (app Demo.env Mysql (CreateUser Demo.no_name) Demo.fresh) as [r w'] eqn:E.
  destruct H as [_ [(H & [=] & _) | [(H & _ & _ & ->) | (H & Hf & _)]]].
  - split; [exact H | reflexivity].
  - discriminate Hf.
Defined.

(** C2 as the spec states it fails: the envelope of [GET /users] has no
    [count] field; on the empty SQLite table it is exactly
    [{ success: true, data: [] }]. *)
Lemma C2_counterexample_no_count :
  let r := fst (app Demo.env Sqlite ListUsers Demo.fresh) in
  status r = 200
  /\ body r = JObj [("success", JBool true); ("data", JArr [])]
  /\ count r = None.
Proof. vm_compute. repeat split. Qed.

Lemma C2_list_envelope_witness :
  ready Mongo Demo.with_both = true
  /\ let '(r, w') := app Demo.env Mongo ListUsers Demo.with_both in
     status r = 200 /\ count r = None /\ w' = Demo.with_both.
Proof.
  split; [reflexivity|].
  pose proof (C2_list_envelope Demo.env Mongo Demo.with_both eq_refl) as H.
  destruct (app Demo.env Mongo ListUsers Demo.with_both) as [r w'].
  destruct H as (H1 & _ & H3 & H4 & _). repeat split; assumption.
Defined.

Lemma C3_mongo_unavailable_witness :
  mongoConnected Demo.no_mongo = false
  /\ status (fst (app Demo.env Mongo ListUsers Demo.no_mongo)) = 503
  /\ success (fst (app Demo.env Mongo ListUsers Demo.no_mongo)) = Some (JBool false)
  /\ snd (app Demo.env Mongo ListUsers Demo.no_mongo) = Demo.no_mongo
  /\ status (fst (app Demo.env Sqlite (CreateUser Demo.dave) Demo.no_mongo)) = 201.
Proof.
  split; [reflexivity|].
  pose proof (C3_mongo_unavailable Demo.env ListUsers Demo.no_mongo eq_refl) as [H _].
  destruct (app Demo.env Mongo ListUsers Demo.no_mongo) as [r w'].
  destruct H as (H1 & H2 & H3 & _). repeat split; try assumption.
Defined.

(** C4. The claim fails on the code by a slip. [DELETE /api/mongo/users/abc]
    names no stored user and is answered 500, not 404, with nothing removed.
    The handler has the 404 branch ([if (!user)]), and the router under
    [/api/sqlite] answers 404 to the same request; under [/api/mongo]
    [findByIdAndDelete] throws on the id before the branch is reached, and
    the [catch] around it answers 500. *)
Theorem C4_delete_uncastable_id :
  matches Mongo "abc" Demo.with_both = false
  /\ (let '(r, w') := app Demo.env Mongo (DeleteUser "abc") Demo.with_both in
      status r = 500 /\ status r <> 404 /\ success r = Some (JBool false)
      /\ w' = Demo.with_both)
  /\ matches Sqlite "abc" Demo.with_both = false
  /\ fst (app Demo.env Sqlite (DeleteUser "abc") Demo.with_both)
     = failure 404 "User not found".
Proof.
  split; [reflexivity|]. split; [|split; reflexivity].
  vm_compute. repeat split. discriminate.
Qed.

Lemma with_dave_wf : wf Demo.with_dave.
Proof.
  repeat apply app_preserves_wf. split; apply empty_keys_issued.
Qed.

Lemma C5_create_then_fetch_witness :
  wf Demo.with_dave
  /\ valid "Erin" "erin@x.com" "777" = true
  /\ is_ObjectId (fresh_oid Demo.later) = true
  /\ accepts Sqlite Demo.later "Erin" "erin@x.com" "777" Demo.with_dave = true
  /\ let '(r1, w1) := app Demo.later Sqlite (CreateUser Demo.erin) Demo.with_dave in
     status r1 = 201
     /\ exists id,
          returned_id Sqlite r1 = Some id
          /\ let '(r2, w2) := app Demo.env Sqlite (GetUser id) w1 in
             status r2 = 200 /\ w2 = w1
             /\ exists user,
                  data r2 = Some user
                  /\ get "name" user = Some (JStr "Erin")
                  /\ get "email" user = Some (JStr "erin@x.com")
                  /\ get "phone" user = Some (JStr "777").
Proof.
  split; [exact with_dave_wf|]. split; [reflexivity|]. split; [reflexivity|].
  split; [reflexivity|].
  pose proof (C5_create_then_fetch Demo.later Demo.env Sqlite "Erin" "erin@x.com" "777"
                Demo.with_dave with_dave_wf eq_refl eq_refl) as H.
  change (texts "Erin" "erin@x.com" "777") with Demo.erin in H.
  destruct (app Demo.later Sqlite (CreateUser Demo.erin) Demo.with_dave) as [r1 w1].
  destruct H as [H1 H2]. specialize (H1 eq_refl).
  split; [exact H1|].
  destruct (H2 H1) as (id & Hid & H3). exists id. split; [exact Hid|].
  destruct (app Demo.env Sqlite (GetUser id) w1) as [r2 w2].
  destruct H3 as (Hs & Hw & user & Hd & _ & _ & _ & Hsame).
  split; [exact Hs|]. split; [exact Hw|].
  exists user. split; [exact Hd | exact (Hsame eq_refl)].
Defined.

(** C5 as the spec states it fails under [/api/mysql]: a phone of twenty
    digits and a space is a valid field; the create is answered 201, and the
    fetch by the id it returned gives the phone back without the space,
    because the column is [VARCHAR(20)]. *)
Lemma C5_counterexample_mysql_trailing_space :
  valid "Dave" "dave@x.com" "12345678901234567890 " = true
  /\ let '(r1, w1) := app Demo.env Mysql
                          (CreateUser (texts "Dave" "dave@x.com" "12345678901234567890 "))
                          Demo.fresh in
     status r1 = 201
     /\ returned_id Mysql r1 = Some "1"
     /\ let '(r2, w2) := app Demo.later Mysql (GetUser "1") w1 in
        status r2 = 200
        /\ exists user,
             data r2 = Some user
             /\ get "phone" user = Some (JStr "12345678901234567890")
             /\ get "phone" user <> Some (JStr "12345678901234567890 ").
Proof.
  split; [reflexivity|]. vm_compute. repeat split.
  eexists. split; [reflexivity|]. split; [reflexivity | discriminate].
Qed.

Lemma C6_list_newest_first_witness :
  ready Mysql Demo.with_both = true
  /\ data (fst (app Demo.env Mysql ListUsers Demo.with_both))
     = Some (JArr
               [Sql.json_of_row (Sql.mkRow 2 "Erin" "erin@x.com" "777"
                                            1700000060 1700000060);
                Sql.json_of_row (Sql.mkRow 1 "Dave" "dave@x.com" "555"
                                            1700000000 1700000000)])
  /\ exists js,
       data (fst (app Demo.env Mysql ListUsers Demo.with_both)) = Some (JArr js)
       /\ Permutation js (stored Mysql Demo.with_both)
       /\ StronglySorted (not_older Mysql) js.
Proof.
  split; [reflexivity|]. split; [reflexivity|].
  exact (proj2 (C6_list_newest_first Demo.env Mysql Demo.with_both eq_refl)).
Defined.

Lemma C7_update_frame_witness :
  let '(r, w') := app Demo.later Sqlite (UpdateUser "1" Demo.erin) Demo.with_both in
  status r = 200
  /\ rows_of (sqlite w')
     = [Sql.mkRow 1 "Erin" "erin@x.com" "777" 1700000000 1700000060;
        Sql.mkRow 2 "Erin" "erin@x.com" "777" 1700000060 1700000060]
  /\ Forall2 (row_frame (Sql.id_is (sqlite_int_of_text "1")))
             (rows_of (sqlite Demo.with_both)) (rows_of (sqlite w'))
  /\ mongo w' = mongo Demo.with_both
  /\ mysql w' = mysql Demo.with_both.
Proof.
  pose proof (C7_update_frame Demo.later Sqlite "1" Demo.erin Demo.with_both) as H.
  destruct (app Demo.later Sqlite (UpdateUser "1" Demo.erin) Demo.with_both)
    as [r w'] eqn:E.
  assert (Hs : status r = 200) by (now injection E as <- _).
  split; [exact Hs|]. split; [now injection E as _ <-|].
  exact (proj2 (H Hs)).
Defined.

Lemma C8_update_idempotent_witness :
  let '(r1, w1) := app Demo.env Mongo (UpdateUser "65f1c0ffee0123456789abcd" Demo.erin)
                       Demo.with_both in
  let '(r2, w2) := app Demo.later Mongo (UpdateUser "65f1c0ffee0123456789abcd" Demo.erin)
                       w1 in
  status r1 = 200 /\ status r2 = 200
  /\ contents Mongo w2 = contents Mongo w1
  /\ contents Mongo w1
     = [("65f1c0ffee0123456789abcd", ("Erin", "erin@x.com", "777"));
        ("65f1c0ffee0123456789abce", ("Erin", "erin@x.com", "777"))].
Proof.
  pose proof (C8_update_idempotent Demo.env Demo.later Mongo "65f1c0ffee0123456789abcd"
                Demo.erin Demo.with_both) as H.
  destruct (app Demo.env Mongo (UpdateUser "65f1c0ffee0123456789abcd" Demo.erin)
              Demo.with_both) as [r1 w1] eqn:E1.
  destruct (app Demo.later Mongo (UpdateUser "65f1c0ffee0123456789abcd" Demo.erin) w1)
    as [r2 w2].
  destruct H as [H1 H2].
  assert (Hs : status r1 = 200) by (now injection E1 as <- _).
  split; [exact Hs|]. split; [exact (H2 Hs)|]. split; [exact H1|].
  now injection E1 as _ <-.
Defined.

End Runs.

(** * Further properties of the routers *)

Section CrudMore.
Context `{D : Drivers}.
Import Js Http Req Server View Inv.

(** *** Fetching one user *)

Lemma filter_head_find {A : Type} (m : A -> bool) (l : list A) :
  find m l = match filter m l with [] => None | x :: _ => Some x end.
Proof.
  induction l as [|x l IH]; simpl; [reflexivity|]. now destruct (m x).
Qed.

(** [rows[0]] of the MySQL route is the row [get] of the SQLite route
    returns. *)
Lemma mysql_get_as_find (id : string) (pool : option Sql.Table) :
  MysqlRoutes.get_user id pool
  = match pool with
    | None => (failure 500 (Sql.message Sql.NoHandle), pool)
    | Some t =>
        match find (Sql.id_is (mysql_int_of_text id)) (Sql.rows t) with
        | None => (failure 404 "User not found", pool)
        | Some row =>
            (json 200 [("success", JBool true); ("data", Sql.json_of_row row)], pool)
        end
    end.
Proof.
  unfold MysqlRoutes.get_user. destruct pool as [t|]; [|reflexivity].
  rewrite filter_head_find. now destruct (filter _ (Sql.rows t)).
Qed.

Lemma find_existsb {A : Type} (m : A -> bool) (l : list A) :
  existsb m l = match find m l with Some _ => true | None => false end.
Proof.
  induction l as [|x l IH]; simpl; [reflexivity|]. now destruct (m x).
Qed.

(** What [GET /users/:id] does when the store can be used. *)
Lemma get_outcome (env : Env) (b : Backend) (id : string) (w : World) :
  ready b w = true ->
  let '(r, w') := app env b (GetUser id) w in
  w' = w
  /\ ((castable b id = false /\ status r = 500 /\ success r = Some (JBool false))
      \/ (castable b id = true /\ matches b id w = false
          /\ r = failure 404 "User not found")
      \/ (castable b id = true /\ matches b id w = true
          /\ status r = 200 /\ success r = Some (JBool true)
          /\ exists user,
               data r = Some user /\ In user (stored b w) /\ answers_to b id user)).
Proof.
  destruct w as [c docs pool db]. destruct b; simpl; intros Hr.
  - subst c. unfold MongoRoutes.router, MongoRoutes.get_user. cbn [negb].
    unfold Mongoose.findById, Mongoose.cast, Mongoose.andThen, matches, castable.
    cbn [mongo].
    destruct (cast_ObjectId id) as [o|] eqn:Hc; simpl.
    + rewrite find_existsb.
      destruct (find (Mongoose.has_id o) docs) as [d|] eqn:E; simpl.
      * split; [reflexivity|]. right; right. repeat split.
        exists (Mongoose.json_of_doc d). apply find_some in E as [Hin Hm].
        split; [reflexivity|]. split; [now apply in_map|].
        exists o. split; [reflexivity|]. simpl. unfold Mongoose.has_id in Hm.
        apply String.eqb_eq in Hm. now rewrite Hm.
      * split; [reflexivity|]. right; left. repeat split.
    + split; [reflexivity|]. left. repeat split.
  - destruct pool as [t|]; [|discriminate].
    rewrite mysql_get_as_find. unfold matches, castable. cbn [mysql rows_of].
    rewrite find_existsb.
    destruct (find _ (Sql.rows t)) as [row|] eqn:E; simpl.
    + split; [reflexivity|]. right; right. repeat split.
      exists (Sql.json_of_row row). apply find_some in E as [Hin Hm].
      split; [reflexivity|]. split; [now apply in_map|].
      unfold Sql.id_is in Hm. destruct (mysql_int_of_text id) as [z|]; [|discriminate].
      exists z. split; [reflexivity|]. simpl. apply Z.eqb_eq in Hm. now rewrite Hm.
    + split; [reflexivity|]. right; left. repeat split.
  - destruct db as [t|]; [|discriminate].
    unfold SqliteRoutes.get_user, Sql.select_by_id, matches, castable.
    cbn [sqlite rows_of]. rewrite find_existsb.
    destruct (find _ (Sql.rows t)) as [row|] eqn:E; simpl.
    + split; [reflexivity|]. right; right. repeat split.
      exists (Sql.json_of_row row). apply find_some in E as [Hin Hm].
      split; [reflexivity|]. split; [now apply in_map|].
      unfold Sql.id_is in Hm. destruct (sqlite_int_of_text id) as [z|]; [|discriminate].
      exists z. split; [reflexivity|]. simpl. apply Z.eqb_eq in Hm. now rewrite Hm.
    + split; [reflexivity|]. right; left. repeat split.
Qed.

(** X1. For every backend whose store is in use, [GET /users/:id] never
    changes the state; it answers 404 with [success: false] exactly when the
    id matches no stored user (500 when Mongoose cannot cast the id), and
    otherwise 200 with a stored user that carries the id the path names. *)
Theorem get_user_reads_the_named_user (env : Env) (b : Backend) (id : string) (w : World) :
  ready b w = true ->
  let '(r, w') := app env b (GetUser id) w in
  w' = w
  /\ (status r = 404 <-> castable b id = true /\ matches b id w = false)
  /\ (status r = 500 <-> castable b id = false)
  /\ (status r = 200 <-> matches b id w = true)
  /\ (status r = 200 ->
      success r = Some (JBool true)
      /\ exists user, data r = Some user /\ In user (stored b w) /\ answers_to b id user)
  /\ (status r <> 200 -> success r = Some (JBool false)).
Proof.
  intros Hr. pose proof (get_outcome env b id w Hr) as H.
  destruct (app env b (GetUser id) w) as [r w'].
  destruct H as [-> [(Hc & Hs & Hok) | [(Hc & Hm & ->) | (Hc & Hm & Hs & Hok & Hu)]]];
    (split; [reflexivity|]).
  - rewrite Hs, Hc. repeat split; try discriminate; try reflexivity; try assumption.
    + intros [? _]; discriminate.
    + intros Hm. exfalso. revert Hm Hc. clear. unfold matches, castable.
      destruct b; try discriminate. now destruct (cast_ObjectId id).
    + intros _. exact Hok.
  - rewrite Hc, Hm. simpl. repeat split; try discriminate; try reflexivity.
  - rewrite Hs, Hc, Hm. repeat split; try discriminate; try reflexivity; try assumption.
    + intros [_ ?]; discriminate.
    + intros Hne. now contradiction Hne.
Qed.

(** *** A refused request changes nothing *)

Lemma update_first_none (m : Mongoose.Doc -> bool) (f : Mongoose.Doc -> Mongoose.Doc)
  (docs : list Mongoose.Doc) :
  fst (Mongoose.update_first m f docs) = None ->
  snd (Mongoose.update_first m f docs) = docs.
Proof.
  induction docs as [|d ds IH]; simpl; [reflexivity|].
  destruct (m d); simpl; [discriminate|].
  destruct (Mongoose.update_first m f ds) as [r ds']. simpl in *.
  intros Hr. now rewrite (IH Hr).
Qed.

Lemma sql_update_none (sch : Sql.Schema) (lenient touch : bool) (n e p : Field)
  (t0 : Z) (refused : bool) (v : option Z) (t t' : Sql.Table) :
  Sql.update sch lenient touch n e p t0 refused v t = inr (0, t') -> t' = t.
Proof.
  intros E. apply sql_update_inr in E as [(_ & _ & ->) | (_ & Hc & _)];
    [reflexivity | now contradiction Hc].
Qed.

Lemma sqlite_refusal_keeps (env : Env) (op : Op) (db : option Sql.Table) :
  let '(r, db') := SqliteRoutes.router env op db in
  success r = Some (JBool false) -> db' = db.
Proof.
  destruct op as [|id|body|id body|id]; simpl.
  - destruct db; intros _; reflexivity.
  - unfold SqliteRoutes.get_user. destruct db as [t|]; [|intros _; reflexivity].
    destruct (Sql.select_by_id _ t); intros _; reflexivity.
  - unfold SqliteRoutes.post_users. destruct db as [t|]; [|intros _; reflexivity].
    destruct (Sql.insert _ _ _ _ _ _ t) as [err|[i t']];
      [intros _; reflexivity|discriminate].
  - unfold SqliteRoutes.put_user. destruct db as [t|]; [|intros _; reflexivity].
    destruct (Sql.update _ _ _ _ _ _ _ _ _ t) as [err|[changes t']] eqn:E;
      [intros _; reflexivity|].
    destruct (changes =? 0) eqn:Hc; [|discriminate].
    apply Z.eqb_eq in Hc. subst changes. intros _. f_equal.
    exact (sql_update_none _ _ _ _ _ _ _ _ _ _ _ E).
  - unfold SqliteRoutes.delete_user. destruct db as [t|]; [|intros _; reflexivity].
    pose proof (sql_delete_outcome false (sqlite_int_of_text id) t) as H.
    destruct (Sql.delete false (sqlite_int_of_text id) t) as [err|[changes t']];
      [intros _; reflexivity|].
    destruct H as [_ [(_ & -> & ->) | (_ & Hc & _)]]; [simpl; intros _; reflexivity|].
    apply Z.eqb_neq in Hc. rewrite Hc. discriminate.
Qed.

Lemma mysql_refusal_keeps (env : Env) (op : Op) (pool : option Sql.Table) :
  let '(r, pool') := MysqlRoutes.router env op pool in
  success r = Some (JBool false) -> pool' = pool.
Proof.
  destruct op as [|id|body|id body|id]; simpl.
  - destruct pool; intros _; reflexivity.
  - rewrite mysql_get_as_find. destruct pool as [t|]; [|intros _; reflexivity].
    destruct (find _ (Sql.rows t)); intros _; reflexivity.
  - unfold MysqlRoutes.post_users. destruct pool as [t|]; [|intros _; reflexivity].
    destruct (Sql.insert _ _ _ _ _ _ t) as [err|[i t']];
      [intros _; reflexivity|discriminate].
  - unfold MysqlRoutes.put_user. destruct pool as [t|]; [|intros _; reflexivity].
    destruct (Sql.update _ _ _ _ _ _ _ _ _ t) as [err|[changes t']] eqn:E;
      [intros _; reflexivity|].
    destruct (changes =? 0) eqn:Hc; [|discriminate].
    apply Z.eqb_eq in Hc. subst changes. intros _. f_equal.
    exact (sql_update_none _ _ _ _ _ _ _ _ _ _ _ E).
  - unfold MysqlRoutes.delete_user. destruct pool as [t|]; [|reflexivity].
    pose proof (sql_delete_outcome (mysql_refuses_id id) (mysql_int_of_text id) t) as H.
    destruct (Sql.delete _ (mysql_int_of_text id) t) as [err|[changes t']];
      [reflexivity|].
    destruct H as [_ [(_ & -> & ->) | (_ & Hc & _)]]; [simpl; reflexivity|].
    apply Z.eqb_neq in Hc. rewrite Hc. discriminate.
Qed.

Lemma mongo_refusal_keeps (env : Env) (c : bool) (op : Op) (docs : list Mongoose.Doc) :
  let '(r, docs') := MongoRoutes.router env c op docs in
  success r = Some (JBool false) -> docs' = docs.
Proof.
  unfold MongoRoutes.router. destruct c; cbn [negb]; [|intros _; reflexivity].
  destruct op as [|id|body|id body|id].
  - intros _. reflexivity.
  - unfold MongoRoutes.get_user.
    destruct (Mongoose.findById id docs) as [|[|]]; intros _; reflexivity.
  - unfold MongoRoutes.post_users.
    destruct (Mongoose.save env body docs) as [err|[user docs']];
      [intros _; reflexivity|discriminate].
  - unfold MongoRoutes.put_user, Mongoose.findByIdAndUpdate, Mongoose.andThen.
    destruct (Mongoose.cast id) as [|o]; [intros _; reflexivity|].
    destruct (Mongoose.change "name" (name body)) as [|n]; [intros _; reflexivity|].
    destruct (Mongoose.change "email" (email body)) as [|e]; [intros _; reflexivity|].
    destruct (Mongoose.change "phone" (phone body)) as [|p]; [intros _; reflexivity|].
    pose proof (update_first_none (Mongoose.has_id o)
                  (Mongoose.set_paths n e p (now env)) docs) as H.
    destruct (Mongoose.update_first _ _ docs) as [[user|] docs']; [discriminate|].
    intros _. now apply H.
  - unfold MongoRoutes.delete_user, Mongoose.findByIdAndDelete, Mongoose.andThen.
    destruct (Mongoose.cast id) as [|o]; [intros _; reflexivity|].
    pose proof (delete_first_outcome (Mongoose.has_id o) docs) as H.
    destruct (Mongoose.delete_first _ docs) as [[user|] docs']; [discriminate|].
    destruct H as [(_ & _ & ->) | (_ & Hn & _)];
      [intros _; reflexivity | now contradiction Hn].
Qed.

(** X2. For every backend and each of the five operations, an answer with
    [success: false] (400-class, 404, 500 or 503) leaves the whole state as it
    was: no refused create, update or delete is half applied. *)
Theorem refused_request_changes_nothing (env : Env) (b : Backend) (op : Op) (w : World) :
  let '(r, w') := app env b op w in
  success r = Some (JBool false) -> w' = w.
Proof.
  destruct w as [c docs pool db]. destruct b; unfold app;
    cbn [mongoConnected mongo mysql sqlite].
  - pose proof (mongo_refusal_keeps env c op docs) as H.
    destruct (MongoRoutes.router env c op docs) as [r docs'].
    intros Hr. now rewrite (H Hr).
  - pose proof (mysql_refusal_keeps env op pool) as H.
    destruct (MysqlRoutes.router env op pool) as [r pool'].
    intros Hr. now rewrite (H Hr).
  - pose proof (sqlite_refusal_keeps env op db) as H.
    destruct (SqliteRoutes.router env op db) as [r db'].
    intros Hr. now rewrite (H Hr).
Qed.

(** *** Updating, then fetching *)

Lemma find_map_same {A : Type} (m : A -> bool) (g : A -> A) (l : list A) :
  (forall x, m (g x) = m x) -> find m (map g l) = option_map g (find m l).
Proof.
  intros H. induction l as [|x l IH]; simpl; [reflexivity|].
  rewrite H. now destruct (m x).
Qed.

Lemma update_first_find (m : Mongoose.Doc -> bool) (f : Mongoose.Doc -> Mongoose.Doc)
  (docs : list Mongoose.Doc) :
  (forall d, m (f d) = m d) ->
  let '(r, docs') := Mongoose.update_first m f docs in
  r = option_map f (find m docs) /\ find m docs' = r.
Proof.
  intros Hm. induction docs as [|d ds IH]; simpl; [now split|].
  destruct (m d) eqn:Hd; simpl.
  - rewrite Hm, Hd. now split.
  - destruct (Mongoose.update_first m f ds) as [r ds']. simpl. now rewrite Hd.
Qed.

Lemma sql_update_then_find (sch : Sql.Schema) (lenient touch : bool) (n e p : Field)
  (t0 : Z) (refused : bool) (v : option Z) (t : Sql.Table) (changes : Z)
  (t' : Sql.Table) :
  Sql.update sch lenient touch n e p t0 refused v t = inr (changes, t') ->
  changes <> 0 ->
  exists sn se sp old,
    keeps (Sql.name_width sch) n sn /\ keeps (Sql.email_width sch) e se
    /\ keeps (Sql.phone_width sch) p sp
    /\ find (Sql.id_is v) (Sql.rows t) = Some old
    /\ find (Sql.id_is v) (Sql.rows t') = Some (Sql.updated sch touch sn se sp t0 old).
Proof.
  intros E Hc.
  apply sql_update_inr in E as [(_ & Hz & _) | (Ex & _ & sn & se & sp & Kn & Ke & Kp & ->)];
    [contradiction|].
  rewrite find_existsb in Ex.
  destruct (find (Sql.id_is v) (Sql.rows t)) as [old|] eqn:F; [|discriminate].
  exists sn, se, sp, old. repeat split; try assumption. cbn [Sql.rows].
  rewrite find_map_same.
  - rewrite F. simpl. apply find_some in F as [_ Hm]. now rewrite Hm.
  - intros r. destruct (Sql.id_is v r) eqn:Hr; [|exact Hr].
    unfold Sql.id_is in *. destruct v; [exact Hr | discriminate].
Qed.

Lemma kept_text_mysql (width : Sql.Schema -> option nat) (f : Field) (s s' : string) :
  keeps (width MysqlRoutes.schema) f s' -> f = Text s -> as_stored Mysql width s = s'.
Proof. intros K ->. now apply keeps_as_stored. Qed.

Lemma kept_text_sqlite (f : Field) (s s' : string) :
  keeps None f s' -> f = Text s -> s' = s.
Proof. intros K ->. now apply keeps_unlimited. Qed.

Lemma change_text (path s : string) (v : option string) :
  Mongoose.change path (Text s) = inr v -> v = Some s.
Proof.
  unfold Mongoose.change, Mongoose.andThen, Mongoose.required.
  destruct (s =? "")%string; [discriminate|]. now intros [= <-].
Qed.

(** X3. For every backend, after an update that was answered 200, fetching
    by the same id answers 200 with a user that carries that id and, for
    each field the update gave as text, that text as the store keeps it:
    exactly the text under [/api/sqlite] and [/api/mongo], and under
    [/api/mysql] the text without the spaces beyond the width of its
    column. *)
Theorem update_then_fetch (env env' : Env) (b : Backend) (id : string) (body : Body)
  (w : World) :
  let '(r1, w1) := app env b (UpdateUser id body) w in
  status r1 = 200 ->
  let '(r2, w2) := app env' b (GetUser id) w1 in
  status r2 = 200 /\ w2 = w1
  /\ exists user,
       data r2 = Some user
       /\ answers_to b id user
       /\ (forall s, name body = Text s ->
           get "name" user = Some (JStr (as_stored b Sql.name_width s)))
       /\ (forall s, email body = Text s ->
           get "email" user = Some (JStr (as_stored b Sql.email_width s)))
       /\ (forall s, phone body = Text s ->
           get "phone" user = Some (JStr (as_stored b Sql.phone_width s))).
Proof.
  destruct w as [c docs pool db]. destruct b; unfold app;
    cbn [mongoConnected mongo mysql sqlite].
  - unfold MongoRoutes.router at 1. destruct c; cbn [negb]; [|simpl; discriminate].
    unfold MongoRoutes.put_user, Mongoose.findByIdAndUpdate, Mongoose.cast,
      Mongoose.andThen.
    destruct (cast_ObjectId id) as [o|] eqn:Hcast; [|simpl; discriminate].
    destruct (Mongoose.change "name" (name body)) as [|n] eqn:Hn; [simpl; discriminate|].
    destruct (Mongoose.change "email" (email body)) as [|e] eqn:He; [simpl; discriminate|].
    destruct (Mongoose.change "phone" (phone body)) as [|p] eqn:Hp; [simpl; discriminate|].
    pose proof (update_first_find (Mongoose.has_id o)
                  (Mongoose.set_paths n e p (now env)) docs (fun d => eq_refl)) as H.
    destruct (Mongoose.update_first _ _ docs) as [[user|] docs']; [|simpl; discriminate].
    destruct H as [Hu Hf]. intros _.
    cbn [mongoConnected mongo]. unfold MongoRoutes.router, MongoRoutes.get_user,
      Mongoose.findById, Mongoose.cast, Mongoose.andThen. cbn [negb].
    rewrite Hcast, Hf. split; [reflexivity|]. split; [reflexivity|].
    exists (Mongoose.json_of_doc user). split; [reflexivity|].
    destruct (find (Mongoose.has_id o) docs) as [d|] eqn:F; [|discriminate].
    injection Hu as ->. apply find_some in F as [_ Hm].
    unfold Mongoose.has_id in Hm. apply String.eqb_eq in Hm.
    split; [exists o; split; [exact Hcast|]; simpl; now rewrite Hm|].
    repeat split; intros s Hs; simpl.
    + rewrite Hs in Hn. apply change_text in Hn. now subst n.
    + rewrite Hs in He. apply change_text in He. now subst e.
    + rewrite Hs in Hp. apply change_text in Hp. now subst p.
  - unfold MysqlRoutes.router at 1, MysqlRoutes.put_user.
    destruct pool as [t|]; [|simpl; discriminate].
    destruct (Sql.update _ _ _ _ _ _ _ _ _ t) as [err|[changes t']] eqn:E;
      [simpl; discriminate|].
    destruct (changes =? 0) eqn:Hc; [simpl; discriminate|]. intros _.
    apply Z.eqb_neq in Hc.
    destruct (sql_update_then_find _ _ _ _ _ _ _ _ _ _ _ _ E Hc)
      as (sn & se & sp & old & Hn & He & Hp & Fold & Fnew).
    cbn [mysql MysqlRoutes.router]. rewrite mysql_get_as_find, Fnew.
    split; [reflexivity|]. split; [reflexivity|].
    eexists. split; [reflexivity|].
    apply find_some in Fold as [_ Hm]. unfold Sql.id_is in Hm.
    destruct (mysql_int_of_text id) as [z|] eqn:Hz; [|discriminate].
    apply Z.eqb_eq in Hm.
    split; [exists z; split; [exact Hz|]; simpl; now rewrite Hm|].
    repeat split; intros s Hs; simpl; do 2 f_equal; symmetry.
    + exact (kept_text_mysql Sql.name_width _ _ _ Hn Hs).
    + exact (kept_text_mysql Sql.email_width _ _ _ He Hs).
    + exact (kept_text_mysql Sql.phone_width _ _ _ Hp Hs).
  - unfold SqliteRoutes.router at 1, SqliteRoutes.put_user.
    destruct db as [t|]; [|simpl; discriminate].
    destruct (Sql.update _ _ _ _ _ _ _ _ _ t) as [err|[changes t']] eqn:E;
      [simpl; discriminate|].
    destruct (changes =? 0) eqn:Hc; [simpl; discriminate|]. intros _.
    apply Z.eqb_neq in Hc.
    destruct (sql_update_then_find _ _ _ _ _ _ _ _ _ _ _ _ E Hc)
      as (sn & se & sp & old & Hn & He & Hp & Fold & Fnew).
    cbn [sqlite SqliteRoutes.router].
    unfold SqliteRoutes.get_user, Sql.select_by_id. rewrite Fnew.
    split; [reflexivity|]. split; [reflexivity|].
    eexists. split; [reflexivity|].
    apply find_some in Fold as [_ Hm]. unfold Sql.id_is in Hm.
    destruct (sqlite_int_of_text id) as [z|] eqn:Hz; [|discriminate].
    apply Z.eqb_eq in Hm.
    split; [exists z; split; [exact Hz|]; simpl; now rewrite Hm|].
    repeat split; intros s Hs; simpl; do 2 f_equal;
      eapply kept_text_sqlite; eassumption.
Qed.

(** *** Ids stay unique *)

Lemma NoDup_snoc {A : Type} (l : list A) (x : A) :
  NoDup l -> ~ In x l -> NoDup (l ++ [x]).
Proof.
  intros Hl Hx.
  eapply Permutation_NoDup; [apply Permutation_cons_append|].
  constructor; assumption.
Qed.

(** Dropping rows keeps their keys distinct. *)
Lemma NoDup_map_filter {Row Key : Type} (key : Row -> Key) (keep : Row -> bool)
  (rows : list Row) (Hu : NoDup (map key rows)) :
  NoDup (map key (filter keep rows)).
Proof.
  induction rows as [|r rows IH]; [exact Hu|].
  cbn [map filter] in *. apply NoDup_cons_iff in Hu as [Hfresh Hrest].
  destruct (keep r); [|exact (IH Hrest)].
  cbn [map]. apply NoDup_cons_iff. split; [|exact (IH Hrest)].
  contradict Hfresh. apply in_map_iff in Hfresh as (y & <- & Hy%filter_In).
  apply in_map. exact (proj1 Hy).
Qed.

Lemma row_frame_ids (hit : Sql.Row -> bool) (l l' : list Sql.Row) :
  Forall2 (row_frame hit) l l' -> map Sql.id l' = map Sql.id l.
Proof.
  induction 1 as [|r r' l l' (Hid & _) _ IH]; simpl; [reflexivity|].
  now rewrite Hid, IH.
Qed.

Lemma doc_frame_ids (hit : Mongoose.Doc -> bool) (l l' : list Mongoose.Doc) :
  Forall2 (doc_frame hit) l l' -> map Mongoose._id l' = map Mongoose._id l.
Proof.
  induction 1 as [|r r' l l' (Hid & _) _ IH]; simpl; [reflexivity|].
  now rewrite Hid, IH.
Qed.

Lemma unused_id_not_in (o : string) (docs : list Mongoose.Doc) :
  existsb (Mongoose.has_id o) docs = false -> ~ In o (map Mongoose._id docs).
Proof.
  intros Hex Hin. apply in_map_iff in Hin as (d & Hd & Hdin).
  assert (existsb (Mongoose.has_id o) docs = true); [|congruence].
  apply existsb_exists. exists d. split; [exact Hdin|].
  unfold Mongoose.has_id. rewrite Hd. apply String.eqb_refl.
Qed.

Lemma unused_key_not_in (z : Z) (rows : list Sql.Row) :
  existsb (Sql.id_is (Some z)) rows = false -> ~ In z (map Sql.id rows).
Proof.
  intros Hex Hin. apply in_map_iff in Hin as (r & Hr & Hrin).
  assert (existsb (Sql.id_is (Some z)) rows = true); [|congruence].
  apply existsb_exists. exists r. split; [exact Hrin|].
  simpl. rewrite Hr. apply Z.eqb_refl.
Qed.

Lemma delete_first_ids (m : Mongoose.Doc -> bool) (docs : list Mongoose.Doc) :
  NoDup (map Mongoose._id docs) ->
  NoDup (map Mongoose._id (snd (Mongoose.delete_first m docs))).
Proof.
  induction docs as [|d ds IH]; simpl; intros H; [constructor|].
  inversion H as [|? ? Hd Hds]; subst.
  destruct (m d); simpl; [exact Hds|].
  specialize (IH Hds).
  destruct (Mongoose.delete_first m ds) as [r ds'] eqn:E. simpl in *.
  constructor; [|exact IH].
  intros Hin. apply Hd. clear - Hin E.
  revert r ds' E Hin. induction ds as [|x xs IHx]; simpl; intros r ds' E Hin.
  - injection E as <- <-. exact Hin.
  - destruct (m x).
    + injection E as <- <-. now right.
    + destruct (Mongoose.delete_first m xs) as [r0 xs'] eqn:E0.
      injection E as <- <-. simpl in Hin. destruct Hin as [Hin|Hin]; [now left|].
      right. exact (IHx _ _ eq_refl Hin).
Qed.

Lemma sql_unique_kept (env : Env) (route : Env -> Op -> option Sql.Table ->
                                           Response * option Sql.Table)
  (op : Op) (t : option Sql.Table) :
  route = SqliteRoutes.router \/ route = MysqlRoutes.router ->
  keys_issued t ->
  NoDup (map Sql.id (rows_of t)) ->
  NoDup (map Sql.id (rows_of (snd (route env op t)))).
Proof.
  intros Hroute Hk Hu.
  assert (Hins : forall sch lenient n e p t0 tb i tb',
             keys_issued (Some tb) -> NoDup (map Sql.id (Sql.rows tb)) ->
             Sql.insert sch lenient n e p t0 tb = inr (i, tb') ->
             NoDup (map Sql.id (Sql.rows tb'))).
  { intros sch lenient n e p t0 tb i tb' Hk' Hu' E.
    apply insert_inr in E as (sn & se & sp & _ & _ & _ & -> & ->). simpl.
    rewrite map_app. simpl. apply NoDup_snoc; [exact Hu'|].
    apply unused_key_not_in. now apply new_key_unused. }
  assert (Hupd : forall sch lenient touch n e p t0 refused v tb c tb',
             NoDup (map Sql.id (Sql.rows tb)) ->
             Sql.update sch lenient touch n e p t0 refused v tb = inr (c, tb') ->
             NoDup (map Sql.id (Sql.rows tb'))).
  { intros sch lenient touch n e p t0 refused v tb c tb' Hu' E.
    apply sql_update_frame in E as [_ E]. now rewrite (row_frame_ids _ _ _ E). }
  assert (Hdel : forall refused v tb c tb',
             NoDup (map Sql.id (Sql.rows tb)) ->
             Sql.delete refused v tb = inr (c, tb') ->
             NoDup (map Sql.id (Sql.rows tb'))).
  { intros refused v tb c tb' Hu'. unfold Sql.delete.
    destruct refused; [discriminate|]. intros [= _ <-]. simpl.
    now apply NoDup_map_filter. }
  destruct t as [tb|]; [|destruct Hroute as [-> | ->]; destruct op; exact Hu].
  simpl in Hu.
  destruct Hroute as [-> | ->]; destruct op as [|id|body|id body|id]; simpl.
  - exact Hu.
  - unfold SqliteRoutes.get_user. now destruct (Sql.select_by_id _ tb).
  - unfold SqliteRoutes.post_users.
    destruct (Sql.insert _ _ _ _ _ _ tb) as [err|[i tb']] eqn:E; [exact Hu|].
    exact (Hins _ _ _ _ _ _ _ _ _ Hk Hu E).
  - unfold SqliteRoutes.put_user.
    destruct (Sql.update _ _ _ _ _ _ _ _ _ tb) as [err|[c tb']] eqn:E; [exact Hu|].
    pose proof (Hupd _ _ _ _ _ _ _ _ _ _ _ _ Hu E). now destruct (c =? 0).
  - destruct (_ =? 0); simpl; now apply NoDup_map_filter.
  - exact Hu.
  - destruct (filter _ (Sql.rows tb)); exact Hu.
  - unfold MysqlRoutes.post_users.
    destruct (Sql.insert _ _ _ _ _ _ tb) as [err|[i tb']] eqn:E; [exact Hu|].
    exact (Hins _ _ _ _ _ _ _ _ _ Hk Hu E).
  - unfold MysqlRoutes.put_user.
    destruct (Sql.update _ _ _ _ _ _ _ _ _ tb) as [err|[c tb']] eqn:E; [exact Hu|].
    pose proof (Hupd _ _ _ _ _ _ _ _ _ _ _ _ Hu E). now destruct (c =? 0).
  - unfold MysqlRoutes.delete_user.
    destruct (Sql.delete _ _ tb) as [err|[c tb']] eqn:E; [exact Hu|].
    pose proof (Hdel _ _ _ _ _ Hu E). now destruct (c =? 0).
Qed.

Lemma mongo_unique_kept (env : Env) (c : bool) (op : Op) (docs : list Mongoose.Doc) :
  NoDup (map Mongoose._id docs) ->
  NoDup (map Mongoose._id (snd (MongoRoutes.router env c op docs))).
Proof.
  intros Hu. unfold MongoRoutes.router. destruct c; cbn [negb]; [|exact Hu].
  destruct op as [|id|body|id body|id].
  - exact Hu.
  - unfold MongoRoutes.get_user. now destruct (Mongoose.findById id docs) as [|[|]].
  - unfold MongoRoutes.post_users.
    destruct (Mongoose.save env body docs) as [err|[user docs']] eqn:E; [exact Hu|].
    apply save_inr in E as (n & e & p & _ & _ & _ & Hfresh & -> & ->). simpl.
    rewrite map_app. simpl. apply NoDup_snoc; [exact Hu|].
    now apply unused_id_not_in.
  - unfold MongoRoutes.put_user, Mongoose.findByIdAndUpdate, Mongoose.andThen.
    destruct (Mongoose.cast id) as [|o]; [exact Hu|].
    destruct (Mongoose.change "name" (name body)) as [|n]; [exact Hu|].
    destruct (Mongoose.change "email" (email body)) as [|e]; [exact Hu|].
    destruct (Mongoose.change "phone" (phone body)) as [|p]; [exact Hu|].
    pose proof (update_first_frame (Mongoose.has_id o)
                  (Mongoose.set_paths n e p (now env)) docs
                  (fun d => conj eq_refl (conj eq_refl eq_refl))) as H.
    apply doc_frame_ids in H.
    destruct (Mongoose.update_first _ _ docs) as [[user|] docs']; simpl in *;
      now rewrite H.
  - unfold MongoRoutes.delete_user, Mongoose.findByIdAndDelete, Mongoose.andThen.
    destruct (Mongoose.cast id) as [|o]; [exact Hu|].
    pose proof (delete_first_ids (Mongoose.has_id o) docs Hu) as H.
    now destruct (Mongoose.delete_first _ docs) as [[user|] docs'].
Qed.

Lemma step_sound (w : World) (q : Request) : sound w -> sound (step w q).
Proof.
  destruct q as [[env b] op]. intros [Hwf Hu]. split.
  - apply app_preserves_wf. exact Hwf.
  - destruct w as [c docs pool db]. destruct Hwf as [Kmy Klite].
    destruct Hu as (Umy & Ulite & Umongo). simpl in *.
    unfold step, unique_ids, app. cbn [mongoConnected mongo mysql sqlite].
    destruct b.
    + pose proof (mongo_unique_kept env c op docs Umongo) as H.
      destruct (MongoRoutes.router env c op docs) as [r docs']. simpl in *.
      repeat split; assumption.
    + pose proof (sql_unique_kept env MysqlRoutes.router op pool
                    (or_intror eq_refl) Kmy Umy) as H.
      destruct (MysqlRoutes.router env op pool) as [r pool']. simpl in *.
      repeat split; assumption.
    + pose proof (sql_unique_kept env SqliteRoutes.router op db
                    (or_introl eq_refl) Klite Ulite) as H.
      destruct (SqliteRoutes.router env op db) as [r db']. simpl in *.
      repeat split; assumption.
Qed.

(** X4. No sequence of requests makes two stored users of a backend share an
    id, and none makes a table hold a key above the last one issued: both hold
    after every request when they hold before the first, as they do for empty
    stores. *)
Theorem ids_stay_unique (qs : list Request) (w : World) :
  sound w -> sound (run qs w).
Proof.
  unfold run. revert w. induction qs as [|q qs IH]; simpl; intros w Hw; [exact Hw|].
  apply IH. now apply step_sound.
Qed.

(** *** Deleting, then fetching *)

Lemma existsb_filter_out {A : Type} (m : A -> bool) (l : list A) :
  existsb m (filter (fun x => negb (m x)) l) = false.
Proof.
  induction l as [|x l IH]; simpl; [reflexivity|].
  destruct (m x) eqn:Hx; simpl; [exact IH|]. now rewrite Hx.
Qed.

Lemma filter_split_length {A : Type} (m : A -> bool) (l : list A) :
  (List.length (filter m l) + List.length (filter (fun x => negb (m x)) l)
   = List.length l)%nat.
Proof.
  induction l as [|x l IH]; simpl; [reflexivity|]. destruct (m x); simpl; lia.
Qed.

(** With unique keys a [WHERE id = ?] selects at most one row. *)
Lemma unique_key_one_row (v : option Z) (rows : list Sql.Row) :
  NoDup (map Sql.id rows) -> (List.length (filter (Sql.id_is v) rows) <= 1)%nat.
Proof.
  induction rows as [|r l IH]; simpl; intros H; [lia|].
  inversion H as [|? ? Hr Hl]; subst. specialize (IH Hl).
  destruct (Sql.id_is v r) eqn:Hm; simpl; [|lia].
  destruct (filter (Sql.id_is v) l) as [|r' l'] eqn:F; simpl; [lia|].
  exfalso. apply Hr.
  assert (Hin : In r' (filter (Sql.id_is v) l)) by (rewrite F; now left).
  apply filter_In in Hin as [Hin Hm'].
  unfold Sql.id_is in Hm, Hm'. destruct v as [z|]; [|discriminate].
  apply Z.eqb_eq in Hm, Hm'. apply in_map_iff. exists r'. split; [lia | exact Hin].
Qed.

Lemma delete_first_unique (o : string) (docs : list Mongoose.Doc) :
  NoDup (map Mongoose._id docs) ->
  let '(found, docs') := Mongoose.delete_first (Mongoose.has_id o) docs in
  existsb (Mongoose.has_id o) docs' = false
  /\ (forall d, In d docs' -> In d docs)
  /\ (forall d, In d docs -> In d docs' \/ Mongoose._id d = o).
Proof.
  induction docs as [|d ds IH]; simpl; intros H.
  - repeat split; auto.
  - inversion H as [|? ? Hd Hds]; subst. specialize (IH Hds).
    destruct (Mongoose.has_id o d) eqn:Hm.
    + unfold Mongoose.has_id in Hm. apply String.eqb_eq in Hm. split; [|split].
      * destruct (existsb (Mongoose.has_id o) ds) eqn:Ex; [|reflexivity].
        exfalso. apply Hd. apply existsb_exists in Ex as (x & Hx & Hxo).
        unfold Mongoose.has_id in Hxo. apply String.eqb_eq in Hxo.
        apply in_map_iff. exists x. split; [congruence | exact Hx].
      * intros x Hx. now right.
      * intros x [<- | Hx]; [now right | now left].
    + destruct (Mongoose.delete_first (Mongoose.has_id o) ds) as [found ds'].
      destruct IH as (I1 & I2 & I3). simpl. rewrite Hm. split; [exact I1|]. split.
      * intros x [<- | Hx]; [now left | right; now apply I2].
      * intros x [<- | Hx]; [left; now left|].
        destruct (I3 x Hx) as [Hin | Ho]; [left; now right | now right].
Qed.

(** X5. For every backend with unique ids, after a delete that was answered
    200 the id matches no stored user any more and fetching by it answers 404;
    exactly one user is gone, and every user that is gone carried that id. *)
Theorem delete_then_fetch (env env' : Env) (b : Backend) (id : string) (w : World) :
  unique_ids w ->
  let '(r1, w1) := app env b (DeleteUser id) w in
  status r1 = 200 ->
  matches b id w1 = false
  /\ fst (app env' b (GetUser id) w1) = failure 404 "User not found"
  /\ S (List.length (stored b w1)) = List.length (stored b w)
  /\ (forall user, In user (stored b w1) -> In user (stored b w))
  /\ (forall user, In user (stored b w) -> In user (stored b w1) \/ answers_to b id user).
Proof.
  destruct w as [c docs pool db]. intros (Umy & Ulite & Umongo). simpl in *.
  destruct b; unfold app; cbn [mongoConnected mongo mysql sqlite].
  - unfold MongoRoutes.router at 1. destruct c; cbn [negb]; [|simpl; discriminate].
    unfold MongoRoutes.delete_user, Mongoose.findByIdAndDelete, Mongoose.cast,
      Mongoose.andThen.
    destruct (cast_ObjectId id) as [o|] eqn:Hcast; [|simpl; discriminate].
    pose proof (delete_first_unique o docs Umongo) as H.
    pose proof (delete_first_outcome (Mongoose.has_id o) docs) as Hlen.
    destruct (Mongoose.delete_first _ docs) as [[d|] docs']; [|simpl; discriminate].
    intros _. destruct H as (Hgone & Hsub & Hrest).
    destruct Hlen as [(_ & [=] & _) | (_ & _ & Hlen)].
    unfold matches, stored. cbn [mongo mongoConnected].
    rewrite Hcast. split; [exact Hgone|]. split; [|split; [|split]].
    + unfold MongoRoutes.router, MongoRoutes.get_user, Mongoose.findById,
        Mongoose.cast, Mongoose.andThen. cbn [negb]. rewrite Hcast.
      rewrite find_existsb in Hgone.
      now destruct (find (Mongoose.has_id o) docs').
    + rewrite !length_map. now rewrite Hlen.
    + intros user Hin. apply in_map_iff in Hin as (x & <- & Hx).
      apply in_map. now apply Hsub.
    + intros user Hin. apply in_map_iff in Hin as (x & <- & Hx).
      destruct (Hrest x Hx) as [Hx' | Ho]; [left; now apply in_map|].
      right. exists o. split; [exact Hcast|]. simpl. now rewrite Ho.
  - unfold MysqlRoutes.router at 1, MysqlRoutes.delete_user.
    destruct pool as [t|]; [|simpl; discriminate]. simpl in Umy.
    unfold Sql.delete. destruct (mysql_refuses_id id); [simpl; discriminate|].
    destruct (Z.of_nat _ =? 0) eqn:Hc; [simpl; discriminate|]. intros _.
    apply Z.eqb_neq in Hc.
    pose proof (unique_key_one_row (mysql_int_of_text id) (Sql.rows t) Umy) as H1.
    pose proof (filter_split_length (Sql.id_is (mysql_int_of_text id)) (Sql.rows t)) as H2.
    unfold matches, stored. cbn [mysql rows_of Sql.rows].
    split; [apply existsb_filter_out|]. split; [|split; [|split]].
    + cbn [MysqlRoutes.router]. rewrite mysql_get_as_find. cbn [Sql.rows].
      pose proof (existsb_filter_out (Sql.id_is (mysql_int_of_text id)) (Sql.rows t)) as G.
      rewrite find_existsb in G. now destruct (find _ (filter _ (Sql.rows t))).
    + rewrite !length_map. lia.
    + intros user Hin. apply in_map_iff in Hin as (x & <- & Hx).
      apply in_map. now apply filter_In in Hx.
    + intros user Hin. apply in_map_iff in Hin as (x & <- & Hx).
      destruct (Sql.id_is (mysql_int_of_text id) x) eqn:Hm.
      * right. unfold Sql.id_is in Hm.
        destruct (mysql_int_of_text id) as [z|] eqn:Hz; [|discriminate].
        apply Z.eqb_eq in Hm. exists z. split; [exact Hz|]. simpl. now rewrite Hm.
      * left. apply in_map. apply filter_In. split; [exact Hx|]. now rewrite Hm.
  - unfold SqliteRoutes.router at 1, SqliteRoutes.delete_user.
    destruct db as [t|]; [|simpl; discriminate]. simpl in Ulite.
    unfold Sql.delete. cbv iota.
    destruct (Z.of_nat _ =? 0) eqn:Hc; [simpl; discriminate|]. intros _.
    apply Z.eqb_neq in Hc.
    pose proof (unique_key_one_row (sqlite_int_of_text id) (Sql.rows t) Ulite) as H1.
    pose proof (filter_split_length (Sql.id_is (sqlite_int_of_text id)) (Sql.rows t)) as H2.
    unfold matches, stored. cbn [sqlite rows_of Sql.rows].
    split; [apply existsb_filter_out|]. split; [|split; [|split]].
    + cbn [SqliteRoutes.router]. unfold SqliteRoutes.get_user, Sql.select_by_id.
      cbn [Sql.rows].
      pose proof (existsb_filter_out (Sql.id_is (sqlite_int_of_text id)) (Sql.rows t)) as G.
      rewrite find_existsb in G. now destruct (find _ (filter _ (Sql.rows t))).
    + rewrite !length_map. lia.
    + intros user Hin. apply in_map_iff in Hin as (x & <- & Hx).
      apply in_map. now apply filter_In in Hx.
    + intros user Hin. apply in_map_iff in Hin as (x & <- & Hx).
      destruct (Sql.id_is (sqlite_int_of_text id) x) eqn:Hm.
      * right. unfold Sql.id_is in Hm.
        destruct (sqlite_int_of_text id) as [z|] eqn:Hz; [|discriminate].
        apply Z.eqb_eq in Hm. exists z. split; [exact Hz|]. simpl. now rewrite Hm.
      * left. apply in_map. apply filter_In. split; [exact Hx|]. now rewrite Hm.
Qed.

(** *** Creating, then listing *)

Lemma insert_desc_after {A : Type} (key : A -> Z) (x y : A) (l : list A) :
  key y < key x ->
  insert_desc key y (x :: l) = x :: insert_desc key y l.
Proof.
  intros H. simpl. destruct (key x <=? key y) eqn:E; [|reflexivity].
  apply Z.leb_le in E. lia.
Qed.

(** A row that is newer than all the others is listed first, before the
    list of the others. *)
Lemma order_by_desc_newest {A : Type} (key : A -> Z) (l : list A) (x : A) :
  Forall (fun y => key y < key x) l ->
  order_by_desc key (l ++ [x]) = x :: order_by_desc key l.
Proof.
  induction 1 as [|y l Hy _ IH]; [reflexivity|].
  change (order_by_desc key ((y :: l) ++ [x]))
    with (insert_desc key y (order_by_desc key (l ++ [x]))).
  rewrite IH. now apply insert_desc_after.
Qed.

(** X6. For every backend, when a create is answered 201 at a clock reading
    later than the creation time of every stored user, the next listing
    starts with the new user, with the name, email and phone supplied as
    the store keeps them and that creation time, and goes on with the users
    that were listed before the create, each once. *)
Theorem created_user_heads_the_list (env env' : Env) (b : Backend) (n e p : string)
  (w : World) :
  Forall (fun t => t < now env) (creation_times b w) ->
  let '(r1, w1) := app env b (CreateUser (texts n e p)) w in
  status r1 = 201 ->
  exists first rest before,
    data (fst (app env' b ListUsers w)) = Some (JArr before)
    /\ data (fst (app env' b ListUsers w1)) = Some (JArr (first :: rest))
    /\ Permutation rest before
    /\ get "name" first = Some (JStr (as_stored b Sql.name_width n))
    /\ get "email" first = Some (JStr (as_stored b Sql.email_width e))
    /\ get "phone" first = Some (JStr (as_stored b Sql.phone_width p))
    /\ created b first = Some (now env).
Proof.
  destruct w as [c docs pool db]. destruct b; unfold app, creation_times;
    cbn [mongoConnected mongo mysql sqlite]; intros Hnew.
  - unfold MongoRoutes.router at 1. destruct c; cbn [negb]; [|simpl; discriminate].
    unfold MongoRoutes.post_users.
    destruct (Mongoose.save env (texts n e p) docs) as [err|[user docs']] eqn:E;
      [simpl; discriminate|].
    intros _. apply save_inr in E as (n' & e' & p' & Hn & He & Hp & _ & -> & ->).
    apply required_text in Hn, He, Hp. subst n' e' p'.
    apply Forall_map in Hnew.
    eexists. eexists. eexists.
    cbn [mongoConnected mongo]. unfold MongoRoutes.router. cbn [negb].
    unfold MongoRoutes.get_users, Mongoose.find_sorted. cbn [fst].
    rewrite (order_by_desc_newest Mongoose.createdAt docs
               (Mongoose.mkDoc (fresh_oid env) n e p (now env) (now env) 0) Hnew).
    split; [reflexivity|]. split; [reflexivity|]. split; [apply Permutation_refl|].
    repeat split.
  - unfold MysqlRoutes.router at 1, MysqlRoutes.post_users.
    destruct pool as [t|]; [|simpl; discriminate].
    destruct (Sql.insert _ _ _ _ _ _ t) as [err|[i t']] eqn:E; [simpl; discriminate|].
    intros _.
    apply insert_inr in E as (sn & se & sp & Kn & Ke & Kp & -> & ->).
    apply keeps_as_stored in Kn, Ke, Kp. subst sn se sp.
    simpl in Hnew. apply Forall_map in Hnew.
    eexists. eexists. eexists. cbn [mysql MysqlRoutes.router].
    unfold MysqlRoutes.get_users, Sql.select_all. cbn [fst Sql.rows].
    rewrite (order_by_desc_newest Sql.created_at (Sql.rows t)
               (Sql.mkRow (Sql.seq t + 1) (as_stored Mysql Sql.name_width n)
                          (as_stored Mysql Sql.email_width e)
                          (as_stored Mysql Sql.phone_width p) (now env) (now env)) Hnew).
    split; [reflexivity|]. split; [reflexivity|]. split; [apply Permutation_refl|].
    repeat split.
  - unfold SqliteRoutes.router at 1, SqliteRoutes.post_users.
    destruct db as [t|]; [|simpl; discriminate].
    destruct (Sql.insert _ _ _ _ _ _ t) as [err|[i t']] eqn:E; [simpl; discriminate|].
    intros _.
    apply insert_inr in E as (sn & se & sp & Kn & Ke & Kp & -> & ->).
    apply keeps_unlimited in Kn, Ke, Kp. subst sn se sp.
    simpl in Hnew. apply Forall_map in Hnew.
    eexists. eexists. eexists. cbn [sqlite SqliteRoutes.router].
    unfold SqliteRoutes.get_users, Sql.select_all. cbn [fst Sql.rows].
    rewrite (order_by_desc_newest Sql.created_at (Sql.rows t)
               (Sql.mkRow (Sql.seq t + 1) n e p (now env) (now env)) Hnew).
    split; [reflexivity|]. split; [reflexivity|]. split; [apply Permutation_refl|].
    repeat split.
Qed.

(** *** When an update is answered 200 *)

Lemma store_fits (width : option nat) (column s : string) :
  fits width s = true -> Sql.store width column (Some s) = inr s.
Proof. intros H. unfold Sql.store. now rewrite (kept_fits _ _ H). Qed.

Lemma sql_update_texts (sch : Sql.Schema) (lenient touch : bool) (n e p : string)
  (t0 : Z) (v : option Z) (t : Sql.Table) :
  fits (Sql.name_width sch) n && fits (Sql.email_width sch) e
  && fits (Sql.phone_width sch) p = true ->
  exists changes t',
    Sql.update sch lenient touch (Text n) (Text e) (Text p) t0 false v t
    = inr (changes, t')
    /\ (changes =? 0) = negb (existsb (Sql.id_is v) (Sql.rows t)).
Proof.
  intros H. apply andb_true_iff in H as [H Hp]. apply andb_true_iff in H as [Hn He].
  unfold Sql.update, Sql.andThen. cbn [Sql.bind].
  destruct (existsb (Sql.id_is v) (Sql.rows t)) eqn:Ex.
  - rewrite (store_fits _ _ _ Hn), (store_fits _ _ _ He), (store_fits _ _ _ Hp).
    eexists. eexists. split; [reflexivity|].
    destruct (filter_matched _ _ Ex) as [Hpos _]. apply Z.eqb_neq. lia.
  - eexists. eexists. split; reflexivity.
Qed.

Lemma update_first_some (m : Mongoose.Doc -> bool) (f : Mongoose.Doc -> Mongoose.Doc)
  (docs : list Mongoose.Doc) :
  match fst (Mongoose.update_first m f docs) with
  | Some _ => existsb m docs = true
  | None => existsb m docs = false
  end.
Proof.
  induction docs as [|d ds IH]; simpl; [reflexivity|].
  destruct (m d); simpl; [reflexivity|].
  now destruct (Mongoose.update_first m f ds) as [[u|] ds'].
Qed.

(** X7. For every backend whose store is in use, an update with three texts
    the store takes and an id an update can be addressed to (one Mongoose
    can cast, one MySQL does not refuse) is answered 200 exactly when the id
    matches a stored user, and 404 with [success: false] otherwise. *)
Theorem update_answers_by_match (env : Env) (b : Backend) (id : string) (n e p : string)
  (w : World) :
  ready b w = true ->
  storable b n e p = true ->
  addressable b id = true ->
  let r := fst (app env b (UpdateUser id (texts n e p)) w) in
  (matches b id w = true -> status r = 200 /\ success r = Some (JBool true))
  /\ (matches b id w = false -> r = failure 404 "User not found").
Proof.
  destruct w as [c docs pool db]. destruct b; unfold app, storable, addressable, matches;
    cbn [mongoConnected mongo mysql sqlite ready]; intros Hr Hs Hc.
  - subst c. unfold MongoRoutes.router. cbn [negb].
    unfold MongoRoutes.put_user, Mongoose.findByIdAndUpdate, Mongoose.cast,
      Mongoose.andThen.
    destruct (cast_ObjectId id) as [o|]; [|discriminate].
    unfold valid in Hs. apply andb_true_iff in Hs as [Hs Hp].
    apply andb_true_iff in Hs as [Hn He].
    unfold Mongoose.change, Mongoose.andThen. cbn [texts name email phone].
    rewrite !required_nonempty by assumption.
    pose proof (update_first_some (Mongoose.has_id o)
                  (Mongoose.set_paths (Some n) (Some e) (Some p) (now env)) docs) as H.
    destruct (Mongoose.update_first _ _ docs) as [[user|] docs']; simpl in *; rewrite H.
    + split; [now split | discriminate].
    + split; [discriminate | reflexivity].
  - destruct pool as [t|]; [|discriminate]. cbn [rows_of].
    unfold MysqlRoutes.router, MysqlRoutes.put_user. cbn [texts name email phone].
    apply negb_true_iff in Hc. rewrite Hc.
    destruct (sql_update_texts MysqlRoutes.schema false false n e p (now env)
                (mysql_int_of_text id) t Hs) as (changes & t' & -> & Hz).
    rewrite Hz. destruct (existsb _ (Sql.rows t)); simpl.
    + split; [now split | discriminate].
    + split; [discriminate | reflexivity].
  - destruct db as [t|]; [|discriminate]. cbn [rows_of].
    unfold SqliteRoutes.router, SqliteRoutes.put_user. cbn [texts name email phone].
    destruct (sql_update_texts SqliteRoutes.schema sqlite_undefined_is_null true n e p
                (now env) (sqlite_int_of_text id) t eq_refl) as (changes & t' & -> & Hz).
    rewrite Hz. destruct (existsb _ (Sql.rows t)); simpl.
    + split; [now split | discriminate].
    + split; [discriminate | reflexivity].
Qed.

(** *** Keys are not handed out twice *)

Lemma sql_seq_grows (env : Env) (route : Env -> Op -> option Sql.Table ->
                                         Response * option Sql.Table)
  (op : Op) (t : option Sql.Table) :
  route = SqliteRoutes.router \/ route = MysqlRoutes.router ->
  seq_of t <= seq_of (snd (route env op t)).
Proof.
  intros Hroute.
  assert (Hins : forall sch lenient n e p t0 tb i tb',
             Sql.insert sch lenient n e p t0 tb = inr (i, tb') ->
             Sql.seq tb <= Sql.seq tb').
  { intros sch lenient n e p t0 tb i tb' E.
    apply insert_inr in E as (sn & se & sp & _ & _ & _ & -> & ->). simpl. lia. }
  assert (Hupd : forall sch lenient touch n e p t0 refused v tb c tb',
             Sql.update sch lenient touch n e p t0 refused v tb = inr (c, tb') ->
             Sql.seq tb <= Sql.seq tb').
  { intros sch lenient touch n e p t0 refused v tb c tb' E.
    apply sql_update_frame in E as [-> _]. lia. }
  destruct t as [tb|]; [|destruct Hroute as [-> | ->]; destruct op; simpl; lia].
  destruct Hroute as [-> | ->]; destruct op as [|id|body|id body|id]; simpl.
  - lia.
  - unfold SqliteRoutes.get_user. destruct (Sql.select_by_id _ tb); simpl; lia.
  - unfold SqliteRoutes.post_users.
    destruct (Sql.insert _ _ _ _ _ _ tb) as [err|[i tb']] eqn:E; [simpl; lia|].
    exact (Hins _ _ _ _ _ _ _ _ _ E).
  - unfold SqliteRoutes.put_user.
    destruct (Sql.update _ _ _ _ _ _ _ _ _ tb) as [err|[c tb']] eqn:E; [simpl; lia|].
    pose proof (Hupd _ _ _ _ _ _ _ _ _ _ _ _ E). now destruct (c =? 0).
  - destruct (_ =? 0); simpl; lia.
  - lia.
  - destruct (filter _ (Sql.rows tb)); simpl; lia.
  - unfold MysqlRoutes.post_users.
    destruct (Sql.insert _ _ _ _ _ _ tb) as [err|[i tb']] eqn:E; [simpl; lia|].
    exact (Hins _ _ _ _ _ _ _ _ _ E).
  - unfold MysqlRoutes.put_user.
    destruct (Sql.update _ _ _ _ _ _ _ _ _ tb) as [err|[c tb']] eqn:E; [simpl; lia|].
    pose proof (Hupd _ _ _ _ _ _ _ _ _ _ _ _ E). now destruct (c =? 0).
  - unfold MysqlRoutes.delete_user, Sql.delete.
    destruct (mysql_refuses_id id); [simpl; lia|].
    destruct (_ =? 0); simpl; lia.
Qed.

Lemma step_last_key (b : Backend) (w : World) (q : Request) :
  last_key b w <= last_key b (step w q).
Proof.
  destruct q as [[env b'] op]. destruct w as [c docs pool db].
  unfold step, app. cbn [mongoConnected mongo mysql sqlite].
  destruct b'.
  - destruct (MongoRoutes.router env c op docs) as [r docs']. destruct b; simpl; lia.
  - pose proof (sql_seq_grows env MysqlRoutes.router op pool (or_intror eq_refl)) as H.
    destruct (MysqlRoutes.router env op pool) as [r pool'].
    destruct b; simpl in *; lia.
  - pose proof (sql_seq_grows env SqliteRoutes.router op db (or_introl eq_refl)) as H.
    destruct (SqliteRoutes.router env op db) as [r db'].
    destruct b; simpl in *; lia.
Qed.

Lemma run_last_key (b : Backend) (qs : list Request) (w : World) :
  last_key b w <= last_key b (run qs w).
Proof.
  unfold run. revert w. induction qs as [|q qs IH]; simpl; intros w; [lia|].
  pose proof (step_last_key b w q). pose proof (IH (step w q)). lia.
Qed.

Lemma in_use_issued (b : Backend) (w : World) (i : Z) :
  wf w -> In i (ids_in_use b w) -> i <= last_key b w.
Proof.
  intros [Kmy Klite] Hin.
  assert (H : forall t, keys_issued t -> In i (map Sql.id (rows_of t)) -> i <= seq_of t).
  { intros [t|] Hk Hi; [|contradiction]. simpl in *.
    apply in_map_iff in Hi as (r & <- & Hr).
    rewrite Forall_forall in Hk. now apply Hk. }
  destruct b; simpl in *; [contradiction | now apply H | now apply H].
Qed.

Lemma create_takes_next_key (env : Env) (b : Backend) (body : Body) (w : World) :
  let '(r, w') := app env b (CreateUser body) w in
  status r = 201 -> b <> Mongo ->
  exists user,
    data r = Some user
    /\ get "id" user = Some (JNum (last_key b w + 1))
    /\ In (last_key b w + 1) (ids_in_use b w').
Proof.
  destruct w as [c docs pool db]. unfold app. cbn [mongoConnected mongo mysql sqlite].
  destruct b.
  - destruct (MongoRoutes.router env c (CreateUser body) docs). intros _ Hb. now elim Hb.
  - simpl. unfold MysqlRoutes.post_users.
    destruct pool as [t|]; [|simpl; discriminate].
    destruct (Sql.insert _ _ _ _ _ _ t) as [err|[i t']] eqn:E; [simpl; discriminate|].
    apply insert_inr in E as (sn & se & sp & _ & _ & _ & -> & ->).
    intros _ _. eexists. split; [reflexivity|]. split; [reflexivity|].
    simpl. rewrite map_app. apply in_or_app. right. now left.
  - simpl. unfold SqliteRoutes.post_users.
    destruct db as [t|]; [|simpl; discriminate].
    destruct (Sql.insert _ _ _ _ _ _ t) as [err|[i t']] eqn:E; [simpl; discriminate|].
    apply insert_inr in E as (sn & se & sp & _ & _ & _ & -> & ->).
    intros _ _. eexists. split; [reflexivity|]. split; [reflexivity|].
    simpl. rewrite map_app. apply in_or_app. right. now left.
Qed.

(** X8. Under the two SQL prefixes an id is never given out twice: a user
    created after any sequence of requests, deletes among them, gets an id
    above every id that was in use before the sequence, and that id is then
    in use. *)
Theorem sql_ids_never_reused (env : Env) (b : Backend) (body : Body)
  (qs : list Request) (w : World) (old : Z) :
  wf w ->
  In old (ids_in_use b w) ->
  let '(r, w') := app env b (CreateUser body) (run qs w) in
  status r = 201 ->
  exists i user,
    data r = Some user /\ get "id" user = Some (JNum i)
    /\ old < i /\ In i (ids_in_use b w').
Proof.
  intros Hwf Hold.
  pose proof (in_use_issued b w old Hwf Hold) as H1.
  pose proof (run_last_key b qs w) as H2.
  pose proof (create_takes_next_key env b body (run qs w)) as H3.
  destruct (app env b (CreateUser body) (run qs w)) as [r w'].
  intros Hs.
  assert (Hb : b <> Mongo) by (intros ->; contradiction).
  destruct (H3 Hs Hb) as (user & Hd & Hg & Hi).
  exists (last_key b (run qs w) + 1), user.
  repeat split; try assumption. lia.
Qed.

(** *** Updating, then listing *)

Lemma insert_desc_frame {A : Type} (key : A -> Z) (R : A -> A -> Prop) :
  (forall x y, R x y -> key y = key x) ->
  forall x x' l l',
    R x x' -> Forall2 R l l' ->
    Forall2 R (insert_desc key x l) (insert_desc key x' l').
Proof.
  intros Hkey x x' l l' Hx Hl.
  induction Hl as [|y y' l l' Hy Hl IH]; simpl; [now repeat constructor|].
  rewrite (Hkey _ _ Hx), (Hkey _ _ Hy).
  destruct (key y <=? key x); constructor; try assumption.
  now constructor.
Qed.

Lemma order_by_desc_frame {A : Type} (key : A -> Z) (R : A -> A -> Prop) :
  (forall x y, R x y -> key y = key x) ->
  forall l l', Forall2 R l l' -> Forall2 R (order_by_desc key l) (order_by_desc key l').
Proof.
  intros Hkey l l' Hl. induction Hl as [|x x' l l' Hx Hl IH]; simpl; [constructor|].
  now apply insert_desc_frame.
Qed.

Lemma Forall2_map_both {A B : Type} (R : A -> A -> Prop) (S : B -> B -> Prop)
  (f : A -> B) (l l' : list A) :
  (forall x y, R x y -> S (f x) (f y)) ->
  Forall2 R l l' -> Forall2 S (map f l) (map f l').
Proof.
  intros Hf Hl. induction Hl; simpl; constructor; auto.
Qed.

Lemma row_same_user (b : Backend) (id : string) (v : option Z) (r r' : Sql.Row) :
  (b = Mysql /\ v = mysql_int_of_text id) \/ (b = Sqlite /\ v = sqlite_int_of_text id) ->
  row_frame (Sql.id_is v) r r' ->
  same_user b id (Sql.json_of_row r) (Sql.json_of_row r').
Proof.
  intros Hb (Hid & Hc & Hsame).
  assert (Hhit : Sql.id_is v r = true -> answers_to b id (Sql.json_of_row r)).
  { unfold Sql.id_is. destruct v as [z|] eqn:Hv; [|discriminate].
    intros E. apply Z.eqb_eq in E. subst z.
    destruct Hb as [[-> Hz] | [-> Hz]]; exists (Sql.id r); split;
      solve [now symmetry | reflexivity]. }
  assert (Hshape : id_of b (Sql.json_of_row r') = id_of b (Sql.json_of_row r)
                   /\ created b (Sql.json_of_row r') = created b (Sql.json_of_row r)).
  { destruct Hb as [[-> _] | [-> _]]; unfold id_of, created; simpl;
      now rewrite Hid, Hc. }
  destruct Hshape as [H1 H2]. split; [exact H1|]. split; [exact H2|].
  intros Hn. destruct (Sql.id_is v r) eqn:E; [now elim Hn; apply Hhit|].
  now rewrite (Hsame eq_refl).
Qed.

Lemma doc_same_user (id o : string) (d d' : Mongoose.Doc) :
  cast_ObjectId id = Some o ->
  doc_frame (Mongoose.has_id o) d d' ->
  same_user Mongo id (Mongoose.json_of_doc d) (Mongoose.json_of_doc d').
Proof.
  intros Hcast (Hid & Hc & _ & Hsame).
  split; [unfold id_of; simpl; now rewrite Hid|].
  split; [unfold created; simpl; now rewrite Hc|].
  intros Hn. destruct (Mongoose.has_id o d) eqn:E; [|now rewrite (Hsame eq_refl)].
  elim Hn. exists o. split; [exact Hcast|].
  unfold Mongoose.has_id in E. apply String.eqb_eq in E. simpl. now rewrite E.
Qed.

(** X9. For every backend, an update that was answered 200 moves no user in
    the listing: [GET /users] afterwards has as many users as before and, at
    each position, a user with the id and the creation time of the one that
    stood there before, identical to it unless it carries the id of the
    update. *)
Theorem update_keeps_the_listing_order (env env' : Env) (b : Backend) (id : string)
  (body : Body) (w : World) :
  let '(r1, w1) := app env b (UpdateUser id body) w in
  status r1 = 200 ->
  exists before after,
    data (fst (app env' b ListUsers w)) = Some (JArr before)
    /\ data (fst (app env' b ListUsers w1)) = Some (JArr after)
    /\ Forall2 (same_user b id) before after.
Proof.
  destruct w as [c docs pool db]. destruct b; unfold app;
    cbn [mongoConnected mongo mysql sqlite].
  - unfold MongoRoutes.router at 1. destruct c; cbn [negb]; [|simpl; discriminate].
    unfold MongoRoutes.put_user, Mongoose.findByIdAndUpdate, Mongoose.cast,
      Mongoose.andThen.
    destruct (cast_ObjectId id) as [o|] eqn:Hcast; [|simpl; discriminate].
    destruct (Mongoose.change "name" (name body)) as [|n]; [simpl; discriminate|].
    destruct (Mongoose.change "email" (email body)) as [|e]; [simpl; discriminate|].
    destruct (Mongoose.change "phone" (phone body)) as [|p]; [simpl; discriminate|].
    pose proof (update_first_frame (Mongoose.has_id o)
                  (Mongoose.set_paths n e p (now env)) docs) as H.
    destruct (Mongoose.update_first _ _ docs) as [[user|] docs']; simpl;
      [|discriminate].
    intros _. eexists. eexists. split; [reflexivity|]. split; [reflexivity|].
    apply (Forall2_map_both (doc_frame (Mongoose.has_id o)));
      [intros x y; now apply doc_same_user|].
    apply order_by_desc_frame; [now intros x y (_ & Hc & _)|].
    apply H. intros d. repeat split.
  - unfold MysqlRoutes.router at 1, MysqlRoutes.put_user.
    destruct pool as [t|]; [|simpl; discriminate].
    destruct (Sql.update _ _ _ _ _ _ _ _ _ t) as [err|[changes t']] eqn:E;
      [simpl; discriminate|].
    apply sql_update_frame in E as [_ E].
    destruct (changes =? 0); simpl; [discriminate|].
    intros _. eexists. eexists. split; [reflexivity|]. split; [reflexivity|].
    apply (Forall2_map_both (row_frame (Sql.id_is (mysql_int_of_text id))));
      [intros x y; apply row_same_user; left; now split|].
    apply order_by_desc_frame; [now intros x y (_ & Hc & _)|]. exact E.
  - unfold SqliteRoutes.router at 1, SqliteRoutes.put_user.
    destruct db as [t|]; [|simpl; discriminate].
    destruct (Sql.update _ _ _ _ _ _ _ _ _ t) as [err|[changes t']] eqn:E;
      [simpl; discriminate|].
    apply sql_update_frame in E as [_ E].
    destruct (changes =? 0); simpl; [discriminate|].
    intros _. eexists. eexists. split; [reflexivity|]. split; [reflexivity|].
    apply (Forall2_map_both (row_frame (Sql.id_is (sqlite_int_of_text id))));
      [intros x y; apply row_same_user; right; now split|].
    apply order_by_desc_frame; [now intros x y (_ & Hc & _)|]. exact E.
Qed.

End CrudMore.

(** * Further properties of the Mini Online Store *)

Section MiniMore.
Import Js Http MiniStore MiniView.

(** *** [parseInt] reads back the decimal form of a number *)

Ltac read_digit :=
  match goal with
  | |- context [digit_value ?c] =>
      let v := eval vm_compute in (digit_value c) in
      change (digit_value c) with v; cbn -[Z.mul Z.add digits]
  end.

Lemma digits_numeral (d : Decimal.uint) (rest : string) (acc : Z) :
  digits 10 (NilEmpty.string_of_uint d ++ rest) (Some acc)
  = digits 10 rest (Some (uint_value d acc)).
Proof.
  revert acc. induction d; intros acc; cbn -[Z.mul Z.add]; try reflexivity;
    read_digit; rewrite IHd, ?Z.add_0_r; reflexivity.
Qed.

Lemma digits_numeral_first (d : Decimal.uint) (rest : string) :
  d <> Decimal.Nil ->
  digits 10 (NilEmpty.string_of_uint d ++ rest) None
  = digits 10 rest (Some (uint_value d 0)).
Proof.
  destruct d; intros Hd; [contradiction| ..];
    cbn [NilEmpty.string_of_uint append];
    rewrite <- digits_numeral; reflexivity.
Qed.

Lemma digits_stop (rest : string) (acc : option Z) :
  no_digit_ahead rest = true -> digits 10 rest acc = acc.
Proof.
  destruct rest as [|c rest]; simpl; [reflexivity|].
  destruct (digit_value c) as [d|]; [|reflexivity].
  destruct (d <? 10); [discriminate | reflexivity].
Qed.

Lemma uint_value_pos (d : Decimal.uint) (a : positive) :
  uint_value d (Z.pos a) = Z.pos (Pos.of_uint_acc d a).
Proof.
  revert a. induction d; intros a; cbn -[Z.mul Z.add Pos.mul Pos.add];
    try reflexivity; rewrite <- IHd; f_equal; lia.
Qed.

Lemma uint_value_of_uint (d : Decimal.uint) :
  uint_value d 0 = Z.of_N (Pos.of_uint d).
Proof.
  induction d; cbn -[Z.mul Z.add]; try reflexivity; try exact IHd;
    (change (10 * 0 + 1) with 1 || change (10 * 0 + 2) with 2
     || change (10 * 0 + 3) with 3 || change (10 * 0 + 4) with 4
     || change (10 * 0 + 5) with 5 || change (10 * 0 + 6) with 6
     || change (10 * 0 + 7) with 7 || change (10 * 0 + 8) with 8
     || change (10 * 0 + 9) with 9);
    apply uint_value_pos.
Qed.

Lemma numeral_of_positive (p : positive) :
  uint_value (Pos.to_uint p) 0 = Z.pos p.
Proof.
  rewrite uint_value_of_uint, DecimalPos.Unsigned.of_to. reflexivity.
Qed.

(** A numeral starts with a digit: neither white space nor a sign. *)
Lemma numeral_unsigned (d : Decimal.uint) (rest : string) :
  d <> Decimal.Nil ->
  strip_sign (skip_spaces (NilEmpty.string_of_uint d ++ rest))
  = (1, (NilEmpty.string_of_uint d ++ rest)%string).
Proof. destruct d; intros Hd; [contradiction| ..]; reflexivity. Qed.

Lemma string_of_positive (p : positive) :
  string_of_Z (Z.pos p) = NilEmpty.string_of_uint (Pos.to_uint p).
Proof.
  unfold string_of_Z. simpl. unfold NilZero.string_of_uint.
  pose proof (DecimalPos.Unsigned.to_uint_nonnil p).
  now destruct (Pos.to_uint p).
Qed.

Lemma string_of_negative (p : positive) :
  string_of_Z (Z.neg p) = String "-" (NilEmpty.string_of_uint (Pos.to_uint p)).
Proof.
  unfold string_of_Z. simpl. unfold NilZero.string_of_uint.
  pose proof (DecimalPos.Unsigned.to_uint_nonnil p).
  now destruct (Pos.to_uint p).
Qed.

(** [parseInt(String(z) + rest, 10)] is [z] when [rest] starts with no
    digit. *)
Lemma parseInt_decimal (z : Z) (rest : string) :
  no_digit_ahead rest = true ->
  parseInt (string_of_Z z ++ rest) 10 = Some z.
Proof.
  intros Hrest. destruct z as [|p|p].
  - unfold parseInt. cbn -[digits].
    change (is_space "0") with false. cbn -[Z.mul Z.add digit_value].
    read_digit. now rewrite (digits_stop _ _ Hrest).
  - rewrite string_of_positive. unfold parseInt.
    pose proof (DecimalPos.Unsigned.to_uint_nonnil p) as Hnil.
    rewrite (numeral_unsigned _ _ Hnil). cbn -[digits append].
    rewrite (digits_numeral_first _ rest Hnil), (digits_stop _ _ Hrest).
    rewrite numeral_of_positive. reflexivity.
  - rewrite string_of_negative. unfold parseInt.
    pose proof (DecimalPos.Unsigned.to_uint_nonnil p) as Hnil.
    change (skip_spaces (String "-" (NilEmpty.string_of_uint (Pos.to_uint p)) ++ rest))
      with (String "-" (NilEmpty.string_of_uint (Pos.to_uint p) ++ rest)%string).
    cbn -[digits append].
    rewrite (digits_numeral_first _ rest Hnil), (digits_stop _ _ Hrest).
    rewrite numeral_of_positive. reflexivity.
Qed.

Lemma append_empty (s : string) : (s ++ "")%string = s.
Proof. induction s as [|c s IH]; simpl; [reflexivity | now rewrite IH]. Qed.

(** X10. In the Mini Online Store, what follows the number in the [:id]
    segment is ignored when it starts with no digit: [GET /users/2abc] is
    answered exactly as [GET /users/2], whatever the array holds; and for a
    number that is a safe integer (of magnitude up to [2 ^ 53]) the user
    looked up is the first one with that number as its id. *)
Theorem getUserById_ignores_trailing_text (z : Z) (rest : string) (us : list User) :
  no_digit_ahead rest = true ->
  getUserById (string_of_Z z ++ rest) us = getUserById (string_of_Z z) us
  /\ (Z.abs z <= 2 ^ 53 ->
      safe_integer (parseInt (string_of_Z z ++ rest) 10) = true
      /\ find (id_equals (parseInt (string_of_Z z ++ rest) 10)) us
         = find (fun u => id u =? z) us).
Proof.
  intros Hrest.
  pose proof (parseInt_decimal z rest Hrest) as H1.
  pose proof (parseInt_decimal z "" eq_refl) as H2. rewrite append_empty in H2.
  unfold getUserById. rewrite H1, H2. split; [reflexivity|].
  intros Hz. split; [|reflexivity].
  unfold safe_integer. now apply Z.leb_le.
Qed.

(** *** Ids of the array *)

Lemma createUser_sequential (b : Body) (us : list User) :
  sequential us -> sequential (snd (createUser b us)).
Proof.
  unfold sequential, createUser. intros H.
  destruct (negb (truthy (body_name b)) || negb (truthy (body_email b)));
    [exact H|].
  cbn [snd]. rewrite map_app, last_length, seq_S, map_app, H. simpl. do 2 f_equal. lia.
Qed.

Lemma create_all_sequential (bodies : list Body) (us : list User) :
  sequential us -> sequential (create_all bodies us).
Proof.
  unfold create_all. revert us.
  induction bodies as [|b bs IH]; simpl; intros us H; [exact H|].
  apply IH. now apply createUser_sequential.
Qed.

Lemma sequential_NoDup (us : list User) : sequential us -> NoDup (map id us).
Proof.
  unfold sequential. intros ->.
  apply Finite.Injective_map_NoDup; [|apply seq_NoDup].
  intros x y. apply Nat2Z.inj.
Qed.

Lemma find_by_unique_id (us : list User) (u : User) :
  NoDup (map id us) -> In u us -> find (fun x => id x =? id u) us = Some u.
Proof.
  induction us as [|x l IH]; simpl; intros Hn Hin; [contradiction|].
  inversion Hn as [|? ? Hx Hl]; subst.
  destruct Hin as [-> | Hin]; [now rewrite Z.eqb_refl|].
  destruct (id x =? id u) eqn:E; [|now apply IH].
  exfalso. apply Hx. apply Z.eqb_eq in E. rewrite E. now apply in_map.
Qed.

(** X11. In the Mini Online Store, starting from an array whose ids are
    1, 2, ..., n (as the initial one) and after any sequence of
    [POST /users], the ids are still 1, 2, ..., and [GET /users/<id>] answers
    200 with exactly that user for every stored user. *)
Theorem mini_store_users_fetchable (bodies : list Body) (us0 : list User) (u : User) :
  sequential us0 ->
  let us := create_all bodies us0 in
  sequential us
  /\ (In u us ->
      getUserById (string_of_Z (id u)) us
      = json 200 [("success", JBool true); ("data", json_of_user u)]).
Proof.
  intros H0. cbv zeta.
  pose proof (create_all_sequential bodies us0 H0) as Hs. split; [exact Hs|].
  intros Hin. unfold getUserById.
  pose proof (parseInt_decimal (id u) "" eq_refl) as Hp. rewrite append_empty in Hp.
  rewrite Hp. change (id_equals (Some (id u))) with (fun x => id x =? id u).
  now rewrite (find_by_unique_id _ u (sequential_NoDup _ Hs) Hin).
Qed.

(** *** The array only grows *)

Lemma users_endpoint_grows (q : Request) (us : list User) :
  exists added,
    snd (users_endpoint (fst q) (snd q) us) = us ++ added
    /\ List.length added = if accepted q then 1%nat else 0%nat.
Proof.
  destruct q as [h r]. unfold users_endpoint, accepted. cbn [fst snd].
  destruct (auth h) as [refused|].
  - exists []. now rewrite app_nil_r.
  - destruct r as [i|b]; cbn [snd].
    + exists []. now rewrite app_nil_r.
    + unfold createUser.
      destruct (truthy (body_name b)), (truthy (body_email b)); cbn [negb orb andb snd];
        first [ now (exists []; rewrite app_nil_r) | now eexists [_] ].
Qed.

(** X12. In the Mini Online Store, no sequence of requests to [/users],
    with or without a token, removes or changes a stored user: the array
    afterwards is the array before followed by one new user for each
    [POST] that had a token, a truthy name and a truthy email, and by
    nothing else. *)
Theorem users_only_accumulate (reqs : list Request) (us : list User) :
  exists added,
    serve reqs us = us ++ added
    /\ List.length added = List.length (filter accepted reqs).
Proof.
  unfold serve. revert us.
  induction reqs as [|q reqs IH]; intros us.
  - exists []. now rewrite app_nil_r.
  - cbn [fold_left filter].
    destruct (users_endpoint_grows q us) as (a & -> & Ha).
    destruct (IH (us ++ a)) as (a' & -> & Ha').
    exists (a ++ a'). rewrite app_assoc. split; [reflexivity|].
    rewrite length_app, Ha, Ha'. now destruct (accepted q).
Qed.

End MiniMore.

(** * Further properties of the weather logger *)

Section WeatherMore.
Import Weather.
#[local] Open Scope N_scope.

Lemma split_app_sep (sep : N) (l rest : jsstring) :
  existsb (N.eqb sep) l = false ->
  split sep (l ++ sep :: rest) = l :: split sep rest.
Proof.
  induction l as [|c l IH]; simpl; intros H.
  - now rewrite N.eqb_refl.
  - apply orb_false_iff in H as [Hc Hl]. rewrite N.eqb_sym in Hc. rewrite Hc.
    now rewrite (IH Hl).
Qed.

Lemma split_plain (sep : N) (l : jsstring) :
  existsb (N.eqb sep) l = false -> split sep l = [l].
Proof.
  induction l as [|c l IH]; simpl; intros H; [reflexivity|].
  apply orb_false_iff in H as [Hc Hl]. rewrite N.eqb_sym in Hc. rewrite Hc.
  now rewrite (IH Hl).
Qed.

Lemma split_nonempty (sep : N) (s : jsstring) : split sep s <> [].
Proof.
  destruct s as [|c s]; simpl; [discriminate|].
  destruct (c =? sep); [discriminate|]. destruct (split sep s); discriminate.
Qed.

Lemma join_split (sep : N) (s : jsstring) : join [sep] (split sep s) = s.
Proof.
  induction s as [|c s IH]; [reflexivity|].
  simpl split. destruct (c =? sep) eqn:E.
  - apply N.eqb_eq in E. subst c.
    pose proof (split_nonempty sep s) as Hn.
    destruct (split sep s) as [|x r]; [contradiction|].
    change (join [sep] ([] :: x :: r)) with ([] ++ [sep] ++ join [sep] (x :: r)).
    now rewrite IH.
  - pose proof (split_nonempty sep s) as Hn.
    destruct (split sep s) as [|x r]; [contradiction|].
    destruct r as [|y r].
    + simpl in *. now rewrite IH.
    + change (join [sep] ((c :: x) :: y :: r)) with (c :: (x ++ [sep] ++ join [sep] (y :: r))).
      change (join [sep] (x :: y :: r)) with (x ++ [sep] ++ join [sep] (y :: r)) in IH.
      now rewrite IH.
Qed.

Lemma includes_unit (c : N) (x : jsstring) : includes x [c] = existsb (N.eqb c) x.
Proof.
  induction x as [|a x IH]; [reflexivity|].
  simpl. rewrite IH. now rewrite andb_true_r.
Qed.

Lemma after_colon_label (a rest : jsstring) :
  existsb (N.eqb colon) a = false ->
  after_colon (a ++ colon :: rest) = trim rest.
Proof.
  intros H. unfold after_colon. rewrite (split_app_sep _ _ _ H).
  cbn [tl]. now rewrite join_split.
Qed.

Lemma trimStart_keeps (c : N) (l : jsstring) :
  In c l -> is_white c = false -> In c (trimStart l).
Proof.
  intros Hin Hc. induction l as [|a l IH]; [contradiction|].
  simpl. destruct (is_white a) eqn:Ea; [|exact Hin].
  destruct Hin as [-> | Hin]; [congruence | now apply IH].
Qed.

Lemma trimStart_idem (s : jsstring) : trimStart (trimStart s) = trimStart s.
Proof.
  induction s as [|c s IH]; [reflexivity|].
  simpl. destruct (is_white c) eqn:E; [exact IH|]. simpl. now rewrite E.
Qed.

Lemma trimEnd_idem (s : jsstring) : trimEnd (trimEnd s) = trimEnd s.
Proof. unfold trimEnd. now rewrite rev_involutive, trimStart_idem. Qed.

Lemma trimEnd_trim (s : jsstring) : trimEnd (trim s) = trim s.
Proof. unfold trim. apply trimEnd_idem. Qed.

Lemma trimStart_head (s : jsstring) :
  match trimStart s with
  | [] => True
  | c :: _ => is_white c = false
  end.
Proof.
  induction s as [|c s IH]; [exact I|].
  simpl. destruct (is_white c) eqn:E; [exact IH | exact E].
Qed.

Lemma trimStart_app_inked (s t : jsstring) :
  trimStart s <> [] -> trimStart (s ++ t) = trimStart s ++ t.
Proof.
  induction s as [|c s IH]; [contradiction|].
  simpl. destruct (is_white c); [exact IH | reflexivity].
Qed.

Lemma trimStart_all_white (s : jsstring) :
  trimStart s = [] -> forall t, trimStart (s ++ t) = trimStart t.
Proof.
  induction s as [|c s IH]; [reflexivity|].
  simpl. destruct (is_white c); [exact IH | discriminate].
Qed.

(** Removing white space at the end leaves the first code unit in place. *)
Lemma trimEnd_head (c : N) (s : jsstring) :
  is_white c = false -> exists s', trimEnd (c :: s) = c :: s'.
Proof.
  intros Hc. unfold trimEnd. simpl rev.
  destruct (trimStart (rev s)) as [|d r] eqn:E.
  - rewrite (trimStart_all_white _ E). simpl. rewrite Hc. now exists [].
  - rewrite trimStart_app_inked by (rewrite E; discriminate).
    rewrite E, rev_app_distr. simpl. now eexists.
Qed.

Lemma trimStart_trim (s : jsstring) : trimStart (trim s) = trim s.
Proof.
  unfold trim. pose proof (trimStart_head s) as Hh.
  destruct (trimStart s) as [|c r]; [reflexivity|].
  destruct (trimEnd_head c r Hh) as [s' ->]. simpl. now rewrite Hh.
Qed.

Lemma trim_keeps (c : N) (l : jsstring) :
  In c l -> is_white c = false -> In c (trim l).
Proof.
  intros Hin Hc. unfold trim, trimEnd.
  apply in_rev. rewrite rev_involutive.
  apply trimStart_keeps; [|exact Hc]. apply in_rev. rewrite rev_involutive.
  now apply trimStart_keeps.
Qed.

Lemma kept_inked (c : N) (l : jsstring) :
  In c l -> is_white c = false -> kept l = negb (includes l (lit "===")).
Proof.
  intros Hin Hc. unfold kept.
  pose proof (trim_keeps c l Hin Hc) as H.
  destruct (trim l); [contradiction | reflexivity].
Qed.

Lemma plain_marks (x : jsstring) :
  plain x = true ->
  existsb (N.eqb newline) x = false
  /\ includes x (lit "===") = false
  /\ includes x (lit "Time") = false
  /\ includes x (lit "Temperature") = false
  /\ includes x (lit "Wind Speed") = false
  /\ includes x (lit "Wind Dir") = false
  /\ includes x (lit "Weather Code") = false
  /\ includes x (lit "generated") = false.
Proof.
  unfold plain, marks. cbn [forallb]. rewrite includes_unit.
  intros H.
  repeat (apply andb_prop in H; destruct H as [?%negb_true_iff H]).
  repeat split; assumption.
Qed.


Lemma split_join (sep : N) (ls : list jsstring) :
  ls <> [] ->
  Forall (fun l => existsb (N.eqb sep) l = false) ls ->
  split sep (join [sep] ls) = ls.
Proof.
  induction ls as [|x r IH]; [contradiction|].
  intros _ H. inversion H as [|? ? Hx Hr]; subst.
  destruct r as [|y r]; [now apply split_plain|].
  change (join [sep] (x :: y :: r)) with (x ++ sep :: join [sep] (y :: r)).
  rewrite (split_app_sep _ _ _ Hx). f_equal. apply IH; [discriminate | exact Hr].
Qed.


Ltac by_reading := cbn; first [reflexivity | assumption].

Ltac read_marks :=
  repeat match goal with
  | |- context [includes ?l ?k] =>
      first [ replace (includes l k) with true by (symmetry; by_reading)
            | replace (includes l k) with false by (symmetry; by_reading) ]
  end.

Section Line.
Variable x : jsstring.
Hypothesis E : includes x (lit "===") = false.
Hypothesis A : includes x (lit "Time") = false.
Hypothesis B : includes x (lit "Temperature") = false.
Hypothesis C : includes x (lit "Wind Speed") = false.
Hypothesis D : includes x (lit "Wind Dir") = false.
Hypothesis F : includes x (lit "Weather Code") = false.
Hypothesis G : includes x (lit "generated") = false.

Lemma labelled_kept (label : jsstring) (c : N) :
  In c label -> is_white c = false ->
  includes (label ++ x) (lit "===") = false ->
  kept (label ++ x) = true.
Proof.
  intros Hin Hc Hr. rewrite (kept_inked c); [now rewrite Hr | | exact Hc].
  apply in_or_app. now left.
Qed.

Ltac read_labelled full label :=
  unfold read_line; read_marks;
  change (full ++ x) with (label ++ colon :: 32 :: x);
  now rewrite (after_colon_label label (32 :: x) eq_refl).

Lemma time_line_kept : kept (lit "  Time         : " ++ x) = true.
Proof. apply (labelled_kept _ 84); [cbn; tauto | reflexivity | by_reading]. Qed.

Lemma time_line_read (v : Vars) :
  read_line v (lit "  Time         : " ++ x)
  = {| time := trim x; temp := temp v; wind := wind v; windDir := windDir v; code := code v; generated := generated v |}.
Proof. read_labelled (lit "  Time         : ") (lit "  Time         "). Qed.

Lemma temperature_line_kept : kept (lit "  Temperature  : " ++ x) = true.
Proof. apply (labelled_kept _ 84); [cbn; tauto | reflexivity | by_reading]. Qed.

Lemma temperature_line_read (v : Vars) :
  read_line v (lit "  Temperature  : " ++ x)
  = {| time := time v; temp := trim x; wind := wind v; windDir := windDir v; code := code v; generated := generated v |}.
Proof. read_labelled (lit "  Temperature  : ") (lit "  Temperature  "). Qed.

Lemma wind_speed_line_kept : kept (lit "  Wind Speed   : " ++ x) = true.
Proof. apply (labelled_kept _ 87); [cbn; tauto | reflexivity | by_reading]. Qed.

Lemma wind_speed_line_read (v : Vars) :
  read_line v (lit "  Wind Speed   : " ++ x)
  = {| time := time v; temp := temp v; wind := trim x; windDir := windDir v; code := code v; generated := generated v |}.
Proof. read_labelled (lit "  Wind Speed   : ") (lit "  Wind Speed   "). Qed.

Lemma wind_dir_line_kept : kept (lit "  Wind Dir.    : " ++ x) = true.
Proof. apply (labelled_kept _ 87); [cbn; tauto | reflexivity | by_reading]. Qed.

Lemma wind_dir_line_read (v : Vars) :
  read_line v (lit "  Wind Dir.    : " ++ x)
  = {| time := time v; temp := temp v; wind := wind v; windDir := trim x; code := code v; generated := generated v |}.
Proof. read_labelled (lit "  Wind Dir.    : ") (lit "  Wind Dir.    "). Qed.

Lemma weather_code_line_kept : kept (lit "  Weather Code : " ++ x) = true.
Proof. apply (labelled_kept _ 87); [cbn; tauto | reflexivity | by_reading]. Qed.

Lemma weather_code_line_read (v : Vars) :
  read_line v (lit "  Weather Code : " ++ x)
  = {| time := time v; temp := temp v; wind := wind v; windDir := windDir v; code := trim x; generated := generated v |}.
Proof. read_labelled (lit "  Weather Code : ") (lit "  Weather Code "). Qed.

Lemma generated_line_kept : kept (lit "  Report generated: " ++ x) = true.
Proof. apply (labelled_kept _ 82); [cbn; tauto | reflexivity | by_reading]. Qed.

Lemma generated_line_read (v : Vars) :
  read_line v (lit "  Report generated: " ++ x)
  = {| time := time v; temp := temp v; wind := wind v; windDir := windDir v; code := code v; generated := trim x |}.
Proof. read_labelled (lit "  Report generated: ") (lit "  Report generated"). Qed.

End Line.

(** X13. In the weather logger, [buildHTML] reads back from the report of
    [fetchWeather] the six texts the report was built from, trimmed: the
    time, the temperature with its unit, the wind speed with its unit, the
    wind direction with its degree sign, the weather code and the date of the
    report, colons inside them included; this holds when none of the six
    texts has a line break, a run of three [=] or one of the six labels in
    it. *)
Theorem report_read_back (weather : Api.current_weather) (localeString : jsstring) :
  forallb plain (texts weather localeString) = true ->
  buildHTML_vars (fetchWeather weather localeString)
  = {| time := trim (Api.time weather);
       temp := trim (Api.temperature weather ++ lit " " ++ [degree] ++ lit "C");
       wind := trim (Api.windspeed weather ++ lit " km/h");
       windDir := trim (Api.winddirection weather ++ [degree]);
       code := trim (Api.weathercode weather);
       generated := trim localeString |}.
Proof.
  destruct weather as [tm te ws wd wc]. unfold texts. cbn [Api.time Api.temperature
    Api.windspeed Api.winddirection Api.weathercode forallb].
  set (te' := te ++ lit " " ++ [degree] ++ lit "C").
  set (ws' := ws ++ lit " km/h").
  set (wd' := wd ++ [degree]).
  intros H.
  apply andb_prop in H as [(N1 & E1 & A1 & B1 & C1 & D1 & F1 & G1)%plain_marks H].
  apply andb_prop in H as [(N2 & E2 & A2 & B2 & C2 & D2 & F2 & G2)%plain_marks H].
  apply andb_prop in H as [(N3 & E3 & A3 & B3 & C3 & D3 & F3 & G3)%plain_marks H].
  apply andb_prop in H as [(N4 & E4 & A4 & B4 & C4 & D4 & F4 & G4)%plain_marks H].
  apply andb_prop in H as [(N5 & E5 & A5 & B5 & C5 & D5 & F5 & G5)%plain_marks H].
  apply andb_prop in H as [(N6 & E6 & A6 & B6 & C6 & D6 & F6 & G6)%plain_marks _].
  unfold buildHTML_vars, fetchWeather.
  cbn [Api.time Api.temperature Api.windspeed Api.winddirection Api.weathercode].
  fold te' ws' wd'.
  rewrite split_join; [|discriminate|].
  2:{ repeat constructor; try reflexivity;
      rewrite existsb_app; apply orb_false_iff; split; try reflexivity; assumption. }
  cbn [filter].
  change (kept rule) with false.
  change (kept (lit "  Weather Report " ++ [em_dash] ++ lit " Vehari, Pakistan")) with true.
  rewrite time_line_kept, temperature_line_kept, wind_speed_line_kept, wind_dir_line_kept,
    weather_code_line_kept, generated_line_kept by assumption.
  cbn [fold_left].
  rewrite generated_line_read, weather_code_line_read, wind_dir_line_read,
    wind_speed_line_read, temperature_line_read, time_line_read by assumption.
  reflexivity.
Qed.

(** X14. In the weather logger, what [buildHTML] takes from a line is all
    that follows the first colon of the line, later colons included, with
    the white space at both ends removed; from a line without a colon it
    takes the empty string. *)
Theorem after_colon_is_past_first_colon (label rest : jsstring) :
  existsb (N.eqb colon) label = false ->
  after_colon (label ++ colon :: rest) = trim rest
  /\ after_colon label = []
  /\ trimStart (trim rest) = trim rest
  /\ trimEnd (trim rest) = trim rest.
Proof.
  intros H. split; [now apply after_colon_label|].
  split; [unfold after_colon; now rewrite (split_plain _ _ H)|].
  split; [apply trimStart_trim | apply trimEnd_trim].
Qed.

End WeatherMore.

(** ** The further statements on the sample states *)

Section RunsMore.
Import Js Http Req Server View Inv.

#[local] Existing Instance reference_drivers.

Lemma fresh_sound : sound Demo.fresh.
Proof.
  split; [split; apply empty_keys_issued|].
  repeat split; constructor.
Qed.

Lemma get_user_reads_the_named_user_witness :
  ready Mysql Demo.with_both = true
  /\ let '(r, w') := app Demo.env Mysql (GetUser "2") Demo.with_both in
     w' = Demo.with_both
     /\ (status r = 404 <-> castable Mysql "2" = true /\ matches Mysql "2" Demo.with_both = false)
     /\ (status r = 500 <-> castable Mysql "2" = false)
     /\ (status r = 200 <-> matches Mysql "2" Demo.with_both = true)
     /\ (status r = 200 ->
         success r = Some (JBool true)
         /\ exists user, data r = Some user /\ In user (stored Mysql Demo.with_both)
                         /\ answers_to Mysql "2" user)
     /\ (status r <> 200 -> success r = Some (JBool false)).
Proof.
  split; [reflexivity|].
  exact (get_user_reads_the_named_user Demo.env Mysql "2" Demo.with_both eq_refl).
Defined.

Lemma refused_request_changes_nothing_witness :
  let '(r, w') := app Demo.env Mysql (CreateUser Demo.no_name) Demo.with_both in
  success r = Some (JBool false) /\ w' = Demo.with_both.
Proof.
  pose proof (refused_request_changes_nothing Demo.env Mysql (CreateUser Demo.no_name)
                Demo.with_both) as H.
  destruct (app Demo.env Mysql (CreateUser Demo.no_name) Demo.with_both) as [r w'] eqn:E.
  assert (Hs : success r = Some (JBool false)) by (now injection E as <- _).
  split; [exact Hs | exact (H Hs)].
Defined.

Lemma update_then_fetch_witness :
  let '(r1, w1) := app Demo.later Mysql (UpdateUser "1" Demo.spaced) Demo.with_both in
  status r1 = 200
  /\ let '(r2, w2) := app Demo.env Mysql (GetUser "1") w1 in
     status r2 = 200 /\ w2 = w1
     /\ exists user,
          data r2 = Some user
          /\ answers_to Mysql "1" user
          /\ get "name" user = Some (JStr "Erin")
          /\ get "email" user = Some (JStr "erin@x.com")
          /\ get "phone" user = Some (JStr "12345678901234567890").
Proof.
  pose proof (update_then_fetch Demo.later Demo.env Mysql "1" Demo.spaced Demo.with_both)
    as H.
  destruct (app Demo.later Mysql (UpdateUser "1" Demo.spaced) Demo.with_both)
    as [r1 w1] eqn:E.
  assert (Hs : status r1 = 200) by (now injection E as <- _).
  split; [exact Hs|]. specialize (H Hs).
  destruct (app Demo.env Mysql (GetUser "1") w1) as [r2 w2].
  destruct H as (H1 & H2 & user & Hd & Ha & Hn & He & Hp).
  split; [exact H1|]. split; [exact H2|].
  exists user. split; [exact Hd|]. split; [exact Ha|].
  split; [exact (Hn _ eq_refl)|]. split; [exact (He _ eq_refl) | exact (Hp _ eq_refl)].
Defined.

Lemma ids_stay_unique_witness :
  sound Demo.fresh
  /\ sound (run [(Demo.env, Sqlite, CreateUser Demo.dave);
                 (Demo.later, Sqlite, CreateUser Demo.erin);
                 (Demo.later, Sqlite, DeleteUser "1");
                 (Demo.later, Mongo, CreateUser Demo.erin);
                 (Demo.later, Sqlite, CreateUser Demo.dave)] Demo.fresh).
Proof.
  split; [exact fresh_sound|].
  exact (ids_stay_unique _ Demo.fresh fresh_sound).
Defined.

Lemma with_both_unique : unique_ids Demo.with_both.
Proof.
  repeat split; vm_compute; repeat constructor; simpl; intuition discriminate.
Qed.

Lemma delete_then_fetch_witness :
  unique_ids Demo.with_both
  /\ let '(r1, w1) := app Demo.env Mongo (DeleteUser "65f1c0ffee0123456789abcd")
                          Demo.with_both in
     status r1 = 200
     /\ matches Mongo "65f1c0ffee0123456789abcd" w1 = false
     /\ fst (app Demo.later Mongo (GetUser "65f1c0ffee0123456789abcd") w1)
        = failure 404 "User not found"
     /\ S (List.length (stored Mongo w1)) = List.length (stored Mongo Demo.with_both).
Proof.
  split; [exact with_both_unique|].
  pose proof (delete_then_fetch Demo.env Demo.later Mongo "65f1c0ffee0123456789abcd"
                Demo.with_both with_both_unique) as H.
  destruct (app Demo.env Mongo (DeleteUser "65f1c0ffee0123456789abcd") Demo.with_both)
    as [r1 w1] eqn:E.
  assert (Hs : status r1 = 200) by (now injection E as <- _).
  split; [exact Hs|].
  destruct (H Hs) as (H1 & H2 & H3 & _).
  split; [exact H1|]. split; [exact H2 | exact H3].
Defined.

Lemma sql_ids_never_reused_witness :
  wf Demo.with_both
  /\ In 2 (ids_in_use Sqlite Demo.with_both)
  /\ let '(r, w') := app Demo.later Sqlite (CreateUser Demo.dave)
                         (run [(Demo.later, Sqlite, DeleteUser "2");
                               (Demo.later, Sqlite, DeleteUser "1")] Demo.with_both) in
     status r = 201
     /\ ids_in_use Sqlite w' = [3]
     /\ exists i user,
          data r = Some user /\ get "id" user = Some (JNum i)
          /\ 2 < i /\ In i (ids_in_use Sqlite w').
Proof.
  assert (Hwf : wf Demo.with_both) by (repeat apply app_preserves_wf; exact (proj1 fresh_sound)).
  assert (Hin : In 2 (ids_in_use Sqlite Demo.with_both)) by (vm_compute; tauto).
  split; [exact Hwf|]. split; [exact Hin|].
  pose proof (sql_ids_never_reused Demo.later Sqlite Demo.dave
                [(Demo.later, Sqlite, DeleteUser "2");
                 (Demo.later, Sqlite, DeleteUser "1")] Demo.with_both 2 Hwf Hin) as H.
  destruct (app Demo.later Sqlite (CreateUser Demo.dave)
              (run [(Demo.later, Sqlite, DeleteUser "2");
                    (Demo.later, Sqlite, DeleteUser "1")] Demo.with_both))
    as [r w'] eqn:E.
  assert (Hs : status r = 201) by (now injection E as <- _).
  split; [exact Hs|]. split; [now injection E as _ <-|]. exact (H Hs).
Defined.

Lemma created_user_heads_the_list_witness :
  Forall (fun t => t < now Demo.later) (creation_times Mysql Demo.with_dave)
  /\ let '(r1, w1) := app Demo.later Mysql (CreateUser Demo.erin) Demo.with_dave in
     status r1 = 201
     /\ exists first rest before,
          data (fst (app Demo.env Mysql ListUsers Demo.with_dave)) = Some (JArr before)
          /\ data (fst (app Demo.env Mysql ListUsers w1)) = Some (JArr (first :: rest))
          /\ Permutation rest before
          /\ get "name" first = Some (JStr "Erin")
          /\ get "email" first = Some (JStr "erin@x.com")
          /\ get "phone" first = Some (JStr "777")
          /\ created Mysql first = Some (now Demo.later).
Proof.
  assert (Hold : Forall (fun t => t < now Demo.later) (creation_times Mysql Demo.with_dave))
    by (repeat constructor).
  split; [exact Hold|].
  pose proof (created_user_heads_the_list Demo.later Demo.env Mysql "Erin" "erin@x.com" "777"
                Demo.with_dave Hold) as H.
  change (texts "Erin" "erin@x.com" "777") with Demo.erin in H.
  destruct (app Demo.later Mysql (CreateUser Demo.erin) Demo.with_dave) as [r1 w1] eqn:E.
  assert (Hs : status r1 = 201) by (now injection E as <- _).
  split; [exact Hs | exact (H Hs)].
Defined.

Lemma update_answers_by_match_witness :
  ready Mysql Demo.with_both = true
  /\ storable Mysql "Erin" "erin@x.com" "777" = true
  /\ addressable Mysql "2" = true
  /\ matches Mysql "2" Demo.with_both = true
  /\ status (fst (app Demo.later Mysql (UpdateUser "2" Demo.erin) Demo.with_both)) = 200
  /\ addressable Mysql "7" = true
  /\ matches Mysql "7" Demo.with_both = false
  /\ fst (app Demo.later Mysql (UpdateUser "7" Demo.erin) Demo.with_both)
     = failure 404 "User not found".
Proof.
  split; [reflexivity|]. split; [reflexivity|]. split; [reflexivity|].
  split; [reflexivity|].
  split.
  - exact (proj1 (proj1 (update_answers_by_match Demo.later Mysql "2" "Erin" "erin@x.com"
                           "777" Demo.with_both eq_refl eq_refl eq_refl) eq_refl)).
  - split; [reflexivity|]. split; [reflexivity|].
    exact (proj2 (update_answers_by_match Demo.later Mysql "7" "Erin" "erin@x.com" "777"
                    Demo.with_both eq_refl eq_refl eq_refl) eq_refl).
Defined.

Lemma update_keeps_the_listing_order_witness :
  let '(r1, w1) := app Demo.later Mysql (UpdateUser "1" Demo.erin) Demo.with_both in
  status r1 = 200
  /\ map (id_of Mysql) (stored Mysql w1) = [Some (JNum 1); Some (JNum 2)]
  /\ exists before after,
       data (fst (app Demo.env Mysql ListUsers Demo.with_both)) = Some (JArr before)
       /\ data (fst (app Demo.env Mysql ListUsers w1)) = Some (JArr after)
       /\ Forall2 (same_user Mysql "1") before after.
Proof.
  pose proof (update_keeps_the_listing_order Demo.later Demo.env Mysql "1" Demo.erin
                Demo.with_both) as H.
  destruct (app Demo.later Mysql (UpdateUser "1" Demo.erin) Demo.with_both)
    as [r1 w1] eqn:E.
  assert (Hs : status r1 = 200) by (now injection E as <- _).
  split; [exact Hs|]. split; [now injection E as _ <-|]. exact (H Hs).
Defined.

Lemma getUserById_ignores_trailing_text_witness :
  MiniView.no_digit_ahead "abc" = true
  /\ MiniStore.getUserById "2abc" MiniStore.users
     = MiniStore.getUserById "2" MiniStore.users
  /\ status (MiniStore.getUserById "2abc" MiniStore.users) = 200.
Proof.
  split; [reflexivity|].
  split; [|reflexivity].
  exact (proj1 (getUserById_ignores_trailing_text 2 "abc" MiniStore.users eq_refl)).
Defined.

Lemma mini_store_users_fetchable_witness :
  MiniView.sequential MiniStore.users
  /\ let dana := MiniStore.mkUser 4 (JStr "Dana") (JStr "dana@example.com")
                   (JStr "customer") in
     let us := MiniView.create_all
                 [MiniStore.mkBody (JStr "Dana") (JStr "dana@example.com") JUndefined;
                  Demo.nameless] MiniStore.users in
     MiniView.sequential us
     /\ In dana us
     /\ MiniStore.getUserById "4" us
        = json 200 [("success", JBool true); ("data", MiniStore.json_of_user dana)].
Proof.
  split; [reflexivity|]. cbv zeta.
  pose proof (mini_store_users_fetchable
                [MiniStore.mkBody (JStr "Dana") (JStr "dana@example.com") JUndefined;
                 Demo.nameless] MiniStore.users
                (MiniStore.mkUser 4 (JStr "Dana") (JStr "dana@example.com") (JStr "customer"))
                eq_refl) as [H1 H2].
  split; [exact H1|].
  assert (Hin : In (MiniStore.mkUser 4 (JStr "Dana") (JStr "dana@example.com")
                      (JStr "customer"))
                   (MiniView.create_all
                      [MiniStore.mkBody (JStr "Dana") (JStr "dana@example.com") JUndefined;
                       Demo.nameless] MiniStore.users))
    by (vm_compute; tauto).
  split; [exact Hin | exact (H2 Hin)].
Defined.

Lemma report_read_back_witness :
  forallb Weather.plain (Weather.texts Demo.sample_weather Demo.sample_date) = true
  /\ Weather.buildHTML_vars (Weather.fetchWeather Demo.sample_weather Demo.sample_date)
     = {| Weather.time := Weather.lit "2026-03-14T09:30";
          Weather.temp := Weather.lit "23.4 " ++ [Weather.degree] ++ Weather.lit "C";
          Weather.wind := Weather.lit "7.2 km/h";
          Weather.windDir := Weather.lit "310" ++ [Weather.degree];
          Weather.code := Weather.lit "1";
          Weather.generated := Weather.lit "3/14/2026, 9:31:07 AM" |}.
Proof.
  split; [reflexivity|].
  exact (report_read_back Demo.sample_weather Demo.sample_date eq_refl).
Defined.

Lemma after_colon_is_past_first_colon_witness :
  existsb (N.eqb Weather.colon) (Weather.lit "  Time         ") = false
  /\ Weather.after_colon (Weather.lit "  Time         : 2026-03-14T09:30  ")
     = Weather.lit "2026-03-14T09:30"
  /\ Weather.after_colon (Weather.lit "  Time         ") = [].
Proof.
  split; [reflexivity|].
  pose proof (after_colon_is_past_first_colon (Weather.lit "  Time         ")
                (Weather.lit " 2026-03-14T09:30  ") eq_refl) as (H1 & H2 & _).
  split; [exact H1 | exact H2].
Defined.

End RunsMore.
